(** * Vietnamese house-price pipeline: preprocessing contracts

    A shallow embedding of the feature-engineering code of the repository:

    - [demo/backend/app/services/tree_preprocess_service.py]
      (the online single-record preprocessor, [TreePreprocessService]);
    - [demo/backend/libs/data_preprocess/data_preprocessor.py]
      ([DataPreprocessor], including the address decomposer);
    - [demo/backend/libs/data_preprocess/enhanced_preprocessing.py]
      ([create_interaction_features]);
    - [demo/backend/libs/data_preprocess/tree_optimized_preprocessing.py]
      ([basic_preprocessing], [split_and_encode]).

    Conventions.  A Python [str] is a Rocq [string] holding its UTF-8
    encoding (equality, emptiness, splitting on an ASCII separator and
    code-point order are all preserved by UTF-8).  A Python [float] is a
    binary64 primitive float.  A Python [int] is a [Z].  Exceptions are an
    explicit [Raise] outcome.  Builtins whose behaviour is not repository
    code ([str.lower], [float] on a string, [hash]) are operations of the
    class [PyBuiltins]; every general theorem holds for all of them. *)

From Stdlib Require Import ZArith QArith Qabs String Ascii List Bool Lia.
From Stdlib Require Import PrimFloat SpecFloat FloatOps FloatAxioms.
From stdpp Require Import gmap strings list pretty.

Open Scope Z_scope.
Open Scope string_scope.

(** ** Python strings *)

Module PyStr.

(** [bytes l] is the string whose bytes have the codes [l]. *)
Definition bytes (l : list nat) : string :=
  string_of_list_ascii (map ascii_of_nat l).

(** The UTF-8 encodings of the code points for which [str.isspace] holds:
    U+0009..U+000D, U+001C..U+0020, U+0085, U+00A0, U+1680,
    U+2000..U+200A, U+2028, U+2029, U+202F, U+205F and U+3000. *)
Definition whitespace : list (list nat) :=
  [ [9]; [10]; [11]; [12]; [13]; [28]; [29]; [30]; [31]; [32];
    [194; 133]; [194; 160]; [225; 154; 128];
    [226; 128; 128]; [226; 128; 129]; [226; 128; 130]; [226; 128; 131];
    [226; 128; 132]; [226; 128; 133]; [226; 128; 134]; [226; 128; 135];
    [226; 128; 136]; [226; 128; 137]; [226; 128; 138];
    [226; 128; 168]; [226; 128; 169]; [226; 128; 175];
    [226; 129; 159]; [227; 128; 128] ]%nat.

Fixpoint is_prefix (p l : list ascii) : bool :=
  match p, l with
  | [], _ => true
  | a :: p', b :: l' => if Ascii.eqb a b then is_prefix p' l' else false
  | _ :: _, [] => false
  end.

(** Length in bytes of the whitespace character that starts [l], or [0]. *)
Definition space_at_head (l : list ascii) : nat :=
  match List.find (fun w => is_prefix (map ascii_of_nat w) l) whitespace with
  | Some w => length w
  | None => 0%nat
  end.

(** Length in bytes of the whitespace character that ends the text whose
    reversed bytes are [r], or [0]. *)
Definition space_at_end (r : list ascii) : nat :=
  match List.find (fun w => is_prefix (rev (map ascii_of_nat w)) r) whitespace with
  | Some w => length w
  | None => 0%nat
  end.

Fixpoint drop_while_space (at_head : list ascii -> nat) (fuel : nat)
  (l : list ascii) : list ascii :=
  match fuel with
  | O => l
  | S fuel' =>
      match at_head l with
      | O => l
      | k => drop_while_space at_head fuel' (skipn k l)
      end
  end.

Definition lstrip_bytes (l : list ascii) : list ascii :=
  drop_while_space space_at_head (length l) l.

Definition rstrip_bytes (l : list ascii) : list ascii :=
  rev (drop_while_space space_at_end (length l) (rev l)).

(** [s.strip()] *)
Definition strip (s : string) : string :=
  string_of_list_ascii (rstrip_bytes (lstrip_bytes (list_ascii_of_string s))).

(** [s.rstrip(c)] for a one-byte character [c]: every trailing [c] goes. *)
Fixpoint rstrip_char (c : ascii) (s : string) : string :=
  match s with
  | EmptyString => EmptyString
  | String a s' =>
      match rstrip_char c s' with
      | EmptyString => if Ascii.eqb a c then EmptyString else String a EmptyString
      | t => String a t
      end
  end.

(** [s.split(c)] for a one-byte separator [c]; the result is never empty. *)
Fixpoint split (c : ascii) (s : string) : list string :=
  match s with
  | EmptyString => [EmptyString]
  | String a s' =>
      if Ascii.eqb a c then EmptyString :: split c s'
      else match split c s' with
           | p :: ps => String a p :: ps
           | [] => [String a EmptyString]
           end
  end.

(** [sep.join(parts)] *)
Fixpoint join (sep : string) (parts : list string) : string :=
  match parts with
  | [] => EmptyString
  | [p] => p
  | p :: ps => p ++ sep ++ join sep ps
  end.

(** [c in s] for a one-byte character [c]. *)
Fixpoint contains_char (c : ascii) (s : string) : bool :=
  match s with
  | EmptyString => false
  | String a s' => Ascii.eqb a c || contains_char c s'
  end.

(** The text neither starts nor ends with a whitespace character. *)
Definition stripped (s : string) : Prop :=
  space_at_head (list_ascii_of_string s) = 0%nat /\
  space_at_end (rev (list_ascii_of_string s)) = 0%nat.

(** ASCII-only lower-casing: what [str.lower] does on text whose capital
    letters are all in [A-Z]. *)
Definition lower_ascii_char (a : ascii) : ascii :=
  let n := nat_of_ascii a in
  if (65 <=? n)%nat && (n <=? 90)%nat then ascii_of_nat (n + 32) else a.

Fixpoint lower_ascii (s : string) : string :=
  match s with
  | EmptyString => EmptyString
  | String a s' => String (lower_ascii_char a) (lower_ascii s')
  end.

End PyStr.

(** ** Python values, exceptions and builtins *)

(** The values a JSON request can carry at a key (scalars; arrays and
    objects are outside the model). *)
Inductive pyval : Type :=
  | PNone
  | PBool (b : bool)
  | PInt (z : Z)
  | PFloat (f : float)
  | PStr (s : string).

Inductive exn : Type :=
  | AttributeError
  | KeyError
  | OverflowError
  | TypeError
  | ValueError
  | ZeroDivisionError.

Inductive outcome (A : Type) : Type :=
  | Ok (a : A)
  | Raise (e : exn).
Arguments Ok {A} a.
Arguments Raise {A} e.

Definition is_ok {A} (r : outcome A) : bool :=
  match r with Ok _ => true | Raise _ => false end.

(** The value of a returning outcome, [a] otherwise. *)
Definition from_outcome {A} (a : A) (r : outcome A) : A :=
  match r with Ok x => x | Raise _ => a end.

(** Builtins of the Python runtime that the repository calls and does not
    define. *)
Class PyBuiltins : Type := {
  (** [s.lower()] *)
  str_lower : string -> string;
  (** [float(s)] on a string: [None] stands for [ValueError] *)
  float_of_str : string -> option float;
  (** [hash(v)] *)
  py_hash : pyval -> Z
}.

(** [bool(v)] *)
Definition truthy (v : pyval) : bool :=
  match v with
  | PNone => false
  | PBool b => b
  | PInt z => negb (Z.eqb z 0)
  | PFloat f => negb (PrimFloat.eqb f 0)
  | PStr s => negb (String.eqb s "")
  end.

(** [float(z)] for an [int]: rounding to nearest even, [OverflowError]
    beyond the binary64 range. *)
Definition float_of_int (z : Z) : outcome float :=
  let f := SF2Prim (binary_normalize prec emax z 0 false) in
  if PrimFloat.is_infinity f then Raise OverflowError else Ok f.

(** [int(f)] for a [float]: truncation toward zero; [ValueError] on NaN,
    [OverflowError] on an infinity. *)
Definition int_of_float (f : float) : outcome Z :=
  match Prim2SF f with
  | S754_zero _ => Ok 0
  | S754_nan => Raise ValueError
  | S754_infinity _ => Raise OverflowError
  | S754_finite s m e =>
      let mag := if Z.leb 0 e then Z.shiftl (Z.pos m) e
                 else Z.shiftr (Z.pos m) (- e) in
      Ok (if s then - mag else mag)
  end.

(** [max(x, 1)] on a float: Python keeps [x] unless [1 > x]. *)
Definition max_1 (x : float) : float :=
  if PrimFloat.ltb x 1 then 1%float else x.

(** [d.get(k, default)] *)
Definition dict_get {V} (d : gmap string V) (k : string) (default : V) : V :=
  match d !! k with
  | Some v => v
  | None => default
  end.

(** ** sklearn's LabelEncoder *)

Record LabelEncoder : Type := { classes_ : list string }.

Fixpoint index_of (v : string) (l : list string) : option nat :=
  match l with
  | [] => None
  | x :: l' => if String.eqb x v then Some O
               else option_map S (index_of v l')
  end.

(** [val in le.classes_] for a string. *)
Definition in_classes (le : LabelEncoder) (val : string) : bool :=
  match index_of val (classes_ le) with Some _ => true | None => false end.

(** [le.transform([val])[0]]: the position of [val] among the classes,
    [ValueError] on an unseen label. *)
Definition transform (le : LabelEncoder) (val : string) : outcome Z :=
  match index_of val (classes_ le) with
  | Some i => Ok (Z.of_nat i)
  | None => Raise ValueError
  end.

(** Keeps the first of each run of equal neighbours. *)
Fixpoint dedup_sorted (l : list string) : list string :=
  match l with
  | [] => []
  | x :: l' =>
      match l' with
      | y :: _ => if String.eqb x y then dedup_sorted l' else x :: dedup_sorted l'
      | [] => [x]
      end
  end.

Fixpoint insert_string (x : string) (l : list string) : list string :=
  match l with
  | [] => [x]
  | y :: l' => if String.leb x y then x :: l else y :: insert_string x l'
  end.

(** [LabelEncoder().fit(y)]: the classes are the distinct labels, sorted. *)
Definition fit (y : list string) : LabelEncoder :=
  {| classes_ := dedup_sorted (fold_right insert_string [] y) |}.

(** ** The online single-record preprocessor
    ([tree_preprocess_service.py]) *)

Definition EXPECTED_FEATURES : list string :=
  [ "Area";
    "Frontage";
    "Access Road";
    "House direction";
    "Balcony direction";
    "Floors";
    "Bedrooms";
    "Bathrooms";
    "Legal status";
    "Furniture state";
    "new_has_balcony_direction";
    "new_has_house_direction";
    "new_city";
    "new_district";
    "new_street_ward";
    "new_has_access_road";
    "has_frontage";
    "new_bathroom_bedroom_ratio";
    "new_total_rooms";
    "new_is_large_house";
    "new_avg_room_size";
    "new_is_luxury";
    "new_is_multi_story";
    "Area_binned";
    "area_x_bathrooms";
    "area_x_bedrooms";
    "area_x_floors";
    "bedrooms_x_bathrooms";
    "bedrooms_x_floors";
    "luxury_score";
    "area_in_hồ_chí_minh";
    "area_in_hà_nội";
    "area_in_bình_dương";
    "area_in_đà_nẵng";
    "room_density";
    "access_quality";
    "new_district_area_mean";
    "new_district_area_median";
    "new_district_area_std";
    "new_district_sample_count";
    "new_district_tier" ].

Definition CITY_MAPPING : gmap string string :=
  list_to_map
  [ ("hồ chí minh", "Hồ Chí Minh");
    ("ho chi minh", "Hồ Chí Minh");
    ("hcm", "Hồ Chí Minh");
    ("tphcm", "Hồ Chí Minh");
    ("tp hcm", "Hồ Chí Minh");
    ("saigon", "Hồ Chí Minh");
    ("sài gòn", "Hồ Chí Minh");
    ("hà nội", "Hà Nội");
    ("ha noi", "Hà Nội");
    ("hanoi", "Hà Nội");
    ("bình dương", "Bình Dương");
    ("binh duong", "Bình Dương");
    ("đà nẵng", "Đà Nẵng");
    ("da nang", "Đà Nẵng");
    ("danang", "Đà Nẵng") ].

Definition DIRECTION_MAPPING : gmap string Z :=
  list_to_map
  [ ("đông", 0); ("dong", 0); ("east", 0); ("e", 0);
    ("tây", 1); ("tay", 1); ("west", 1); ("w", 1);
    ("nam", 2); ("south", 2); ("s", 2);
    ("bắc", 3); ("bac", 3); ("north", 3); ("n", 3);
    ("đông nam", 4); ("dong nam", 4); ("southeast", 4); ("se", 4);
    ("đông bắc", 5); ("dong bac", 5); ("northeast", 5); ("ne", 5);
    ("tây nam", 6); ("tay nam", 6); ("southwest", 6); ("sw", 6);
    ("tây bắc", 7); ("tay bac", 7); ("northwest", 7); ("nw", 7) ].

Definition LEGAL_STATUS_MAPPING : gmap string Z :=
  list_to_map
  [ ("sổ đỏ", 0); ("so do", 0);
    ("sổ hồng", 1); ("so hong", 1);
    ("hợp đồng", 2); ("hop dong", 2);
    ("đang chờ sổ", 3); ("dang cho so", 3);
    ("không rõ", 4); ("khong ro", 4) ].

Definition FURNITURE_MAPPING : gmap string Z :=
  list_to_map
  [ ("cao cấp", 0); ("cao cap", 0); ("full", 0);
    ("đầy đủ", 1); ("day du", 1); ("basic", 1);
    ("cơ bản", 2); ("co ban", 2);
    ("không nội thất", 3); ("khong noi that", 3); ("none", 3); ("trống", 3);
    ("không rõ", 4); ("khong ro", 4) ].

(** The loaded artifacts: [self.label_encoders] and [self.location_stats]
    (a mapping from district to a mapping from statistic name to value). *)
Record TreePreprocessService : Type := {
  label_encoders : gmap string LabelEncoder;
  location_stats : option (gmap string (gmap string pyval))
}.

Inductive log_level : Type := INFO | WARNING.

(** What a call can read and write: the service object and the logger. *)
Record world : Type := {
  self : TreePreprocessService;
  logged : list (log_level * string)
}.

(** A method body: it ends by returning or raising, in a new world. *)
Definition M (A : Type) : Type := world -> outcome A * world.

#[global] Instance M_ret : MRet M := fun A a w => (Ok a, w).
#[global] Instance M_bind : MBind M := fun A B f m w =>
  match m w with
  | (Ok a, w') => f a w'
  | (Raise e, w') => (Raise e, w')
  end.

Definition lift {A} (r : outcome A) : M A := fun w => (r, w).
Definition get_self : M TreePreprocessService := fun w => (Ok (self w), w).
Definition logger (lvl : log_level) (msg : string) : M unit :=
  fun w => (Ok tt, {| self := self w; logged := logged w ++ [(lvl, msg)] |}).

(** A one-row [DataFrame]: its columns, in order, with the row's values. *)
Definition row_frame : Type := list (string * pyval).

Definition frame_columns (df : row_frame) : list string := map fst df.

Section Service.
Context `{PyBuiltins}.

(** [_to_float(value, default=0.0)]; the [except] clause names
    [ValueError] and [TypeError] only. *)
Definition _to_float (value : pyval) (default : float) : outcome float :=
  match value with
  | PNone => Ok default
  | PStr "" => Ok default
  | PStr s =>
      match float_of_str s with
      | Some f => Ok f
      | None => Ok default
      end
  | PBool b => Ok (if b then 1%float else 0%float)
  | PInt z => float_of_int z
  | PFloat f => Ok f
  end.

(** [_normalize_city(city)] *)
Definition _normalize_city (city : pyval) : outcome string :=
  if negb (truthy city) then Ok "Hồ Chí Minh"
  else match city with
       | PStr s =>
           let city_lower := PyStr.strip (str_lower s) in
           Ok (dict_get CITY_MAPPING city_lower s)
       | _ => Raise AttributeError
       end.

(** The three encoders share one shape: a number is cast with [int], a
    string is looked up in a synonym table after [lower().strip()] with a
    default code, anything else gets the default code. *)
Definition encode_with (table : gmap string Z) (default : Z) (v : pyval)
  : outcome Z :=
  match v with
  | PBool b => Ok (if b then 1 else 0)
  | PInt z => Ok z
  | PFloat f => int_of_float f
  | PStr s => Ok (dict_get table (PyStr.strip (str_lower s)) default)
  | PNone => Ok default
  end.

Definition _encode_direction : pyval -> outcome Z :=
  encode_with DIRECTION_MAPPING 1.

Definition _encode_legal_status : pyval -> outcome Z :=
  encode_with LEGAL_STATUS_MAPPING 0.

Definition _encode_furniture : pyval -> outcome Z :=
  encode_with FURNITURE_MAPPING 1.

(** [value in le.classes_] for a request value (an element-wise numpy
    comparison: only a string can equal a class). *)
Definition in_classes_value (le : LabelEncoder) (v : pyval) : bool :=
  match v with
  | PStr s => in_classes le s
  | _ => false
  end.

(** [le.transform([value])[0]] for a request value. *)
Definition transform_value (le : LabelEncoder) (v : pyval) : outcome Z :=
  match v with
  | PStr s => transform le s
  | _ => Raise ValueError
  end.

(** [_encode_categorical(column, value)]; the bare [except] turns any
    exception of the encoder branch into [-1]. *)
Definition _encode_categorical (column : string) (value : pyval) : M Z :=
  svc ← get_self;
  match label_encoders svc !! column with
  | Some le =>
      let attempt :=
        if in_classes_value le value then transform_value le value
        else Ok (-1) in
      match attempt with
      | Ok code => mret code
      | Raise _ => mret (-1)
      end
  | None =>
      if negb (truthy value) then mret 0
      else mret (Z.abs (py_hash value) mod 1000)
  end.

(** Lines 158-273 of [preprocess]: the [processed] dictionary. *)
Definition compute_features (data : gmap string pyval) : M (gmap string pyval) :=
  let processed : gmap string pyval := ∅ in
  (* basic features *)
  area ← lift (_to_float (dict_get data "Area" (PInt 70)) 0);
  let processed := <["Area" := PFloat area]> processed in
  frontage ← lift (_to_float (dict_get data "Frontage" (PInt 0)) 0);
  let processed := <["Frontage" := PFloat frontage]> processed in
  access_road ← lift (_to_float
    (dict_get data "AccessRoad" (dict_get data "Access Road" (PInt 0))) 0);
  let processed := <["Access Road" := PFloat access_road]> processed in
  floors ← lift (_to_float (dict_get data "Floors" (PInt 1)) 0);
  let processed := <["Floors" := PFloat floors]> processed in
  bedrooms_raw ← lift (_to_float (dict_get data "Bedrooms" (PInt 2)) 0);
  let processed := <["Bedrooms" := PFloat bedrooms_raw]> processed in
  bathrooms ← lift (_to_float (dict_get data "Bathrooms" (PInt 2)) 0);
  let processed := <["Bathrooms" := PFloat bathrooms]> processed in
  (* categorical features *)
  let direction :=
    dict_get data "Direction" (dict_get data "House direction" (PStr "")) in
  house_direction ← lift (_encode_direction direction);
  let processed := <["House direction" := PInt house_direction]> processed in
  let balcony_dir :=
    dict_get data "BalconyDirection" (dict_get data "Balcony direction" (PStr "")) in
  balcony_direction ← lift (_encode_direction balcony_dir);
  let processed := <["Balcony direction" := PInt balcony_direction]> processed in
  let legal :=
    dict_get data "LegalStatus" (dict_get data "Legal status" (PStr "")) in
  legal_status ← lift (_encode_legal_status legal);
  let processed := <["Legal status" := PInt legal_status]> processed in
  let furniture :=
    dict_get data "Furniture" (dict_get data "Furniture state" (PStr "")) in
  furniture_state ← lift (_encode_furniture furniture);
  let processed := <["Furniture state" := PInt furniture_state]> processed in
  (* binary flags *)
  let processed := <["new_has_balcony_direction" :=
    PInt (if truthy balcony_dir then 1 else 0)]> processed in
  let processed := <["new_has_house_direction" :=
    PInt (if truthy direction then 1 else 0)]> processed in
  let processed := <["new_has_access_road" :=
    PInt (if PrimFloat.ltb 0 access_road then 1 else 0)]> processed in
  let processed := <["has_frontage" :=
    PInt (if PrimFloat.ltb 0 frontage then 1 else 0)]> processed in
  (* location features *)
  city ← lift (_normalize_city
    (dict_get data "City" (dict_get data "new_city" (PStr "Hồ Chí Minh"))));
  let district := dict_get data "District" (dict_get data "new_district" (PStr "")) in
  let ward := dict_get data "Ward" (dict_get data "new_street_ward" (PStr "")) in
  new_city ← _encode_categorical "new_city" (PStr city);
  let processed := <["new_city" := PInt new_city]> processed in
  new_district ← _encode_categorical "new_district" district;
  let processed := <["new_district" := PInt new_district]> processed in
  new_street_ward ← _encode_categorical "new_street_ward" ward;
  let processed := <["new_street_ward" := PInt new_street_ward]> processed in
  (* derived features *)
  let bedrooms := max_1 bedrooms_raw in
  let total_rooms := (bedrooms + bathrooms)%float in
  let processed := <["new_bathroom_bedroom_ratio" :=
    PFloat (bathrooms / bedrooms)]> processed in
  let processed := <["new_total_rooms" := PFloat total_rooms]> processed in
  let processed := <["new_is_large_house" :=
    PInt (if PrimFloat.ltb 140 area then 1 else 0)]> processed in
  let processed := <["new_avg_room_size" :=
    PFloat (area / max_1 total_rooms)]> processed in
  let processed := <["new_is_luxury" :=
    PInt (if PrimFloat.leb 4 bathrooms then 1 else 0)]> processed in
  let processed := <["new_is_multi_story" :=
    PInt (if PrimFloat.ltb 2 floors then 1 else 0)]> processed in
  let processed := <["Area_binned" :=
    PInt (if PrimFloat.ltb area 30 then 0
          else if PrimFloat.ltb area 60 then 1
          else if PrimFloat.ltb area 100 then 2
          else if PrimFloat.ltb area 150 then 3
          else 4)]> processed in
  (* interaction features *)
  let processed := <["area_x_bathrooms" := PFloat (area * bathrooms)]> processed in
  let processed := <["area_x_bedrooms" := PFloat (area * bedrooms)]> processed in
  let processed := <["area_x_floors" := PFloat (area * floors)]> processed in
  let processed := <["bedrooms_x_bathrooms" :=
    PFloat (bedrooms * bathrooms)]> processed in
  let processed := <["bedrooms_x_floors" := PFloat (bedrooms * floors)]> processed in
  (* luxury score *)
  let luxury_score := 0 in
  let luxury_score :=
    if PrimFloat.leb 3 bathrooms then luxury_score + 1 else luxury_score in
  let luxury_score :=
    if PrimFloat.ltb 100 area then luxury_score + 1 else luxury_score in
  let luxury_score :=
    if Z.eqb furniture_state 0 || Z.eqb furniture_state 1
    then luxury_score + 1 else luxury_score in
  let processed := <["luxury_score" := PInt luxury_score]> processed in
  (* city-specific area features *)
  let processed := <["area_in_hồ_chí_minh" :=
    if String.eqb city "Hồ Chí Minh" then PFloat area else PInt 0]> processed in
  let processed := <["area_in_hà_nội" :=
    if String.eqb city "Hà Nội" then PFloat area else PInt 0]> processed in
  let processed := <["area_in_bình_dương" :=
    if String.eqb city "Bình Dương" then PFloat area else PInt 0]> processed in
  let processed := <["area_in_đà_nẵng" :=
    if String.eqb city "Đà Nẵng" then PFloat area else PInt 0]> processed in
  (* density and quality features *)
  let processed := <["room_density" :=
    PFloat (total_rooms / max_1 area)]> processed in
  let processed := <["access_quality" :=
    PInt (if PrimFloat.eqb access_road 0 then 0
          else if PrimFloat.ltb access_road 5 then 1 else 2)]> processed in
  (* location stats *)
  svc ← get_self;
  let found :=
    match location_stats svc, district with
    | Some table, PStr d => table !! d
    | _, _ => None
    end in
  match found with
  | Some stats =>
      let processed := <["new_district_area_mean" :=
        dict_get stats "area_mean" (PInt 70)]> processed in
      let processed := <["new_district_area_median" :=
        dict_get stats "area_median" (PInt 65)]> processed in
      let processed := <["new_district_area_std" :=
        dict_get stats "area_std" (PInt 30)]> processed in
      let processed := <["new_district_sample_count" :=
        dict_get stats "sample_count" (PInt 100)]> processed in
      let processed := <["new_district_tier" :=
        dict_get stats "tier" (PInt 2)]> processed in
      mret processed
  | None =>
      let processed := <["new_district_area_mean" := PFloat 70]> processed in
      let processed := <["new_district_area_median" := PFloat 65]> processed in
      let processed := <["new_district_area_std" := PFloat 30]> processed in
      let processed := <["new_district_sample_count" := PInt 100]> processed in
      let processed := <["new_district_tier" := PInt 2]> processed in
      mret processed
  end.

(** The loop of lines 277-283: [result], with a warning for each expected
    feature that [processed] lacks. *)
Fixpoint collect_expected (features : list string)
  (processed result : gmap string pyval) : M (gmap string pyval) :=
  match features with
  | [] => mret result
  | feature :: rest =>
      match processed !! feature with
      | Some v => collect_expected rest processed (<[feature := v]> result)
      | None =>
          _ ← logger WARNING
                ("Missing feature: " ++ feature ++ ", using default 0");
          collect_expected rest processed (<[feature := PInt 0]> result)
      end
  end.

(** [pd.DataFrame([result])[columns]]: a missing column is a [KeyError]. *)
Fixpoint select_columns (columns : list string) (result : gmap string pyval)
  : outcome row_frame :=
  match columns with
  | [] => Ok []
  | c :: cs =>
      match result !! c with
      | Some v =>
          match select_columns cs result with
          | Ok df => Ok ((c, v) :: df)
          | Raise e => Raise e
          end
      | None => Raise KeyError
      end
  end.

(** Lines 275-292 of [preprocess]. *)
Definition create_dataframe (processed : gmap string pyval) : M row_frame :=
  result ← collect_expected EXPECTED_FEATURES processed ∅;
  df ← lift (select_columns EXPECTED_FEATURES result);
  _ ← logger INFO ("Preprocessed input to "
                   ++ pretty (length (frame_columns df)) ++ " features");
  mret df.

(** [TreePreprocessService.preprocess(data)] *)
Definition preprocess (data : gmap string pyval) : M row_frame :=
  processed ← compute_features data;
  create_dataframe processed.

End Service.

(** [df[column]] of a one-row frame. *)
Definition frame_get (df : row_frame) (column : string) : option pyval :=
  snd <$> List.find (fun cv => String.eqb (fst cv) column) df.

(** A reference runtime for closed examples: ASCII lower-casing, decimal
    integer literals for [float], and a constant [hash]. *)
Fixpoint digits_value (acc : Z) (s : string) : option Z :=
  match s with
  | EmptyString => Some acc
  | String a s' =>
      let n := nat_of_ascii a in
      if (48 <=? n)%nat && (n <=? 57)%nat
      then digits_value (10 * acc + Z.of_nat (n - 48)) s'
      else None
  end.

Definition float_of_digits (s : string) : option float :=
  match s with
  | EmptyString => None
  | _ => match digits_value 0 s with
         | Some z => match float_of_int z with Ok f => Some f | Raise _ => None end
         | None => None
         end
  end.

Definition reference_builtins : PyBuiltins :=
  {| str_lower := PyStr.lower_ascii;
     float_of_str := float_of_digits;
     py_hash := fun _ => 0 |}.

(** The row that lines 275-292 build from [processed]. *)
Definition expected_row (processed : gmap string pyval) : row_frame :=
  map (fun feature => (feature, default (PInt 0) (processed !! feature)))
      EXPECTED_FEATURES.

(** The warnings of the loop of lines 277-283. *)
Definition missing_warnings (features : list string)
  (processed : gmap string pyval) : list (log_level * string) :=
  map (fun feature =>
         (WARNING, "Missing feature: " ++ feature ++ ", using default 0"))
      (List.filter (fun feature => negb (bool_decide (is_Some (processed !! feature))))
                   features).

Definition fill_expected (features : list string)
  (processed result : gmap string pyval) : gmap string pyval :=
  fold_left (fun r feature =>
               <[feature := default (PInt 0) (processed !! feature)]> r)
            features result.

(** ** The request schema under which [preprocess] returns *)

Definition numeric_keys : list string :=
  ["Area"; "Frontage"; "AccessRoad"; "Access Road"; "Floors"; "Bedrooms";
   "Bathrooms"].

Definition code_keys : list string :=
  ["Direction"; "House direction"; "BalconyDirection"; "Balcony direction";
   "LegalStatus"; "Legal status"; "Furniture"; "Furniture state"].

Definition city_keys : list string := ["City"; "new_city"].

(** [float(v)] does not overflow: every value but an [int] beyond the
    binary64 range. *)
Definition float_convertible (v : pyval) : bool :=
  match v with
  | PInt z => is_ok (float_of_int z)
  | _ => true
  end.

(** Neither NaN nor an infinity. *)
Definition finite_float (f : float) : bool :=
  match Prim2SF f with
  | S754_nan | S754_infinity _ => false
  | S754_zero _ | S754_finite _ _ _ => true
  end.

(** [int(v)] is defined when [v] is a number. *)
Definition int_convertible (v : pyval) : bool :=
  match v with
  | PFloat f => finite_float f
  | _ => true
  end.

(** A string, or a value that [not city] sends to the default city. *)
Definition city_like (v : pyval) : bool :=
  match v with
  | PStr _ => true
  | _ => negb (truthy v)
  end.

Definition accepted_at (k : string) (v : pyval) : bool :=
  (if bool_decide (k ∈ numeric_keys) then float_convertible v else true)
  && (if bool_decide (k ∈ code_keys) then int_convertible v else true)
  && (if bool_decide (k ∈ city_keys) then city_like v else true).

Definition well_formed (data : gmap string pyval) : Prop :=
  map_Forall (fun k v => accepted_at k v = true) data.

(** A numeric value that [_to_float] replaces by its default. *)
Definition malformed_numeric `{PyBuiltins} (v : pyval) : bool :=
  match v with
  | PNone => true
  | PStr s =>
      String.eqb s "" ||
      match float_of_str s with Some _ => false | None => true end
  | _ => false
  end.

(** The six numeric features with the raw value each is read from. *)
Definition numeric_inputs (data : gmap string pyval) : list (string * pyval) :=
  [ ("Area", dict_get data "Area" (PInt 70));
    ("Frontage", dict_get data "Frontage" (PInt 0));
    ("Access Road",
      dict_get data "AccessRoad" (dict_get data "Access Road" (PInt 0)));
    ("Floors", dict_get data "Floors" (PInt 1));
    ("Bedrooms", dict_get data "Bedrooms" (PInt 2));
    ("Bathrooms", dict_get data "Bathrooms" (PInt 2)) ].

(** The condition sums of the two luxury scores. *)
Definition luxury_score_online (bathrooms area : float) (furniture_state : Z) : Z :=
  (if PrimFloat.leb 3 bathrooms then 1 else 0)
  + (if PrimFloat.ltb 100 area then 1 else 0)
  + (if Z.eqb furniture_state 0 || Z.eqb furniture_state 1 then 1 else 0).

Definition access_quality_online (access_road : float) : Z :=
  if PrimFloat.eqb access_road 0 then 0
  else if PrimFloat.ltb access_road 5 then 1 else 2.

(** The district of a request, as [preprocess] reads it. *)
Definition request_district (data : gmap string pyval) : pyval :=
  dict_get data "District" (dict_get data "new_district" (PStr "")).

(** [district in self.location_stats] *)
Definition district_known (svc : TreePreprocessService) (district : pyval) : bool :=
  match location_stats svc, district with
  | Some table, PStr d => bool_decide (is_Some (table !! d))
  | _, _ => false
  end.

(** [m] returns from [w] and leaves it as it was. *)
Definition returns_at {A} (m : M A) (w : world) : Prop :=
  exists a, m w = (Ok a, w).


(** ** The batch pipeline: pandas frames

    A cell of a column is a number, a string or missing ([None] stands for
    NaN).  Numbers are exact rationals: the batch contracts concern which
    cells are missing and how values compare with thresholds, not rounding.
    A frame maps a column name to its cells; all columns of a frame have
    the same length. *)

Inductive value : Type :=
  | VNum (q : Q)
  | VStr (s : string).

Module Pandas.

Definition value_eqb (a b : value) : bool :=
  match a, b with
  | VNum p, VNum q => Qeq_bool p q
  | VStr s, VStr t => String.eqb s t
  | _, _ => false
  end.

(** The order pandas sorts values of one kind by; a number sorts before a
    string. *)
Definition value_leb (a b : value) : bool :=
  match a, b with
  | VNum p, VNum q => Qle_bool p q
  | VStr s, VStr t => String.leb s t
  | VNum _, VStr _ => true
  | VStr _, VNum _ => false
  end.

(** [x == y] on cells: a missing cell equals nothing. *)
Definition cell_eqb (x y : option value) : bool :=
  match x, y with
  | Some a, Some b => value_eqb a b
  | _, _ => false
  end.

Definition isna (c : option value) : bool :=
  match c with Some _ => false | None => true end.

(** [s.isna().sum()] *)
Definition isna_sum (s : list (option value)) : nat :=
  length (List.filter isna s).

(** [s.fillna(v)] *)
Definition fillna (v : value) (s : list (option value)) : list (option value) :=
  map (fun c => match c with Some _ => c | None => Some v end) s.

(** [s.fillna(m)] where [m] is a statistic that may itself be NaN. *)
Definition fillna_cell (m : option value) (s : list (option value))
  : list (option value) :=
  match m with
  | Some v => fillna v s
  | None => s
  end.

(** [s.notna().astype(int)] *)
Definition notna_int (s : list (option value)) : list (option value) :=
  map (fun c => Some (VNum (if isna c then 0 else 1))) s.

(** [s.dropna()] *)
Definition dropna (s : list (option value)) : list value :=
  omap id s.

(** [s.notna().any()] *)
Definition notna_any (s : list (option value)) : bool :=
  existsb (fun c => negb (isna c)) s.

(** The column has a numeric dtype: no cell holds a string. *)
Definition is_numeric (s : list (option value)) : bool :=
  forallb (fun c => match c with Some (VStr _) => false | _ => true end) s.

(** The numbers of a column, NaN skipped; [TypeError] on a string. *)
Fixpoint numbers (s : list (option value)) : outcome (list Q) :=
  match s with
  | [] => Ok []
  | None :: s' => numbers s'
  | Some (VNum q) :: s' =>
      match numbers s' with
      | Ok l => Ok (q :: l)
      | Raise e => Raise e
      end
  | Some (VStr _) :: _ => Raise TypeError
  end.

Fixpoint insert_sorted {A} (leb : A -> A -> bool) (x : A) (l : list A) : list A :=
  match l with
  | [] => [x]
  | y :: l' => if leb x y then x :: l else y :: insert_sorted leb x l'
  end.

Definition sort {A} (leb : A -> A -> bool) (l : list A) : list A :=
  fold_right (insert_sorted leb) [] l.

(** The median of a list of numbers: the middle one, or the mean of the two
    middle ones; NaN on the empty list. *)
Definition median_of (l : list Q) : option Q :=
  let sorted := sort Qle_bool l in
  let n := length sorted in
  match n with
  | O => None
  | _ =>
      if Nat.even n
      then match nth_error sorted (n / 2 - 1), nth_error sorted (n / 2) with
           | Some a, Some b => Some (Qred ((a + b) / 2))
           | _, _ => None
           end
      else nth_error sorted (n / 2)
  end.

(** [s.median()] *)
Definition median (s : list (option value)) : outcome (option value) :=
  match numbers s with
  | Ok l => Ok (option_map VNum (median_of l))
  | Raise e => Raise e
  end.

Definition count_of (v : value) (l : list value) : nat :=
  length (List.filter (value_eqb v) l).

(** [s.mode()] keeps the most frequent values, sorted; [mode] is its first
    entry ([mode()[0]], [mode().iloc[0]]), [None] when [s.mode()] is empty. *)
Definition mode (s : list (option value)) : option value :=
  let present := dropna s in
  fold_left
    (fun best v =>
       match best with
       | None => Some v
       | Some b =>
           let cv := count_of v present in
           let cb := count_of b present in
           if (cb <? cv)%nat then Some v
           else if (cv =? cb)%nat && value_leb v b && negb (value_eqb v b)
                then Some v
                else best
       end)
    present None.

(** [s.unique()]: the distinct cells in order of first appearance; NaN is
    kept, once. *)
Fixpoint unique_from (seen : list (option value)) (s : list (option value))
  : list (option value) :=
  match s with
  | [] => []
  | c :: s' =>
      if existsb (fun d => match c, d with
                           | None, None => true
                           | _, _ => cell_eqb c d
                           end) seen
      then unique_from seen s'
      else c :: unique_from (c :: seen) s'
  end.

Definition unique (s : list (option value)) : list (option value) :=
  unique_from [] s.

(** [s == c] *)
Definition eq_mask (s : list (option value)) (c : option value) : list bool :=
  map (fun x => cell_eqb x c) s.

(** [s[mask]] *)
Fixpoint select {A} (mask : list bool) (s : list A) : list A :=
  match mask, s with
  | true :: mask', x :: s' => x :: select mask' s'
  | false :: mask', _ :: s' => select mask' s'
  | _, _ => []
  end.

(** [s[mask] = v]: cells beyond the mask are left as they are. *)
Fixpoint assign_where (mask : list bool) (v : value) (s : list (option value))
  : list (option value) :=
  match mask, s with
  | b :: mask', x :: s' => (if b then Some v else x) :: assign_where mask' v s'
  | [], _ => s
  | _, [] => []
  end.

(** Element-wise operations on numeric columns: NaN propagates, a string
    is a [TypeError]. *)
Definition lift2 (f : Q -> Q -> Q) (x y : option value) : outcome (option value) :=
  match x, y with
  | Some (VStr _), _ | _, Some (VStr _) => Raise TypeError
  | Some (VNum p), Some (VNum q) => Ok (Some (VNum (f p q)))
  | _, _ => Ok None
  end.

Fixpoint zip_with_outcome {A B C} (f : A -> B -> outcome C)
  (l : list A) (k : list B) : outcome (list C) :=
  match l, k with
  | a :: l', b :: k' =>
      match f a b with
      | Ok c => match zip_with_outcome f l' k' with
                | Ok r => Ok (c :: r)
                | Raise e => Raise e
                end
      | Raise e => Raise e
      end
  | _, _ => Ok []
  end.

Fixpoint map_outcome {A B} (f : A -> outcome B) (l : list A) : outcome (list B) :=
  match l with
  | [] => Ok []
  | a :: l' =>
      match f a with
      | Ok b => match map_outcome f l' with
                | Ok r => Ok (b :: r)
                | Raise e => Raise e
                end
      | Raise e => Raise e
      end
  end.

Definition mul (s t : list (option value)) : outcome (list (option value)) :=
  zip_with_outcome (lift2 Qmult) s t.

Definition add (s t : list (option value)) : outcome (list (option value)) :=
  zip_with_outcome (lift2 Qplus) s t.

Definition div (s t : list (option value)) : outcome (list (option value)) :=
  zip_with_outcome (lift2 Qdiv) s t.

(** [(s > k).astype(int)] and [(s >= k).astype(int)]: a comparison with
    NaN is false. *)
Definition compare_int (test : Q -> bool) (s : list (option value))
  : outcome (list (option value)) :=
  map_outcome (fun c => match c with
                        | Some (VStr _) => Raise TypeError
                        | Some (VNum q) => Ok (Some (VNum (if test q then 1 else 0)))
                        | None => Ok (Some (VNum 0))
                        end) s.

Definition gt_int (k : Q) := compare_int (fun q => negb (Qle_bool q k)).
Definition ge_int (k : Q) := compare_int (fun q => Qle_bool k q).

(** [(s == v).astype(int)] *)
Definition eq_int (v : value) (s : list (option value)) : list (option value) :=
  map (fun c => Some (VNum (if cell_eqb c (Some v) then 1 else 0))) s.

(** [s.replace(0, 1)] *)
Definition replace_0_1 (s : list (option value)) : list (option value) :=
  map (fun c => match c with
                | Some (VNum q) => if Qeq_bool q 0 then Some (VNum 1) else c
                | _ => c
                end) s.

End Pandas.

(** A pandas [Series] and [DataFrame]. *)
Abbreviation series := (list (option value)).
Abbreviation frame := (gmap string (list (option value))).

#[global] Instance outcome_ret : MRet outcome := fun A a => Ok a.
#[global] Instance outcome_bind : MBind outcome := fun A B f r =>
  match r with
  | Ok a => f a
  | Raise e => Raise e
  end.

(** [df[column]]: a missing column is a [KeyError]. *)
Definition getitem (df : frame) (column : string) : outcome series :=
  match df !! column with
  | Some s => Ok s
  | None => Raise KeyError
  end.

(** ** [DataPreprocessor] ([data_preprocessor.py]) *)

(** [parts[i]] for a possibly negative index. *)
Definition item (parts : list string) (i : Z) : string :=
  let n := Z.of_nat (length parts) in
  let j := if Z.ltb i 0 then n + i else i in
  if Z.ltb j 0 then "" else nth (Z.to_nat j) parts "".

(** The helper [_parse_location] of [extract_from_address]: city, district
    and street-and-ward of one address cell. *)
Definition _parse_location (addr : option value) : string * string * string :=
  match addr with
  | Some (VStr s) =>
      if String.eqb s "" then ("Unknown", "Unknown", "Unknown")
      else
        let parts := map PyStr.strip (PyStr.split "," s) in
        let n := length parts in
        if (3 <=? n)%nat then
          (PyStr.rstrip_char "." (item parts (-1)),
           item parts (-2),
           PyStr.join ", " (firstn (n - 2) parts))
        else if (n =? 2)%nat then
          (PyStr.rstrip_char "." (item parts (-1)),
           item parts (-2),
           "Unknown")
        else if (n =? 1)%nat then
          (PyStr.rstrip_char "." (item parts 0), "Unknown", "Unknown")
        else ("Unknown", "Unknown", "Unknown")
  | _ => ("Unknown", "Unknown", "Unknown")
  end.

(** An entry of [processing_log]: the fields of the message, without its
    formatting. *)
Inductive log_entry : Type :=
  | LogFlag (flag_name column : string)
  | LogFilled (missing_count : nat) (column how : string)
  | LogFeature (feature_name description : string)
  | LogExtracted (address_column : string)
  | LogBins (n_bins : nat) (column : string).

Record DataPreprocessor : Type := {
  df : frame;
  processing_log : list log_entry;
  new_features : list string
}.

(** [DataPreprocessor(df)] *)
Definition DataPreprocessor_init (df0 : frame) : DataPreprocessor :=
  {| df := df0; processing_log := []; new_features := [] |}.

Definition set_df (self : DataPreprocessor) (df' : frame) : DataPreprocessor :=
  {| df := df'; processing_log := processing_log self;
     new_features := new_features self |}.

Definition _log (entry : log_entry) (self : DataPreprocessor) : DataPreprocessor :=
  {| df := df self; processing_log := processing_log self ++ [entry];
     new_features := new_features self |}.

Definition add_feature (name : string) (self : DataPreprocessor) : DataPreprocessor :=
  {| df := df self; processing_log := processing_log self;
     new_features := new_features self ++ [name] |}.

(** [add_binary_flag(column, flag_name)]; every call in the pipeline names
    the flag. *)
Definition add_binary_flag (column flag_name : string) (self : DataPreprocessor)
  : DataPreprocessor :=
  match df self !! column with
  | None => self
  | Some s =>
      _log (LogFlag flag_name column)
        (add_feature flag_name
           (set_df self (<[flag_name := Pandas.notna_int s]> (df self))))
  end.

(** [fill_value(column, value)] *)
Definition fill_value (column : string) (v : value) (self : DataPreprocessor)
  : DataPreprocessor :=
  match df self !! column with
  | None => self
  | Some s =>
      let missing_count := Pandas.isna_sum s in
      if (0 <? missing_count)%nat
      then _log (LogFilled missing_count column "value")
             (set_df self (<[column := Pandas.fillna v s]> (df self)))
      else self
  end.

(** The value a group's missing cells get in
    [groupby(group_by)[column].transform(lambda x: x.fillna(...))]: the
    statistic of the group, or of the whole column when the group has no
    value. *)
Definition group_fill_value (stat : series -> outcome (option value))
  (keys col : series) (key : option value) : outcome (option value) :=
  let x := Pandas.select (Pandas.eq_mask keys key) col in
  match Pandas.dropna x with
  | [] => stat col
  | _ :: _ => stat x
  end.

(** The transformed column; a row whose key is NaN belongs to no group and
    comes out as NaN. *)
Definition groupby_transform_fillna (stat : series -> outcome (option value))
  (keys col : series) : outcome series :=
  Pandas.zip_with_outcome
    (fun key c =>
       match key with
       | None => Ok None
       | Some _ =>
           fill ← group_fill_value stat keys col key;
           Ok (match c with Some _ => c | None => fill end)
       end)
    keys col.

(** [fill_median(column, group_by)] *)
Definition fill_median (column : string) (group_by : option string)
  (self : DataPreprocessor) : outcome DataPreprocessor :=
  match df self !! column with
  | None => Ok self
  | Some s =>
      let missing_count := Pandas.isna_sum s in
      if (missing_count =? 0)%nat then Ok self
      else
        match group_by ≫= (fun g => df self !! g) with
        | Some keys =>
            s' ← groupby_transform_fillna Pandas.median keys s;
            Ok (_log (LogFilled missing_count column "grouped median")
                  (set_df self (<[column := s']> (df self))))
        | None =>
            median_value ← Pandas.median s;
            Ok (_log (LogFilled missing_count column "median")
                  (set_df self
                     (<[column := Pandas.fillna_cell median_value s]> (df self))))
        end
  end.

(** [x.mode()[0]]: a [KeyError] when the mode is empty. *)
Definition mode_0 (s : series) : outcome (option value) :=
  match Pandas.mode s with
  | Some m => Ok (Some m)
  | None => Raise KeyError
  end.

(** [fill_mode(column, group_by)] *)
Definition fill_mode (column : string) (group_by : option string)
  (self : DataPreprocessor) : outcome DataPreprocessor :=
  match df self !! column with
  | None => Ok self
  | Some s =>
      let missing_count := Pandas.isna_sum s in
      if (missing_count =? 0)%nat then Ok self
      else
        match group_by ≫= (fun g => df self !! g) with
        | Some keys =>
            s' ← groupby_transform_fillna mode_0 keys s;
            Ok (_log (LogFilled missing_count column "grouped mode")
                  (set_df self (<[column := s']> (df self))))
        | None =>
            match Pandas.mode s with
            | Some mode_value =>
                Ok (_log (LogFilled missing_count column "mode")
                      (set_df self
                         (<[column := Pandas.fillna mode_value s]> (df self))))
            | None => Ok self
            end
        end
  end.

(** [create_feature(feature_name, formula, description)]: an exception of
    the formula is caught and the feature is skipped. *)
Definition create_feature (feature_name : string)
  (formula : frame -> outcome series) (description : string)
  (self : DataPreprocessor) : DataPreprocessor :=
  match formula (df self) with
  | Ok s =>
      _log (LogFeature feature_name description)
        (add_feature feature_name
           (set_df self (<[feature_name := s]> (df self))))
  | Raise _ => self
  end.

Definition add_feature_once (name : string) (self : DataPreprocessor)
  : DataPreprocessor :=
  if bool_decide (name ∈ new_features self) then self else add_feature name self.

(** [extract_from_address(address_column)]; unpacking the zipped rows
    into three names is a [ValueError] on a frame without rows. *)
Definition extract_from_address (address_column : string)
  (self : DataPreprocessor) : outcome DataPreprocessor :=
  match df self !! address_column with
  | None => Ok self
  | Some addresses =>
      let rows := map _parse_location addresses in
      match rows with
      | [] => Raise ValueError
      | _ :: _ =>
          let cities := map (fun r => Some (VStr r.1.1)) rows in
          let districts := map (fun r => Some (VStr r.1.2)) rows in
          let street_wards := map (fun r => Some (VStr r.2)) rows in
          let df1 := <["new_city" := cities]> (df self) in
          let df2 := <["new_district" := districts]> df1 in
          let df3 := <["new_street_ward" := street_wards]> df2 in
          let df4 :=
            fold_left
              (fun d feature =>
                 match d !! feature with
                 | Some s => <[feature := Pandas.fillna (VStr "Unknown") s]> d
                 | None => d
                 end)
              ["new_city"; "new_district"; "new_street_ward"] df3 in
          Ok (_log (LogExtracted address_column)
                (fold_left (fun p feature => add_feature_once feature p)
                   ["new_city"; "new_district"; "new_street_ward"]
                   (set_df self df4)))
      end
  end.

(** Filling the missing cells of [target] group by group with the mode of
    the group, as the two [for city in ...unique()] loops of
    [basic_preprocessing] do. *)
Definition fill_mode_by_group (groups target : series) : series :=
  fold_left
    (fun target city =>
       let city_mask := Pandas.eq_mask groups city in
       match Pandas.mode (Pandas.select city_mask target) with
       | Some mode_val =>
           let missing_mask :=
             zip_with andb city_mask (map Pandas.isna target) in
           Pandas.assign_where missing_mask mode_val target
       | None => target
       end)
    (Pandas.unique groups) target.

(** [column in df.columns] *)
Definition has_column (d : frame) (column : string) : bool :=
  bool_decide (is_Some (d !! column)).

(** [df.select_dtypes(include=[np.number]).columns] *)
Definition numeric_cols (d : frame) : list string :=
  map fst (List.filter (fun cs => Pandas.is_numeric cs.2) (map_to_list d)).

Definition AREA_LABELS : list string :=
  ["Rất nhỏ"; "Nhỏ"; "Trung bình"; "Lớn"; "Rất lớn"].

(** The guarded [extract_from_address("Address")] that precedes each use of
    [new_city]. *)
Definition extract_if_needed (prep : DataPreprocessor) : outcome DataPreprocessor :=
  if negb (has_column (df prep) "new_city") && has_column (df prep) "Address"
  then extract_from_address "Address" prep
  else Ok prep.

(** [if column in df.columns:
       prep.add_binary_flag(column, flag_name).fill_value(column, value)] *)
Definition flag_and_fill (df0 : frame) (column flag_name : string) (v : value)
  (prep : DataPreprocessor) : DataPreprocessor :=
  if has_column df0 column
  then fill_value column v (add_binary_flag column flag_name prep)
  else prep.

(** Phase 1: the columns with more than 70% missing. *)
Definition phase_1_high_missing (df0 : frame) (prep : DataPreprocessor)
  : DataPreprocessor :=
  let prep :=
    flag_and_fill df0 "Balcony direction" "new_has_balcony_direction"
      (VStr "Unknown") prep in
  flag_and_fill df0 "House direction" "new_has_house_direction"
    (VStr "Không rõ") prep.

(** Phase 2, first block: Furniture state filled with the mode of its city,
    then with the global mode. *)
Definition fill_furniture_by_city (prep : DataPreprocessor)
  : outcome DataPreprocessor :=
  let df_copy := df prep in
  new_city ← getitem df_copy "new_city";
  furniture ← getitem df_copy "Furniture state";
  let furniture := fill_mode_by_group new_city furniture in
  let remaining_missing := Pandas.isna_sum furniture in
  let furniture :=
    if (0 <? remaining_missing)%nat
    then match Pandas.mode furniture with
         | Some global_mode => Pandas.fillna global_mode furniture
         | None => furniture
         end
    else furniture in
  Ok (set_df prep (<["Furniture state" := furniture]> (df prep))).

(** Phase 2: the columns with 30-70% missing. *)
Definition phase_2_moderate_missing (df0 : frame) (prep : DataPreprocessor)
  : outcome DataPreprocessor :=
  prep ← extract_if_needed prep;
  prep ← fill_furniture_by_city prep;
  let prep :=
    flag_and_fill df0 "Access Road" "new_has_access_road" (VNum 0) prep in
  Ok (flag_and_fill df0 "Frontage" "has_frontage" (VNum 0) prep).

(** Phase 3, first block: Bathrooms by the median of its Bedrooms group. *)
Definition fill_bathrooms (df0 : frame) (prep : DataPreprocessor)
  : outcome DataPreprocessor :=
  if has_column df0 "Bathrooms" && has_column df0 "Bedrooms" then
    bedrooms ← getitem df0 "Bedrooms";
    prep ← (if (0 <? Pandas.isna_sum bedrooms)%nat
            then fill_median "Bedrooms" None prep
            else Ok prep);
    fill_median "Bathrooms" (Some "Bedrooms") prep
  else if has_column df0 "Bathrooms" then fill_median "Bathrooms" None prep
  else Ok prep.

(** Phase 3, second block: Legal status by the mode of its city, then the
    sentinel. *)
Definition fill_legal_status (df0 : frame) (prep : DataPreprocessor)
  : outcome DataPreprocessor :=
  if has_column df0 "Legal status" then
    prep ← extract_if_needed prep;
    if has_column (df prep) "new_city" then
      let df_copy := df prep in
      new_city ← getitem df_copy "new_city";
      legal ← getitem df_copy "Legal status";
      let legal := fill_mode_by_group new_city legal in
      let legal :=
        if (0 <? Pandas.isna_sum legal)%nat
        then Pandas.fillna (VStr "Không rõ") legal
        else legal in
      Ok (set_df prep (<["Legal status" := legal]> (df prep)))
    else Ok (fill_value "Legal status" (VStr "Không rõ") prep)
  else Ok prep.

(** One turn of the loop over the numeric columns. *)
Definition fill_numeric_column (col : string) (prep : DataPreprocessor)
  : outcome DataPreprocessor :=
  match df prep !! col with
  | Some s =>
      if (0 <? Pandas.isna_sum s)%nat
      then fill_median col None prep
      else Ok prep
  | None => Raise KeyError
  end.

(** Phase 3, last block: the remaining numeric columns by their median. *)
Definition fill_remaining_numeric (prep : DataPreprocessor)
  : outcome DataPreprocessor :=
  foldl (fun acc col => prep ← acc; fill_numeric_column col prep)
        (Ok prep) (numeric_cols (df prep)).

(** Phase 3: the columns with less than 30% missing. *)
Definition phase_3_low_missing (df0 : frame) (prep : DataPreprocessor)
  : outcome DataPreprocessor :=
  prep ← fill_bathrooms df0 prep;
  prep ← fill_legal_status df0 prep;
  prep ← (if has_column df0 "Floors" then fill_mode "Floors" None prep
          else Ok prep);
  fill_remaining_numeric prep.

(** The columns that Phase 4 creates. *)
Definition DERIVED_COLUMNS : list string :=
  ["new_bathroom_bedroom_ratio"; "new_total_rooms"; "new_is_large_house";
   "new_avg_room_size"; "new_is_luxury"; "new_is_multi_story"; "Area_binned"].

(** Phase 4, room-related features. *)
Definition room_features (prep : DataPreprocessor) : DataPreprocessor :=
  if has_column (df prep) "Bathrooms" && has_column (df prep) "Bedrooms" then
    let prep :=
      create_feature "new_bathroom_bedroom_ratio"
        (fun d => bathrooms ← getitem d "Bathrooms";
                  bedrooms ← getitem d "Bedrooms";
                  Pandas.div bathrooms (Pandas.replace_0_1 bedrooms))
        "Bathroom to Bedroom ratio" prep in
    create_feature "new_total_rooms"
      (fun d => bedrooms ← getitem d "Bedrooms";
                bathrooms ← getitem d "Bathrooms";
                Pandas.add bedrooms bathrooms)
      "Total number of rooms" prep
  else prep.

(** Phase 4, area-related features. *)
Definition area_features (prep : DataPreprocessor) : DataPreprocessor :=
  if has_column (df prep) "Area" then
    let prep :=
      create_feature "new_is_large_house"
        (fun d => area ← getitem d "Area"; Pandas.gt_int 140 area)
        "Flag for large houses (>140m²)" prep in
    if has_column (df prep) "new_total_rooms" then
      create_feature "new_avg_room_size"
        (fun d => area ← getitem d "Area";
                  total_rooms ← getitem d "new_total_rooms";
                  Pandas.div area (Pandas.replace_0_1 total_rooms))
        "Average room size" prep
    else prep
  else prep.

(** Phase 4, luxury and multi-story indicators. *)
Definition indicator_features (prep : DataPreprocessor) : DataPreprocessor :=
  let prep :=
    if has_column (df prep) "Bathrooms" then
      create_feature "new_is_luxury"
        (fun d => bathrooms ← getitem d "Bathrooms"; Pandas.ge_int 4 bathrooms)
        "Luxury house indicator (4+ bathrooms)" prep
    else prep in
  if has_column (df prep) "Floors" then
    create_feature "new_is_multi_story"
      (fun d => floors ← getitem d "Floors"; Pandas.gt_int 2 floors)
      "Multi-story house indicator" prep
  else prep.

Section BasicPreprocessing.

(** [pd.cut(series, bins=n_bins, labels=labels)]: pandas code, taken as
    given. *)
Variable pd_cut : series -> nat -> list string -> outcome series.

(** [create_bins(column, n_bins, labels)] *)
Definition create_bins (column : string) (n_bins : nat) (labels : list string)
  (self : DataPreprocessor) : DataPreprocessor :=
  match df self !! column with
  | None => self
  | Some s =>
      let new_col := column ++ "_binned" in
      match pd_cut s n_bins labels with
      | Ok binned =>
          _log (LogBins n_bins column)
            (add_feature new_col
               (set_df self (<[new_col := binned]> (df self))))
      | Raise _ => self
      end
  end.

(** Phase 4: the basic derived features. *)
Definition phase_4_feature_engineering (prep : DataPreprocessor)
  : outcome DataPreprocessor :=
  let prep := room_features prep in
  let prep := area_features prep in
  let prep := indicator_features prep in
  prep ← (if has_column (df prep) "Address" && negb (has_column (df prep) "new_city")
          then extract_from_address "Address" prep
          else Ok prep);
  Ok (if has_column (df prep) "Area"
      then create_bins "Area" 5 AREA_LABELS prep
      else prep).

(** [basic_preprocessing(df)] ([tree_optimized_preprocessing.py]): the four
    phases on a fresh [DataPreprocessor]; the result is [prep.df]. *)
Definition basic_preprocessing (df0 : frame) : outcome frame :=
  let prep := DataPreprocessor_init df0 in
  let prep := phase_1_high_missing df0 prep in
  prep ← phase_2_moderate_missing df0 prep;
  prep ← phase_3_low_missing df0 prep;
  prep ← phase_4_feature_engineering prep;
  Ok (df prep).

End BasicPreprocessing.

(** ** [create_interaction_features] ([enhanced_preprocessing.py]) *)

(** The four major cities with the column each gets:
    [f"area_in_{city.replace(' ', '_').lower()}"]. *)
Definition MAJOR_CITIES : list (string * string) :=
  [ ("Hồ Chí Minh", "area_in_hồ_chí_minh");
    ("Hà Nội", "area_in_hà_nội");
    ("Bình Dương", "area_in_bình_dương");
    ("Đà Nẵng", "area_in_đà_nẵng") ].

(** [df[name] = left * right] when both columns exist. *)
Definition product_feature (name left right : string) (d : frame) : outcome frame :=
  if has_column d left && has_column d right then
    l ← getitem d left;
    r ← getitem d right;
    s ← Pandas.mul l r;
    Ok (<[name := s]> d)
  else Ok d.

(** Block 1: area-based interactions. *)
Definition area_interactions (d : frame) : outcome frame :=
  if has_column d "Area" then
    d ← product_feature "area_x_bathrooms" "Area" "Bathrooms" d;
    d ← product_feature "area_x_bedrooms" "Area" "Bedrooms" d;
    product_feature "area_x_floors" "Area" "Floors" d
  else Ok d.

(** Block 2: room interactions. *)
Definition room_interactions (d : frame) : outcome frame :=
  d ← product_feature "bedrooms_x_bathrooms" "Bedrooms" "Bathrooms" d;
  product_feature "bedrooms_x_floors" "Bedrooms" "Floors" d.

(** Block 3: the luxury score,
    [(Bathrooms >= 4) + (Bedrooms >= 5) + (Floors >= 4) + (Area > 140)]. *)
Definition luxury_score_feature (d : frame) : outcome frame :=
  if forallb (has_column d) ["Bathrooms"; "Bedrooms"; "Floors"; "Area"] then
    bathrooms ← getitem d "Bathrooms";
    bedrooms ← getitem d "Bedrooms";
    floors ← getitem d "Floors";
    area ← getitem d "Area";
    c1 ← Pandas.ge_int 4 bathrooms;
    c2 ← Pandas.ge_int 5 bedrooms;
    c3 ← Pandas.ge_int 4 floors;
    c4 ← Pandas.gt_int 140 area;
    s12 ← Pandas.add c1 c2;
    s123 ← Pandas.add s12 c3;
    s ← Pandas.add s123 c4;
    Ok (<["luxury_score" := s]> d)
  else Ok d.

(** One turn of the loop of block 4. *)
Definition city_area_feature (city_col : string * string) (d : frame)
  : outcome frame :=
  area ← getitem d "Area";
  new_city ← getitem d "new_city";
  s ← Pandas.mul area (Pandas.eq_int (VStr city_col.1) new_city);
  Ok (<[city_col.2 := s]> d).

(** Block 4: area in the major cities. *)
Definition city_area_features (d : frame) : outcome frame :=
  if has_column d "new_city" && has_column d "Area" then
    foldl (fun acc city_col => d ← acc; city_area_feature city_col d)
          (Ok d) MAJOR_CITIES
  else Ok d.

(** Block 5: room density. *)
Definition room_density_feature (d : frame) : outcome frame :=
  if has_column d "Area" && has_column d "new_total_rooms" then
    total_rooms ← getitem d "new_total_rooms";
    area ← getitem d "Area";
    s ← Pandas.div total_rooms (Pandas.replace_0_1 area);
    Ok (<["room_density" := s]> d)
  else Ok d.

(** Block 6: the access quality score,
    [(Access Road > 0) + (Frontage > 0)]. *)
Definition access_quality_feature (d : frame) : outcome frame :=
  if has_column d "Access Road" && has_column d "Frontage" then
    access_road ← getitem d "Access Road";
    frontage ← getitem d "Frontage";
    a ← Pandas.gt_int 0 access_road;
    f ← Pandas.gt_int 0 frontage;
    s ← Pandas.add a f;
    Ok (<["access_quality" := s]> d)
  else Ok d.

(** [create_interaction_features(df)]: the six blocks in order. *)
Definition create_interaction_features (d : frame) : outcome frame :=
  d ← area_interactions d;
  d ← room_interactions d;
  d ← luxury_score_feature d;
  d ← city_area_features d;
  d ← room_density_feature d;
  access_quality_feature d.

(** ** [split_and_encode] ([tree_optimized_preprocessing.py]) *)

(** [config['preprocessing']['outlier_removal']]: [None] is an absent key. *)
Record outlier_config : Type := {
  enabled : option bool;
  method : option string;
  multiplier : option Q
}.

Section SplitAndEncode.

(** [Series.quantile(q)] of pandas, taken as given; [None] is NaN. *)
Variable quantile : list (option Q) -> Q -> option Q.

(** [Series.astype(str)] on one cell, taken as given. *)
Variable astype_str : option value -> string.

(** The rows of the feature table. *)
Context {row : Type}.

Definition opt_sub (a b : option Q) : option Q :=
  match a, b with Some x, Some y => Some (x - y)%Q | _, _ => None end.

Definition opt_add (a b : option Q) : option Q :=
  match a, b with Some x, Some y => Some (x + y)%Q | _, _ => None end.

Definition opt_scale (k : Q) (a : option Q) : option Q :=
  option_map (Qmult k) a.

(** [lower] and [upper] of Phase 1.5. *)
Definition iqr_bounds (k : Q) (y_train : list (option Q)) : option Q * option Q :=
  let Q1 := quantile y_train 0.25 in
  let Q3 := quantile y_train 0.75 in
  let IQR := opt_sub Q3 Q1 in
  let lower := opt_sub Q1 (opt_scale k IQR) in
  let upper := opt_add Q3 (opt_scale k IQR) in
  (lower, upper).

(** [(y >= lower) & (y <= upper)]: a comparison with NaN is false. *)
Definition in_bounds (bounds : option Q * option Q) (y : option Q) : bool :=
  match bounds, y with
  | (Some lower, Some upper), Some v => Qle_bool lower v && Qle_bool v upper
  | _, _ => false
  end.

(** Phase 1.5 of [split_and_encode]: the four partitions after outlier
    removal. *)
Definition remove_outliers_train_only (cfg : outlier_config)
  (X_train X_test : list row) (y_train y_test : list (option Q))
  : list row * list row * list (option Q) * list (option Q) :=
  if default true (enabled cfg) then
    let method := default "iqr" (method cfg) in
    if String.eqb method "iqr" then
      let k := default 1.5%Q (multiplier cfg) in
      let mask := map (in_bounds (iqr_bounds k y_train)) y_train in
      let X_train := Pandas.select mask X_train in
      let y_train := Pandas.select mask y_train in
      (X_train, X_test, y_train, y_test)
    else (X_train, X_test, y_train, y_test)
  else (X_train, X_test, y_train, y_test).

(** The test-side expression of Phase 3:
    [le.transform([val])[0] if val in le.classes_ else -1]. *)
Definition encode_test_value (le : LabelEncoder) (val : string) : outcome Z :=
  if in_classes le val then transform le val else Ok (-1).

Definition codes_series (codes : list Z) : series :=
  map (fun z => Some (VNum (inject_Z z))) codes.

(** One turn of the loop [for col in all_cat_cols]. *)
Definition label_encode_column (col : string)
  (st : frame * frame * gmap string LabelEncoder)
  : outcome (frame * frame * gmap string LabelEncoder) :=
  let '(X_train, X_test, label_encoders) := st in
  train_col ← getitem X_train col;
  let train_values := map astype_str train_col in
  let le := fit train_values in
  train_codes ← Pandas.map_outcome (transform le) train_values;
  let X_train := <[col := codes_series train_codes]> X_train in
  let label_encoders := <[col := le]> label_encoders in
  test_col ← getitem X_test col;
  let test_values := map astype_str test_col in
  encoded ← Pandas.map_outcome (encode_test_value le) test_values;
  let X_test := <[col := codes_series encoded]> X_test in
  Ok (X_train, X_test, label_encoders).

(** Phase 3 of [split_and_encode]. *)
Definition label_encoding (low_card_cols high_card_cols : list string)
  (X_train X_test : frame)
  : outcome (frame * frame * gmap string LabelEncoder) :=
  let low_card_cols := List.filter (has_column X_train) low_card_cols in
  let high_card_cols := List.filter (has_column X_train) high_card_cols in
  let all_cat_cols := (low_card_cols ++ high_card_cols)%list in
  foldl (fun acc col => st ← acc; label_encode_column col st)
        (Ok (X_train, X_test, ∅)) all_cat_cols.

End SplitAndEncode.

(** ** Statements shared by the contracts *)

(** The five location-stat columns hold the fixed defaults of the [else]
    branch of lines 267-273. *)
Definition has_default_location_stats (df : row_frame) : Prop :=
  frame_get df "new_district_area_mean" = Some (PFloat 70) /\
  frame_get df "new_district_area_median" = Some (PFloat 65) /\
  frame_get df "new_district_area_std" = Some (PFloat 30) /\
  frame_get df "new_district_sample_count" = Some (PInt 100) /\
  frame_get df "new_district_tier" = Some (PInt 2).

(** ** Requests and artifacts used in the closed examples *)

Definition fresh_world (svc : TreePreprocessService) : world :=
  {| self := svc; logged := [] |}.

(** A service whose artifacts failed to load. *)
Definition bare_service : TreePreprocessService :=
  {| label_encoders := ∅; location_stats := None |}.

(** A service with encoders for the three location columns and statistics
    for two districts. *)
Definition demo_service : TreePreprocessService :=
  {| label_encoders :=
       list_to_map
         [ ("new_city", fit ["Hồ Chí Minh"; "Hà Nội"; "Đà Nẵng"]);
           ("new_district", fit ["Quận 1"; "Quận 7"; "Ba Đình"]);
           ("new_street_ward", fit ["Unknown"; "Phường Bến Nghé"]);
           ("House direction", fit ["Đông"; "Tây"; "Không rõ"]) ];
     location_stats :=
       Some (list_to_map
         [ ("Quận 1", list_to_map
              [ ("area_mean", PFloat 82); ("area_median", PFloat 75);
                ("area_std", PFloat 40); ("sample_count", PInt 640);
                ("tier", PInt 3) ]);
           ("Quận 7", list_to_map
              [ ("area_mean", PFloat 95); ("area_median", PFloat 90);
                ("area_std", PFloat 35); ("sample_count", PInt 410);
                ("tier", PInt 2) ]) ]) |}.

(** The request of the specification's scenario. *)
Definition scenario_request : gmap string pyval :=
  list_to_map
    [ ("Area", PInt 120); ("Bedrooms", PInt 3); ("Bathrooms", PInt 2);
      ("Floors", PInt 2); ("Direction", PStr "đông nam");
      ("LegalStatus", PStr "sổ hồng"); ("District", PStr "Quận 7") ].

Definition unseen_district_request : gmap string pyval :=
  list_to_map
    [ ("Area", PInt 80); ("Bedrooms", PInt 2); ("District", PStr "Quận 99") ].

(** ** The derived-feature formulas, record by record *)

(** [1] when the cell is a number that passes [test], else [0]: what
    [(column <op> k).astype(int)] gives at one row. *)
Definition flag (test : Q -> bool) (c : option value) : Q :=
  match c with
  | Some (VNum q) => if test q then 1 else 0
  | _ => 0
  end.

(** The luxury score of section 4.3 and of the batch code at one record:
    how many of Bathrooms >= 4, Bedrooms >= 5, Floors >= 4, Area > 140
    hold. *)
Definition luxury_score_row (bathrooms bedrooms floors area : option value)
  : option value :=
  Some (VNum (flag (fun q => Qle_bool 4 q) bathrooms
              + flag (fun q => Qle_bool 5 q) bedrooms
              + flag (fun q => Qle_bool 4 q) floors
              + flag (fun q => negb (Qle_bool q 140)) area)).

(** The batch access quality at one record: how many of Access Road > 0
    and Frontage > 0 hold. *)
Definition access_quality_row (access_road frontage : option value)
  : option value :=
  Some (VNum (flag (fun q => negb (Qle_bool q 0)) access_road
              + flag (fun q => negb (Qle_bool q 0)) frontage)).

(** The access quality the specification words: an ordinal of the road
    width alone. *)
Definition access_quality_by_width (access_road : Q) : Q :=
  if Qeq_bool access_road 0 then 0
  else if negb (Qle_bool 5 access_road) then 1 else 2.

(** One listing as a one-row frame. *)
Definition scenario_frame : frame :=
  list_to_map
    [ ("Area", [Some (VNum 120)]); ("Bedrooms", [Some (VNum 3)]);
      ("Bathrooms", [Some (VNum 2)]); ("Floors", [Some (VNum 2)]);
      ("Access Road", [Some (VNum 3)]); ("Frontage", [Some (VNum 4)]) ].

(** ** Missing values before and after [basic_preprocessing] *)

(** The column, when the frame has it, has no missing cell. *)
Definition column_full (d : frame) (c : string) : Prop :=
  forall s, d !! c = Some s -> Pandas.isna_sum s = 0%nat.

(** The column is not entirely missing: it is absent, or has no missing
    cell, or has a value from which a mode or a median can be taken. *)
Definition fillable (d : frame) (c : string) : bool :=
  match d !! c with
  | Some s => (Pandas.isna_sum s =? 0)%nat || Pandas.notna_any s
  | None => true
  end.

Definition numeric_column (d : frame) (c : string) : bool :=
  match d !! c with
  | Some s => Pandas.is_numeric s
  | None => false
  end.

(** The columns that [basic_preprocessing] fills with a fixed value, at
    last resort for Legal status. *)
Definition SENTINEL_COLUMNS : list string :=
  ["Balcony direction"; "House direction"; "Access Road"; "Frontage";
   "Legal status"].

(** The columns that it fills with a mode or a median only. *)
Definition STATISTIC_COLUMNS : list string :=
  ["Furniture state"; "Bathrooms"; "Floors"].

(** The columns that [basic_preprocessing] processes for missing values:
    the ones it names and the numeric columns of its input, the names of
    the Phase 4 features apart. *)
Definition processed_column (df0 : frame) (c : string) : bool :=
  bool_decide (c ∉ DERIVED_COLUMNS)
  && (bool_decide (c ∈ SENTINEL_COLUMNS)
      || bool_decide (c ∈ STATISTIC_COLUMNS)
      || numeric_column df0 c).

(** There is something to fill the column with: a fixed value, or a value
    of the column itself, and for Bathrooms, whose median is taken by
    Bedrooms group, a value of Bedrooms as well. *)
Definition has_fill_value (df0 : frame) (c : string) : bool :=
  bool_decide (c ∈ SENTINEL_COLUMNS)
  || (fillable df0 c
      && (negb (String.eqb c "Bathrooms") || fillable df0 "Bedrooms")).

(** What one step of the pipeline does to a column: it leaves it as it
    is, or leaves it without a missing cell. *)
Definition col_step (d d' : frame) (c : string) : Prop :=
  d' !! c = d !! c \/
  exists s, d' !! c = Some s /\ Pandas.isna_sum s = 0%nat.

Definition only_fills (d d' : frame) : Prop :=
  forall c, col_step d d' c.

(** [s'] has the cells of [s], the missing ones possibly filled. *)
Definition keeps_values (s s' : series) : Prop :=
  Forall2 (fun x y => x = None \/ y = x) s s'.

(** Equal-width binning as [pd.cut(x, bins=n, labels=labels)] does it on
    numbers: [n] intervals between the least and the greatest value, closed
    on the right, the first one widened to the left by a thousandth of the
    range; used to run the examples. *)
Definition equal_width_cut (s : series) (n_bins : nat) (labels : list string)
  : outcome series :=
  xs ← Pandas.numbers s;
  match Pandas.sort Qle_bool xs with
  | [] => Raise ValueError
  | mn :: _ as sorted =>
      if (n_bins =? 0)%nat || negb (length labels =? n_bins)%nat
      then Raise ValueError
      else
        let mx := List.last sorted mn in
        let pad (x : Q) : Q :=
          if Qeq_bool x 0 then (1 # 1000)%Q else (Qabs x * (1 # 1000))%Q in
        let lo := if Qeq_bool mn mx then (mn - pad mn)%Q else mn in
        let hi := if Qeq_bool mn mx then (mx + pad mx)%Q else mx in
        let edge (i : nat) : Q :=
          (lo + inject_Z (Z.of_nat i) * (hi - lo) / inject_Z (Z.of_nat n_bins))%Q in
        Ok (map (fun c =>
                   match c with
                   | Some (VNum x) =>
                       i ← List.find (fun i => Qle_bool x (edge (S i)))
                             (seq 0 n_bins);
                       label ← labels !! i;
                       Some (VStr label)
                   | _ => None
                   end) s)
  end.

(** Three listings of which none states its furniture. *)
Definition unfurnished_frame : frame :=
  list_to_map
    [ ("Address",
       [Some (VStr "12 Lê Lợi, Phường Bến Nghé, Quận 1, Hồ Chí Minh.");
        Some (VStr "Ba Đình, Hà Nội"); None]);
      ("Area", [Some (VNum 120); None; Some (VNum 50)]);
      ("Bedrooms", [Some (VNum 3); Some (VNum 2); None]);
      ("Bathrooms", [None; Some (VNum 2); Some (VNum 1)]);
      ("Floors", [None; Some (VNum 2); Some (VNum 2)]);
      ("Furniture state", [None; None; None]);
      ("Legal status", [None; Some (VStr "Sổ đỏ"); None]);
      ("Access Road", [None; Some (VNum 4); None]);
      ("Frontage", [Some (VNum 4); None; None]);
      ("Balcony direction", [None; None; None]);
      ("House direction", [None; Some (VStr "Đông"); None]) ].

(** The same listings, the second one furnished. *)
Definition furnished_frame : frame :=
  <["Furniture state" := [None; Some (VStr "Đầy đủ"); None]]> unfurnished_frame.

(** ** [TreeModelService.predict] ([tree_model_service.py]): the features
    handed to the model *)

(** [EXPECTED_FEATURES] of [tree_model_service.py]. *)
Definition MODEL_EXPECTED_FEATURES : list string :=
  [ "Area"; "Frontage"; "Access Road"; "House direction"; "Balcony direction";
    "Floors"; "Bedrooms"; "Bathrooms"; "Legal status"; "Furniture state";
    "new_has_balcony_direction"; "new_has_house_direction";
    "new_city"; "new_district"; "new_street_ward";
    "new_has_access_road"; "has_frontage";
    "new_bathroom_bedroom_ratio"; "new_total_rooms"; "new_is_large_house";
    "new_avg_room_size"; "new_is_luxury"; "new_is_multi_story"; "Area_binned";
    "area_x_bathrooms"; "area_x_bedrooms"; "area_x_floors"; "bedrooms_x_bathrooms";
    "bedrooms_x_floors"; "luxury_score"; "area_in_hồ_chí_minh"; "area_in_hà_nội";
    "area_in_bình_dương"; "area_in_đà_nẵng"; "room_density"; "access_quality";
    "new_district_area_mean"; "new_district_area_median"; "new_district_area_std";
    "new_district_sample_count"; "new_district_tier" ].

(** [rename_map] of the LightGBM branch. *)
Definition LIGHTGBM_RENAME : gmap string string :=
  list_to_map
    [ ("Access Road", "Access_Road");
      ("House direction", "House_direction");
      ("Balcony direction", "Balcony_direction");
      ("Legal status", "Legal_status");
      ("Furniture state", "Furniture_state") ].

(** The two warnings of the column check, with the set each one prints. *)
Inductive model_warning : Type :=
  | MissingFeatures (names : gset string)
  | ExtraFeatures (names : gset string).

(** Lines 153-159 of [predict]: the warnings logged when the columns of the
    frame and the expected features differ as sets. *)
Definition check_columns (features_df : row_frame) : list model_warning :=
  let have : gset string := list_to_set (frame_columns features_df) in
  let want : gset string := list_to_set MODEL_EXPECTED_FEATURES in
  if bool_decide (have = want) then []
  else
    let missing := want ∖ have in
    let extra := have ∖ want in
    ((if bool_decide (missing = ∅) then [] else [MissingFeatures missing])
     ++ (if bool_decide (extra = ∅) then [] else [ExtraFeatures extra]))%list.

(** [features_df[columns]] on a one-row frame: a [KeyError] on a column
    that the frame lacks. *)
Fixpoint reorder_columns (columns : list string) (features_df : row_frame)
  : outcome row_frame :=
  match columns with
  | [] => Ok []
  | c :: cs =>
      match frame_get features_df c with
      | Some v =>
          match reorder_columns cs features_df with
          | Ok df => Ok ((c, v) :: df)
          | Raise e => Raise e
          end
      | None => Raise KeyError
      end
  end.

(** [features_df.rename(columns=rename_map)] *)
Definition rename_columns (rename_map : gmap string string)
  (features_df : row_frame) : row_frame :=
  map (fun cv => (dict_get rename_map cv.1 cv.1, cv.2)) features_df.

(** Lines 151-174 of [predict]: the frame given to [model.predict] and the
    warnings logged on the way; the [except Exception] clause turns any
    exception into a [ValueError]. *)
Definition prepare_features (model_name : string) (features_df : row_frame)
  : outcome row_frame * list model_warning :=
  let warnings := check_columns features_df in
  match reorder_columns MODEL_EXPECTED_FEATURES features_df with
  | Ok df =>
      (Ok (if String.eqb model_name "lightgbm"
           then rename_columns LIGHTGBM_RENAME df
           else df),
       warnings)
  | Raise _ => (Raise ValueError, warnings)
  end.

(** The four city-specific area features of [preprocess]. *)
Definition CITY_AREA_FEATURES : list string :=
  ["area_in_hồ_chí_minh"; "area_in_hà_nội"; "area_in_bình_dương";
   "area_in_đà_nẵng"].

(** ** What [basic_preprocessing] leaves as it is *)

(** The four columns that get a presence flag, with the flag's name. *)
Definition FLAG_COLUMNS : list (string * string) :=
  [ ("Balcony direction", "new_has_balcony_direction");
    ("House direction", "new_has_house_direction");
    ("Access Road", "new_has_access_road");
    ("Frontage", "has_frontage") ].

(** The columns that [extract_from_address] writes. *)
Definition LOCATION_COLUMNS : list string :=
  ["new_city"; "new_district"; "new_street_ward"].

(** Every column that [basic_preprocessing] may create or overwrite. *)
Definition CREATED_COLUMNS : list string :=
  (map snd FLAG_COLUMNS ++ LOCATION_COLUMNS ++ DERIVED_COLUMNS)%list.

(** Column [c] of [d] is in [d'] with its values, missing cells possibly
    filled. *)
Definition keeps_column (d d' : frame) (c : string) : Prop :=
  forall s, d !! c = Some s ->
            exists s', d' !! c = Some s' /\ keeps_values s s'.

(** ** Rare categories ([enhanced_preprocessing.py]) *)

(** [s.value_counts()]: each distinct value of the column with the number
    of its rows, NaN left out.  pandas orders the entries by falling count;
    the callers below only test membership in the index. *)
Definition value_counts (s : series) : list (value * nat) :=
  map (fun v => (v, Pandas.count_of v (Pandas.dropna s)))
      (Pandas.dropna (Pandas.unique s)).

(** [value_counts[value_counts < min_count].index] *)
Definition rare_categories (min_count : Z) (s : series) : list value :=
  map fst (List.filter (fun vc => (Z.of_nat vc.2 <? min_count)%Z)
             (value_counts s)).

(** [x in index] and [s.isin(index)] on one cell; NaN is in no index that
    [value_counts] builds. *)
Definition isin (index : list value) (x : option value) : bool :=
  match x with
  | Some v => existsb (Pandas.value_eqb v) index
  | None => false
  end.

(** [group_rare_categories(df, column, min_count, group_name)] *)
Definition group_rare_categories (column : string) (min_count : Z)
  (group_name : string) (d : frame) : frame :=
  match d !! column with
  | None => d
  | Some s =>
      let rare := rare_categories min_count s in
      <[column := map (fun x => if isin rare x then Some (VStr group_name)
                                else x) s]> d
  end.

(** [remove_rare_categories(df, column, min_count)]: the rows of the rare
    categories leave every column.  [len(df)] is the number of rows, which is
    the length of each column of a pandas frame, here of [df[column]].  The
    report printed before the return divides the number of rows removed by
    [original_len], both of them Python integers: [ZeroDivisionError] on a
    frame that has the column and no row. *)
Definition remove_rare_categories (column : string) (min_count : Z)
  (d : frame) : outcome frame :=
  match d !! column with
  | None => Ok d
  | Some s =>
      let original_len := length s in
      let rare := rare_categories min_count s in
      let mask := map (fun x => negb (isin rare x)) s in
      let df_filtered := Pandas.select mask <$> d in
      if (original_len =? 0)%nat
      then Raise ZeroDivisionError
      else Ok df_filtered
  end.

(** The keys of [config] that [enhanced_preprocessing] reads; [None] is an
    absent key:
    [config['encoding']['high_cardinality']['rare_threshold']] and
    [config['feature_engineering']['interactions']['enabled']]. *)
Record enhanced_config : Type := {
  rare_threshold : option Z;
  interactions_enabled : option bool
}.

(** [enhanced_preprocessing(df, config)] ([tree_optimized_preprocessing.py]) *)
Definition enhanced_preprocessing (config : enhanced_config) (d : frame)
  : outcome frame :=
  let rare_threshold := default 100 (rare_threshold config) in
  d ← (if has_column d "new_city"
       then remove_rare_categories "new_city" 10 d else Ok d);
  let d := if has_column d "new_district"
           then group_rare_categories "new_district" rare_threshold "Other" d
           else d in
  let d := if has_column d "new_street_ward"
           then group_rare_categories "new_street_ward" rare_threshold "Other" d
           else d in
  if default true (interactions_enabled config)
  then create_interaction_features d
  else Ok d.

(** The columns that [create_interaction_features] writes. *)
Definition INTERACTION_COLUMNS : list string :=
  (["area_x_bathrooms"; "area_x_bedrooms"; "area_x_floors";
    "bedrooms_x_bathrooms"; "bedrooms_x_floors"; "luxury_score"]
   ++ map snd MAJOR_CITIES ++ ["room_density"; "access_quality"])%list.

(** The number of rows of [s] that hold [v]. *)
Definition rows_of (v : value) (s : series) : nat :=
  Pandas.count_of v (Pandas.dropna s).

(** No category of [s] other than [spared] has fewer than [min_count]
    rows. *)
Definition no_rare_category (min_count : Z) (spared : option value)
  (s : series) : Prop :=
  forall v, Some v ∈ s -> Some v <> spared ->
            (min_count <= Z.of_nat (rows_of v s))%Z.

(** Twelve listings: ten in Hà Nội, of which seven in Ba Đình, and two in
    Huế. *)
Definition city_frame : frame :=
  list_to_map
    [ ("new_city",
       (replicate 10 (Some (VStr "Hà Nội")) ++ replicate 2 (Some (VStr "Huế")))%list);
      ("new_district",
       (replicate 7 (Some (VStr "Ba Đình")) ++ replicate 3 (Some (VStr "Tây Hồ"))
        ++ replicate 2 (Some (VStr "Phú Hội")))%list);
      ("Area", replicate 12 (Some (VNum 50))) ].

(** A frame with the columns new_city and Furniture state and no row. *)
Definition rowless_frame : frame :=
  list_to_map [("new_city", []); ("Furniture state", [])].

(** The column that [group_rare_categories] writes in place of [s]. *)
Definition grouped (min_count : Z) (group_name : string) (s : series) : series :=
  map (fun x => if isin (rare_categories min_count s) x
                then Some (VStr group_name) else x) s.

(** The mask of [remove_rare_categories] on the column [s]. *)
Definition kept_rows (min_count : Z) (s : series) : list bool :=
  map (fun x => negb (isin (rare_categories min_count s) x)) s.

(** ** What [create_interaction_features] needs *)

(** The columns that [create_interaction_features] reads as numbers. *)
Definition NUMERIC_INPUTS : list string :=
  ["Area"; "Bathrooms"; "Bedrooms"; "Floors"; "new_total_rooms";
   "Access Road"; "Frontage"].

(** None of the numeric inputs that the frame has holds a string. *)
Definition numeric_inputs_ok (d : frame) : Prop :=
  forall c s, c ∈ NUMERIC_INPUTS -> d !! c = Some s -> Pandas.is_numeric s = true.

(** The configuration of the examples: districts under five listings are
    grouped, the interaction features are left at their default. *)
Definition small_config : enhanced_config :=
  {| rare_threshold := Some 5; interactions_enabled := None |}.

(** A block of [create_interaction_features] runs through and leaves the numeric inputs as they are. *)
Definition block_ok (block : frame -> outcome frame) : Prop :=
  forall d, numeric_inputs_ok d ->
            exists d', block d = Ok d' /\ numeric_inputs_ok d'.

(** ** Shapes of frames and the examples of Phase 3 *)

(** The two frames have the same columns, each with the same number of
    rows. *)
Definition same_shape (d d' : frame) : Prop :=
  forall c, length <$> d' !! c = length <$> d !! c.

(** [astype(str)] on the cells of a text column: a string is itself and
    NaN becomes the text nan.  It runs the examples, which hold no number;
    the text of a number is left to the formatter of the runtime. *)
Definition text_of_cell (c : option value) : string :=
  match c with
  | Some (VStr s) => s
  | Some (VNum _) => ""
  | None => "nan"
  end.

(** Training and test listings for the examples of Phase 3. *)
Definition train_frame : frame :=
  list_to_map
    [ ("new_city", [Some (VStr "Huế"); Some (VStr "Hà Nội"); Some (VStr "Huế")]);
      ("Area", [Some (VNum 50); Some (VNum 80); Some (VNum 65)]) ].

Definition test_frame : frame :=
  list_to_map
    [ ("new_city", [Some (VStr "Đà Lạt"); Some (VStr "Huế")]);
      ("Area", [Some (VNum 40); Some (VNum 90)]) ].

(** ** [select_features_ensemble] ([enhanced_preprocessing.py]) *)

(** The keys of [Counter(l)], in the order of their first insertion. *)
Fixpoint counter_keys (seen l : list string) : list string :=
  match l with
  | [] => []
  | f :: l' =>
      if bool_decide (f ∈ seen) then counter_keys seen l'
      else f :: counter_keys (f :: seen) l'
  end.

(** [Counter(l)[f]] *)
Definition votes_of (f : string) (l : list string) : nat :=
  length (List.filter (String.eqb f) l).

(** [Counter(l).items()] *)
Definition Counter (l : list string) : list (string * nat) :=
  map (fun f => (f, votes_of f l)) (counter_keys [] l).

(** The vote of [select_features_ensemble] on the lists that the three
    selection methods return. *)
Definition select_features_ensemble
  (corr_features mi_features rf_features : list string) (min_votes : Z)
  : list string :=
  let all_features := (corr_features ++ mi_features ++ rf_features)%list in
  let feature_votes := Counter all_features in
  map fst (List.filter (fun fv => (min_votes <=? Z.of_nat fv.2)%Z) feature_votes).

(** The number of methods that list [f]. *)
Definition methods_listing (f : string)
  (corr_features mi_features rf_features : list string) : nat :=
  ((if bool_decide (f ∈ corr_features) then 1 else 0)
   + (if bool_decide (f ∈ mi_features) then 1 else 0)
   + (if bool_decide (f ∈ rf_features) then 1 else 0))%nat.

(** Every column of [d] is a column of [d']. *)
Definition keeps_columns (d d' : frame) : Prop :=
  forall c, is_Some (d !! c) -> is_Some (d' !! c).

(** A request frame with one expected column and one that is not
    expected. *)
Definition misfit_frame : row_frame :=
  [("Area", PFloat 80); ("Price", PFloat 5)].

(** The name under which [predict] hands a feature to the model. *)
Definition model_column (model_name feature : string) : string :=
  if String.eqb model_name "lightgbm"
  then dict_get LIGHTGBM_RENAME feature feature
  else feature.

(** ** What [_parse_location] never returns *)

(** [s.endswith(c)] for a one-byte character [c]. *)
Fixpoint ends_with_char (c : ascii) (s : string) : bool :=
  match s with
  | EmptyString => false
  | String a EmptyString => Ascii.eqb a c
  | String _ s' => ends_with_char c s'
  end.

(** ** Order of the thresholds of [preprocess] *)

(** [c1 <= c2] for two positive finite floats, by exponent, then by
    mantissa. *)
Definition positive_float_le (c1 c2 : spec_float) : bool :=
  match c1, c2 with
  | S754_finite false m1 e1, S754_finite false m2 e2 =>
      (e1 <? e2)%Z || ((e1 =? e2)%Z && (m1 <=? m2)%positive)
  | _, _ => false
  end.
(** ** Facts about the method monad *)

Lemma bind_inv {A B} (m : M A) (f : A -> M B) w b w' :
  (m ≫= f) w = (Ok b, w') ->
  exists a w1, m w = (Ok a, w1) /\ f a w1 = (Ok b, w').
Proof.
  unfold mbind, M_bind. destruct (m w) as [[a|e] w1]; intros Hb.
  - exists a, w1. split; [reflexivity | exact Hb].
  - discriminate Hb.
Qed.

Lemma bind_ok {A B} (m : M A) (f : A -> M B) w a w1 :
  m w = (Ok a, w1) -> (m ≫= f) w = f a w1.
Proof. intros Hm. unfold mbind, M_bind. rewrite Hm. reflexivity. Qed.

Lemma bind_raise {A B} (m : M A) (f : A -> M B) w e w1 :
  m w = (Raise e, w1) -> (m ≫= f) w = (Raise e, w1).
Proof. intros Hm. unfold mbind, M_bind. rewrite Hm. reflexivity. Qed.

Lemma lift_inv {A} (r : outcome A) w a w' :
  lift r w = (Ok a, w') -> r = Ok a /\ w' = w.
Proof. unfold lift. intros [= -> ->]. split; reflexivity. Qed.

Lemma ret_inv {A} (a b : A) (w w' : world) :
  (mret a : M A) w = (Ok b, w') -> b = a /\ w' = w.
Proof. unfold mret, M_ret. intros [= -> ->]. split; reflexivity. Qed.

(** ** Facts about the final reordering step *)

Lemma collect_expected_run `{PyBuiltins} features processed result w :
  collect_expected features processed result w =
  (Ok (fill_expected features processed result),
   {| self := self w;
      logged := logged w ++ missing_warnings features processed |}).
Proof.
  revert result w.
  induction features as [|feature rest IH]; intros result w.
  - unfold missing_warnings. simpl. rewrite app_nil_r. destruct w; reflexivity.
  - cbn [collect_expected fill_expected fold_left].
    unfold missing_warnings. cbn [List.filter].
    destruct (processed !! feature) as [v|] eqn:Hv.
    + rewrite IH. cbn [default].
      rewrite bool_decide_eq_true_2 by eauto. reflexivity.
    + erewrite bind_ok by reflexivity.
      rewrite IH. cbn [default self logged].
      rewrite bool_decide_eq_false_2 by (intros [? [=]]).
      cbn [negb map]. rewrite <- app_assoc. reflexivity.
Qed.

Lemma fill_expected_lookup features processed result feature :
  fill_expected features processed result !! feature =
  if bool_decide (feature ∈ features)
  then Some (default (PInt 0) (processed !! feature))
  else result !! feature.
Proof.
  unfold fill_expected.
  revert result. induction features as [|f rest IH]; intros result.
  - rewrite bool_decide_eq_false_2 by apply not_elem_of_nil. reflexivity.
  - cbn [fold_left].
    rewrite IH. destruct (decide (feature ∈ rest)) as [Hin|Hout].
    + rewrite !bool_decide_eq_true_2; [reflexivity | by right | done].
    + rewrite (bool_decide_eq_false_2 (feature ∈ rest)) by done.
      destruct (decide (f = feature)) as [->|Hne].
      * rewrite lookup_insert_eq, bool_decide_eq_true_2 by left. reflexivity.
      * rewrite lookup_insert_ne by done.
        rewrite bool_decide_eq_false_2; [reflexivity|].
        intros Hin. apply elem_of_cons in Hin as [->|Hin]; [done | done].
Qed.

Lemma select_columns_total columns (result0 : gmap string pyval)
  (g : string -> pyval) :
  (forall c, c ∈ columns -> result0 !! c = Some (g c)) ->
  select_columns columns result0 = Ok (map (fun c => (c, g c)) columns).
Proof.
  induction columns as [|c cs IH]; intros Hall; [reflexivity|].
  cbn [select_columns map]. rewrite (Hall c) by left.
  rewrite IH; [reflexivity|]. intros c' Hc'. apply Hall. by right.
Qed.

(** [create_dataframe] always returns, and returns [expected_row]. *)
Lemma create_dataframe_run `{PyBuiltins} processed w :
  create_dataframe processed w =
  (Ok (expected_row processed),
   {| self := self w;
      logged := logged w ++ missing_warnings EXPECTED_FEATURES processed
                ++ [(INFO, "Preprocessed input to 41 features")] |}).
Proof.
  unfold create_dataframe.
  erewrite bind_ok by apply collect_expected_run.
  assert (select_columns EXPECTED_FEATURES
            (fill_expected EXPECTED_FEATURES processed ∅)
          = Ok (expected_row processed)) as Hsel.
  { apply (select_columns_total _ _
             (fun c => default (PInt 0) (processed !! c))).
    intros c Hc. rewrite fill_expected_lookup.
    rewrite bool_decide_eq_true_2 by done. reflexivity. }
  rewrite Hsel.
  erewrite bind_ok by reflexivity.
  erewrite bind_ok by reflexivity.
  unfold mret, M_ret. cbn [self logged]. rewrite <- app_assoc.
  repeat f_equal.
Qed.

Lemma frame_columns_expected_row processed :
  frame_columns (expected_row processed) = EXPECTED_FEATURES.
Proof.
  unfold frame_columns, expected_row. rewrite map_map. cbn [fst].
  apply map_id.
Qed.

Lemma frame_get_map (g : string -> pyval) (l : list string) (c : string) :
  c ∈ l -> frame_get (map (fun f => (f, g f)) l) c = Some (g c).
Proof.
  unfold frame_get. induction l as [|f l IH]; intros Hin.
  - by apply not_elem_of_nil in Hin.
  - cbn [map List.find fst]. destruct (String.eqb f c) eqn:E.
    + apply String.eqb_eq in E as ->. reflexivity.
    + apply String.eqb_neq in E. apply elem_of_cons in Hin as [->|Hin]; [done|].
      by apply IH.
Qed.

Lemma frame_get_expected_row processed feature :
  feature ∈ EXPECTED_FEATURES ->
  frame_get (expected_row processed) feature =
  Some (default (PInt 0) (processed !! feature)).
Proof. apply frame_get_map. Qed.

Lemma preprocess_inv `{PyBuiltins} data w df w' :
  preprocess data w = (Ok df, w') ->
  exists processed w1,
    compute_features data w = (Ok processed, w1) /\
    df = expected_row processed /\
    self w' = self w1 /\
    logged w' = (logged w1 ++ missing_warnings EXPECTED_FEATURES processed
                 ++ [(INFO, "Preprocessed input to 41 features")])%list.
Proof.
  unfold preprocess. intros Hp.
  apply bind_inv in Hp as (processed & w1 & Hc & Hd).
  rewrite create_dataframe_run in Hd. injection Hd as <- <-.
  exists processed, w1. split; [exact Hc|]. repeat split.
Qed.

(** ** What [compute_features] computes *)

Lemma encode_categorical_run `{PyBuiltins} column value w :
  exists code, _encode_categorical column value w = (Ok code, w).
Proof.
  unfold _encode_categorical.
  erewrite bind_ok by reflexivity.
  destruct (label_encoders (self w) !! column) as [le|].
  - destruct (if in_classes_value le value then transform_value le value
              else Ok (-1)); eauto.
  - destruct (negb (truthy value)); eauto.
Qed.

(** One step of the inversion of a successful run. *)
Ltac step_inv Hc :=
  let a := fresh "x" in
  let w1 := fresh "w" in
  let Ha := fresh "Hx" in
  apply bind_inv in Hc as (a & w1 & Ha & Hc);
  lazymatch type of Ha with
  | lift _ _ = _ => apply lift_inv in Ha as [Ha ->]
  | _encode_categorical ?c ?v ?w = _ =>
      let E := fresh "E" in
      destruct (encode_categorical_run c v w) as [? E];
      rewrite E in Ha; injection Ha as -> ->
  | get_self _ = _ => injection Ha as <- <-
  end.

Lemma luxury_chain (b1 b2 b3 : bool) :
  (if b3 then (if b2 then (if b1 then 0 + 1 else 0) + 1
               else if b1 then 0 + 1 else 0) + 1
   else if b2 then (if b1 then 0 + 1 else 0) + 1
        else if b1 then 0 + 1 else 0)
  = (if b1 then 1 else 0) + (if b2 then 1 else 0) + (if b3 then 1 else 0).
Proof. destruct b1, b2, b3; reflexivity. Qed.

Lemma all_present (features : list string) (processed : gmap string pyval) :
  forallb (fun feature => match processed !! feature with
                          | Some _ => true
                          | None => false
                          end) features = true ->
  forall feature, feature ∈ features -> is_Some (processed !! feature).
Proof.
  intros Hall feature Hin. rewrite forallb_forall in Hall.
  apply list_elem_of_In in Hin. specialize (Hall feature Hin).
  destruct (processed !! feature); [eauto | discriminate Hall].
Qed.

(** A successful run of lines 158-273 leaves the world as it was and
    yields a dictionary with all 41 expected keys; the entries below are
    the ones the contracts speak about. *)
Lemma compute_features_inv `{PyBuiltins} data w processed w' :
  compute_features data w = (Ok processed, w') ->
  w' = w /\
  (forall feature, feature ∈ EXPECTED_FEATURES -> is_Some (processed !! feature)) /\
  (exists area frontage access_road floors bedrooms bathrooms furniture_state,
      _to_float (dict_get data "Area" (PInt 70)) 0 = Ok area /\
      _to_float (dict_get data "Frontage" (PInt 0)) 0 = Ok frontage /\
      _to_float (dict_get data "AccessRoad"
                   (dict_get data "Access Road" (PInt 0))) 0 = Ok access_road /\
      _to_float (dict_get data "Floors" (PInt 1)) 0 = Ok floors /\
      _to_float (dict_get data "Bedrooms" (PInt 2)) 0 = Ok bedrooms /\
      _to_float (dict_get data "Bathrooms" (PInt 2)) 0 = Ok bathrooms /\
      _encode_furniture
        (dict_get data "Furniture" (dict_get data "Furniture state" (PStr "")))
        = Ok furniture_state /\
      processed !! "Area" = Some (PFloat area) /\
      processed !! "Frontage" = Some (PFloat frontage) /\
      processed !! "Access Road" = Some (PFloat access_road) /\
      processed !! "Floors" = Some (PFloat floors) /\
      processed !! "Bedrooms" = Some (PFloat bedrooms) /\
      processed !! "Bathrooms" = Some (PFloat bathrooms) /\
      processed !! "Furniture state" = Some (PInt furniture_state) /\
      processed !! "luxury_score" =
        Some (PInt (luxury_score_online bathrooms area furniture_state)) /\
      processed !! "access_quality" =
        Some (PInt (access_quality_online access_road))) /\
  (exists city new_city new_district new_street_ward,
      _normalize_city
        (dict_get data "City" (dict_get data "new_city" (PStr "Hồ Chí Minh")))
        = Ok city /\
      _encode_categorical "new_city" (PStr city) w = (Ok new_city, w) /\
      _encode_categorical "new_district" (request_district data) w
        = (Ok new_district, w) /\
      _encode_categorical "new_street_ward"
        (dict_get data "Ward" (dict_get data "new_street_ward" (PStr ""))) w
        = (Ok new_street_ward, w) /\
      processed !! "new_city" = Some (PInt new_city) /\
      processed !! "new_district" = Some (PInt new_district) /\
      processed !! "new_street_ward" = Some (PInt new_street_ward)) /\
  (district_known (self w) (request_district data) = false ->
      processed !! "new_district_area_mean" = Some (PFloat 70) /\
      processed !! "new_district_area_median" = Some (PFloat 65) /\
      processed !! "new_district_area_std" = Some (PFloat 30) /\
      processed !! "new_district_sample_count" = Some (PInt 100) /\
      processed !! "new_district_tier" = Some (PInt 2)).
Proof.
  intros Hc. unfold compute_features in Hc. cbv zeta in Hc.
  repeat step_inv Hc.
  unfold district_known, request_district.
  match type of Hc with
  | match ?found with _ => _ end _ = _ => destruct found as [stats|] eqn:Hfound
  end; apply ret_inv in Hc as [-> ->].
  all: split; [reflexivity|].
  all: split;
    [ apply all_present; vm_compute; reflexivity | ].
  all: split;
    [ do 7 eexists; repeat (split; [eassumption|]);
      rewrite luxury_chain; repeat split; reflexivity | ].
  all: split;
    [ do 4 eexists; repeat (split; [eassumption|]);
      repeat split; reflexivity | ].
  - intros Hk. exfalso.
    destruct (location_stats (self w0)) as [table|]; [|discriminate Hfound].
    destruct (dict_get data "District" _); try discriminate Hfound.
    rewrite Hfound in Hk.
    rewrite bool_decide_eq_true_2 in Hk by eauto. discriminate Hk.
  - intros _. repeat split; reflexivity.
Qed.

(** ** [preprocess] returns on every well-formed request *)

Lemma to_float_convertible `{PyBuiltins} v default :
  float_convertible v = true -> exists x, _to_float v default = Ok x.
Proof.
  destruct v as [|b|z|f|s]; cbn [float_convertible _to_float]; intros Hv; eauto.
  - destruct (float_of_int z); [eauto | discriminate Hv].
  - destruct s; [eauto|]. destruct (float_of_str _); eauto.
Qed.

Lemma to_float_malformed `{PyBuiltins} v default x :
  malformed_numeric v = true -> _to_float v default = Ok x -> x = default.
Proof.
  destruct v as [|b|z|f|s]; cbn [malformed_numeric _to_float];
    try discriminate; intros Hv Hx.
  - congruence.
  - destruct s as [|a s]; [congruence|]. cbn [String.eqb orb] in Hv.
    destruct (float_of_str (String a s)); [discriminate Hv | congruence].
Qed.

Lemma int_of_float_finite f :
  finite_float f = true -> exists z, int_of_float f = Ok z.
Proof.
  unfold finite_float, int_of_float.
  destruct (Prim2SF f); intros Hf; try discriminate Hf; eauto.
Qed.

Lemma encode_with_convertible `{PyBuiltins} table default v :
  int_convertible v = true -> exists z, encode_with table default v = Ok z.
Proof.
  destruct v as [|b|z|f|s]; cbn [int_convertible encode_with]; intros Hv; eauto.
  by apply int_of_float_finite.
Qed.

Lemma normalize_city_like `{PyBuiltins} v :
  city_like v = true -> exists city, _normalize_city v = Ok city.
Proof.
  unfold _normalize_city.
  destruct v as [|b|z|f|s]; cbn [city_like]; intros Hv;
    try rewrite Hv; try destruct (negb (truthy _)); eauto.
Qed.

Lemma well_formed_get (ok : pyval -> bool) (keys : list string) data k d :
  well_formed data ->
  (forall v, accepted_at k v = true -> ok v = true) ->
  ok d = true -> ok (dict_get data k d) = true.
Proof.
  intros Hwf Hk Hd. unfold dict_get.
  destruct (data !! k) as [v|] eqn:Hv; [|exact Hd].
  apply Hk. exact (map_Forall_lookup_1 _ _ _ _ Hwf Hv).
Qed.

Lemma accepted_numeric k v :
  k ∈ numeric_keys -> accepted_at k v = true -> float_convertible v = true.
Proof.
  intros Hk. unfold accepted_at. rewrite (bool_decide_eq_true_2 _ Hk).
  intros Ha. apply andb_prop in Ha as [Ha _]. by apply andb_prop in Ha as [Ha _].
Qed.

Lemma accepted_code k v :
  k ∈ code_keys -> accepted_at k v = true -> int_convertible v = true.
Proof.
  intros Hk. unfold accepted_at. rewrite (bool_decide_eq_true_2 (k ∈ code_keys) Hk).
  intros Ha. apply andb_prop in Ha as [Ha _]. by apply andb_prop in Ha as [_ Ha].
Qed.

Lemma accepted_city k v :
  k ∈ city_keys -> accepted_at k v = true -> city_like v = true.
Proof.
  intros Hk. unfold accepted_at. rewrite (bool_decide_eq_true_2 (k ∈ city_keys) Hk).
  intros Ha. by apply andb_prop in Ha as [_ Ha].
Qed.

Ltac solve_schema Hwf :=
  repeat first
    [ reflexivity
    | apply (well_formed_get float_convertible numeric_keys);
        [ exact Hwf | intros ?; apply accepted_numeric; set_solver | ]
    | apply (well_formed_get int_convertible code_keys);
        [ exact Hwf | intros ?; apply accepted_code; set_solver | ]
    | apply (well_formed_get city_like city_keys);
        [ exact Hwf | intros ?; apply accepted_city; set_solver | ] ].

Lemma returns_bind {A B} (m : M A) (f : A -> M B) w a :
  m w = (Ok a, w) -> returns_at (f a) w -> returns_at (m ≫= f) w.
Proof.
  intros Hm [b Hb]. exists b. erewrite bind_ok by exact Hm. exact Hb.
Qed.

Lemma returns_lift {A B} (r : outcome A) (f : A -> M B) w a :
  r = Ok a -> returns_at (f a) w -> returns_at (lift r ≫= f) w.
Proof. intros ->. by apply returns_bind. Qed.

Lemma compute_features_total `{PyBuiltins} data w :
  well_formed data -> exists processed, compute_features data w = (Ok processed, w).
Proof.
  intros Hwf. change (returns_at (compute_features data) w).
  unfold compute_features. cbv zeta.
  unfold _encode_direction, _encode_legal_status, _encode_furniture.
  repeat lazymatch goal with
  | |- returns_at (lift (_to_float ?v ?d) ≫= _) _ =>
      let x := fresh "x" in
      let Hx := fresh "Hx" in
      destruct (to_float_convertible v d) as [x Hx]; [solve_schema Hwf|];
      apply (returns_lift _ _ _ x Hx)
  | |- returns_at (lift (encode_with ?t ?d ?v) ≫= _) _ =>
      let x := fresh "x" in
      let Hx := fresh "Hx" in
      destruct (encode_with_convertible t d v) as [x Hx]; [solve_schema Hwf|];
      apply (returns_lift _ _ _ x Hx)
  | |- returns_at (lift (_normalize_city ?v) ≫= _) _ =>
      let x := fresh "x" in
      let Hx := fresh "Hx" in
      destruct (normalize_city_like v) as [x Hx]; [solve_schema Hwf|];
      apply (returns_lift _ _ _ x Hx)
  | |- returns_at (_encode_categorical ?c ?v ≫= _) ?w =>
      let x := fresh "x" in
      let Hx := fresh "Hx" in
      destruct (encode_categorical_run c v w) as [x Hx];
      apply (returns_bind _ _ _ x Hx)
  | |- returns_at (get_self ≫= _) ?w =>
      apply (returns_bind get_self _ w (self w)); [reflexivity|]; cbv beta
  end.
  match goal with
  | |- returns_at (match ?found with _ => _ end) _ => destruct found
  end; eexists; reflexivity.
Qed.

Lemma missing_warnings_nil features (processed : gmap string pyval) :
  (forall feature, feature ∈ features -> is_Some (processed !! feature)) ->
  missing_warnings features processed = [].
Proof.
  unfold missing_warnings.
  induction features as [|f rest IH]; intros Hall; [reflexivity|].
  cbn [List.filter]. rewrite bool_decide_eq_true_2 by (apply Hall; left).
  cbn [negb]. apply IH. intros feature Hin. apply Hall. by right.
Qed.

Lemma preprocess_total `{PyBuiltins} data w :
  well_formed data ->
  exists processed,
    compute_features data w = (Ok processed, w) /\
    preprocess data w =
      (Ok (expected_row processed),
       {| self := self w;
          logged := logged w ++ [(INFO, "Preprocessed input to 41 features")] |}).
Proof.
  intros Hwf. destruct (compute_features_total data w Hwf) as [processed Hc].
  exists processed. split; [exact Hc|].
  unfold preprocess. erewrite bind_ok by exact Hc.
  rewrite create_dataframe_run. repeat f_equal.
  apply compute_features_inv in Hc as (_ & Hall & _ & _ & _).
  by rewrite (missing_warnings_nil _ _ Hall).
Qed.

Lemma missing_warning_logged features (processed : gmap string pyval) feature :
  feature ∈ features -> processed !! feature = None ->
  (WARNING, "Missing feature: " ++ feature ++ ", using default 0")
    ∈ missing_warnings features processed.
Proof.
  intros Hin Hv. unfold missing_warnings.
  apply list_elem_of_In.
  apply (in_map (fun f => (WARNING, "Missing feature: " ++ f ++ ", using default 0"))).
  apply filter_In. split; [by apply list_elem_of_In|].
  rewrite Hv. rewrite bool_decide_eq_false_2; [reflexivity|].
  intros [? [=]].
Qed.

(** ** Contracts of the online preprocessor *)

(** Membership of a literal in [EXPECTED_FEATURES], by deciding it. *)
Ltac expected_feature :=
  apply (bool_decide_unpack _); vm_compute; exact I.


Lemma well_formed_by_computation (data : gmap string pyval) :
  bool_decide (well_formed data) = true -> well_formed data.
Proof. apply bool_decide_eq_true_1. Qed.

(** C1. Column-order contract.  The final step of [preprocess] (lines
    275-292) returns for every [processed] dictionary a one-row frame whose
    columns are exactly [EXPECTED_FEATURES], in order, 41 of them; an
    expected feature that [processed] holds keeps its value, one that it
    lacks is set to 0 and a warning is logged, with no error.  Hence every
    frame that [preprocess] returns has these 41 columns in this order, and
    [preprocess] does return one on every well-formed request. *)
Theorem preprocess_column_order_contract `{PyBuiltins} :
  length EXPECTED_FEATURES = 41%nat /\
  (forall processed w, exists df w',
      create_dataframe processed w = (Ok df, w') /\
      self w' = self w /\
      frame_columns df = EXPECTED_FEATURES /\
      length df = length EXPECTED_FEATURES /\
      (forall feature v,
          feature ∈ EXPECTED_FEATURES -> processed !! feature = Some v ->
          frame_get df feature = Some v) /\
      (forall feature,
          feature ∈ EXPECTED_FEATURES -> processed !! feature = None ->
          frame_get df feature = Some (PInt 0) /\
          (WARNING, "Missing feature: " ++ feature ++ ", using default 0")
            ∈ logged w')) /\
  (forall data w df w',
      preprocess data w = (Ok df, w') ->
      frame_columns df = EXPECTED_FEATURES /\
      length df = length EXPECTED_FEATURES) /\
  (forall data w,
      well_formed data -> exists df w', preprocess data w = (Ok df, w')).
Proof.
  split; [reflexivity|]. split; [|split].
  - intros processed w. eexists _, _. split; [apply create_dataframe_run|].
    split; [reflexivity|]. split; [apply frame_columns_expected_row|].
    split; [unfold expected_row; apply length_map|].
    split.
    + intros feature v Hin Hv. rewrite frame_get_expected_row by done.
      by rewrite Hv.
    + intros feature Hin Hv. rewrite frame_get_expected_row by done.
      rewrite Hv. split; [reflexivity|]. cbn [logged].
      apply elem_of_app. right. apply elem_of_app. left.
      by apply missing_warning_logged.
  - intros data w df w' Hp.
    apply preprocess_inv in Hp as (processed & w1 & _ & -> & _).
    split; [apply frame_columns_expected_row|].
    unfold expected_row. apply length_map.
  - intros data w Hwf.
    destruct (preprocess_total data w Hwf) as (processed & _ & Hp). eauto.
Qed.

Lemma preprocess_column_order_contract_witness :
  exists df w',
    @preprocess reference_builtins scenario_request (fresh_world demo_service)
      = (Ok df, w') /\
    frame_columns df = EXPECTED_FEATURES /\
    length df = 41%nat.
Proof.
  destruct (@preprocess_column_order_contract reference_builtins)
    as (Hlen & _ & Hshape & Htotal).
  destruct (Htotal scenario_request (fresh_world demo_service))
    as (df & w' & Hp).
  { apply well_formed_by_computation. vm_compute. reflexivity. }
  exists df, w'. split; [exact Hp|].
  destruct (Hshape _ _ _ _ Hp) as [Hcols Hl].
  split; [exact Hcols|]. rewrite Hl. exact Hlen.
Defined.

(** C8. Unknown district at serve time.  When the district of the request
    is not a key of the loaded location-stats table, the five location-stat
    columns of every returned frame hold the fixed defaults 70.0, 65.0,
    30.0, 100 and 2, and the service object (its statistics and encoders)
    is what it was; on a well-formed request [preprocess] does return, so
    the unknown district is no error. *)
Theorem unknown_district_uses_fixed_defaults `{PyBuiltins} data w :
  district_known (self w) (request_district data) = false ->
  (forall df w',
      preprocess data w = (Ok df, w') ->
      has_default_location_stats df /\ self w' = self w) /\
  (well_formed data -> exists df w', preprocess data w = (Ok df, w')).
Proof.
  intros Hunknown. split.
  - intros df w' Hp.
    apply preprocess_inv in Hp as (processed & w1 & Hc & -> & Hself & _).
    apply compute_features_inv in Hc as (-> & _ & _ & _ & Hstats).
    destruct (Hstats Hunknown) as (H1 & H2 & H3 & H4 & H5).
    split; [|exact Hself].
    unfold has_default_location_stats.
    rewrite !frame_get_expected_row by expected_feature.
    rewrite H1, H2, H3, H4, H5. repeat split.
  - intros Hwf.
    destruct (preprocess_total data w Hwf) as (processed & _ & Hp). eauto.
Qed.

Lemma unknown_district_uses_fixed_defaults_witness :
  exists df w',
    @preprocess reference_builtins unseen_district_request
      (fresh_world demo_service) = (Ok df, w') /\
    has_default_location_stats df /\
    self w' = demo_service.
Proof.
  destruct (@unknown_district_uses_fixed_defaults reference_builtins
              unseen_district_request (fresh_world demo_service))
    as [Hdefaults Htotal].
  { vm_compute. reflexivity. }
  destruct Htotal as (df & w' & Hp).
  { apply well_formed_by_computation. vm_compute. reflexivity. }
  exists df, w'. split; [exact Hp|]. exact (Hdefaults df w' Hp).
Defined.

Lemma float_literals_differ (x y : float) :
  PrimFloat.eqb x y = false -> PrimFloat.eqb y y = true ->
  PFloat x <> PFloat y.
Proof. intros Hne Hrefl [= Heq]. rewrite Heq in Hne. congruence. Qed.

(** C9, as stated, fails: on the empty request the features read from the
    omitted attributes are 70.0, 1.0, 2.0 and 2.0, not 0.0. *)
Lemma omitted_attributes_are_not_zero :
  exists df w',
    @preprocess reference_builtins ∅ (fresh_world bare_service) = (Ok df, w') /\
    frame_get df "Area" = Some (PFloat 70) /\
    frame_get df "Floors" = Some (PFloat 1) /\
    frame_get df "Bedrooms" = Some (PFloat 2) /\
    frame_get df "Bathrooms" = Some (PFloat 2) /\
    PFloat 70 <> PFloat 0.
Proof.
  eexists _, _. split; [vm_compute; reflexivity|].
  repeat (split; [vm_compute; reflexivity|]).
  apply float_literals_differ; reflexivity.
Qed.

Lemma to_float_of_default `{PyBuiltins} (data : gmap string pyval) k (z : Z) x y :
  data !! k = None ->
  _to_float (dict_get data k (PInt z)) 0 = Ok x ->
  float_of_int z = Ok y -> x = y.
Proof.
  intros Hk Hx Hy. unfold dict_get in Hx. rewrite Hk in Hx.
  cbn [_to_float] in Hx. congruence.
Qed.

(** C9, amended.  Nothing is initialised to 0.0: each numeric feature is
    read with its own default, so in every returned frame an omitted Area
    contributes 70.0, an omitted Frontage 0.0, an omitted AccessRoad (under
    both of its keys) 0.0, an omitted Floors 1.0, and omitted Bedrooms and
    Bathrooms 2.0 each; on a well-formed request a frame is returned. *)
Theorem omitted_numeric_attributes_get_field_defaults `{PyBuiltins} data w :
  (forall df w',
      preprocess data w = (Ok df, w') ->
      (data !! "Area" = None -> frame_get df "Area" = Some (PFloat 70)) /\
      (data !! "Frontage" = None -> frame_get df "Frontage" = Some (PFloat 0)) /\
      (data !! "AccessRoad" = None -> data !! "Access Road" = None ->
         frame_get df "Access Road" = Some (PFloat 0)) /\
      (data !! "Floors" = None -> frame_get df "Floors" = Some (PFloat 1)) /\
      (data !! "Bedrooms" = None -> frame_get df "Bedrooms" = Some (PFloat 2)) /\
      (data !! "Bathrooms" = None -> frame_get df "Bathrooms" = Some (PFloat 2))) /\
  (well_formed data -> exists df w', preprocess data w = (Ok df, w')).
Proof.
  split.
  - intros df w' Hp.
    apply preprocess_inv in Hp as (processed & w1 & Hc & -> & _).
    apply compute_features_inv in Hc as (_ & _ & Hvalues & _ & _).
    destruct Hvalues as (area & frontage & access_road & floors & bedrooms
      & bathrooms & furniture_state & Ha & Hf & Har & Hfl & Hbe & Hba & _
      & Pa & Pf & Par & Pfl & Pbe & Pba & _).
    rewrite !frame_get_expected_row by expected_feature.
    rewrite Pa, Pf, Par, Pfl, Pbe, Pba. cbn [default].
    repeat split; intros Hk.
    + by rewrite (to_float_of_default data "Area" 70 area 70%float Hk Ha).
    + by rewrite (to_float_of_default data "Frontage" 0 frontage 0%float Hk Hf).
    + intros Hk2. unfold dict_get in Har. rewrite Hk, Hk2 in Har.
      vm_compute in Har. by injection Har as <-.
    + by rewrite (to_float_of_default data "Floors" 1 floors 1%float Hk Hfl).
    + by rewrite (to_float_of_default data "Bedrooms" 2 bedrooms 2%float Hk Hbe).
    + by rewrite (to_float_of_default data "Bathrooms" 2 bathrooms 2%float Hk Hba).
  - intros Hwf.
    destruct (preprocess_total data w Hwf) as (processed & _ & Hp). eauto.
Qed.

Lemma omitted_numeric_attributes_get_field_defaults_witness :
  exists df w',
    @preprocess reference_builtins unseen_district_request
      (fresh_world demo_service) = (Ok df, w') /\
    frame_get df "Floors" = Some (PFloat 1) /\
    frame_get df "Bathrooms" = Some (PFloat 2).
Proof.
  destruct (@omitted_numeric_attributes_get_field_defaults reference_builtins
              unseen_district_request (fresh_world demo_service))
    as [Hdefaults Htotal].
  destruct Htotal as (df & w' & Hp).
  { apply well_formed_by_computation. vm_compute. reflexivity. }
  exists df, w'. split; [exact Hp|].
  destruct (Hdefaults df w' Hp) as (_ & _ & _ & Hfloors & _ & Hbath).
  split; [apply Hfloors | apply Hbath]; vm_compute; reflexivity.
Defined.

(** C10, as stated, fails: a request whose City is a non-zero number makes
    [_normalize_city] call [lower] on it, one whose Direction is NaN makes
    [int] fail, and one whose Area is an integer beyond the float range
    overflows; none of the three exceptions is caught. *)
Lemma preprocess_raises_on_ill_typed_requests :
  fst (@preprocess reference_builtins {["City" := PInt 5]}
         (fresh_world bare_service)) = Raise AttributeError /\
  fst (@preprocess reference_builtins {["Direction" := PFloat nan]}
         (fresh_world bare_service)) = Raise ValueError /\
  fst (@preprocess reference_builtins {["Area" := PInt (10 ^ 400)]}
         (fresh_world bare_service)) = Raise OverflowError.
Proof. repeat split; vm_compute; reflexivity. Qed.

(** C10, amended.  [preprocess] is total on the well-formed requests: those
    in which a City is a string or falsy, a direction, legal-status or
    furniture value is not a NaN or infinite float, and a numeric value is
    not an integer beyond the float range.  Absent keys, empty strings,
    [None] and strings that are no number are all accepted.  The call
    changes nothing in the service, logs one INFO record, and each numeric
    feature is [_to_float] of its raw value: 0.0 when that value is [None],
    empty or a string [float] rejects. *)
Theorem preprocess_total_on_well_formed_requests `{PyBuiltins} data w :
  well_formed data ->
  exists df,
    preprocess data w =
      (Ok df,
       {| self := self w;
          logged := logged w ++ [(INFO, "Preprocessed input to 41 features")] |}) /\
    Forall (fun feature_raw =>
              exists x,
                _to_float feature_raw.2 0 = Ok x /\
                frame_get df feature_raw.1 = Some (PFloat x) /\
                (malformed_numeric feature_raw.2 = true -> x = 0%float))
           (numeric_inputs data).
Proof.
  intros Hwf.
  destruct (preprocess_total data w Hwf) as (processed & Hc & Hp).
  exists (expected_row processed). split; [exact Hp|].
  apply compute_features_inv in Hc as (_ & _ & Hvalues & _ & _).
  destruct Hvalues as (area & frontage & access_road & floors & bedrooms
    & bathrooms & furniture_state & Ha & Hf & Har & Hfl & Hbe & Hba & _
    & Pa & Pf & Par & Pfl & Pbe & Pba & _).
  unfold numeric_inputs.
  repeat (apply Forall_cons; split;
          [ eexists; cbn [fst snd]; split; [eassumption|];
            split; [ rewrite frame_get_expected_row by expected_feature;
                     by match goal with P : _ = Some _ |- _ => rewrite P end
                   | intros Hm; eapply to_float_malformed; eassumption ] | ]).
  apply Forall_nil. exact I.
Qed.

Lemma preprocess_total_on_well_formed_requests_witness :
  exists df w',
    @preprocess reference_builtins
      (list_to_map [("Area", PStr "rộng"); ("Floors", PNone);
                    ("Bedrooms", PStr ""); ("City", PStr "")])
      (fresh_world bare_service) = (Ok df, w') /\
    frame_get df "Area" = Some (PFloat 0).
Proof.
  destruct (@preprocess_total_on_well_formed_requests reference_builtins
              (list_to_map [("Area", PStr "rộng"); ("Floors", PNone);
                            ("Bedrooms", PStr ""); ("City", PStr "")])
              (fresh_world bare_service))
    as (df & Hp & Hnum).
  { apply well_formed_by_computation. vm_compute. reflexivity. }
  eexists df, _. split; [exact Hp|].
  apply Forall_cons_1 in Hnum as [(x & Hx & Hget & Hmal) _].
  cbn [fst snd] in Hget, Hmal. rewrite Hget. rewrite Hmal; [reflexivity|]. vm_compute. reflexivity.
Defined.

(** ** Facts about the batch frame operations *)

Lemma outcome_bind_inv {A B} (m : outcome A) (f : A -> outcome B) b :
  m ≫= f = Ok b -> exists a, m = Ok a /\ f a = Ok b.
Proof. destruct m as [a|e]; cbn; intros Hb; [eauto | discriminate Hb]. Qed.

Lemma outcome_of_is_ok {A} (r : outcome A) (a : A) :
  is_ok r = true -> r = Ok (from_outcome a r).
Proof. destruct r; [reflexivity | discriminate]. Qed.

Lemma getitem_inv (d : frame) column s :
  getitem d column = Ok s -> d !! column = Some s.
Proof. unfold getitem. destruct (d !! column); congruence. Qed.

Lemma map_outcome_lookup {A B} (f : A -> outcome B) l r :
  Pandas.map_outcome f l = Ok r ->
  forall i a, l !! i = Some a -> exists b, f a = Ok b /\ r !! i = Some b.
Proof.
  revert r. induction l as [|x l IH]; intros r Hr i a Hi; [discriminate Hi|].
  cbn [Pandas.map_outcome] in Hr.
  destruct (f x) as [b|] eqn:Hfx; [|discriminate Hr].
  destruct (Pandas.map_outcome f l) as [r'|] eqn:Hl; [|discriminate Hr].
  injection Hr as <-. destruct i as [|i]; cbn in Hi |- *.
  - injection Hi as <-. eauto.
  - eapply IH; eauto.
Qed.

Lemma map_outcome_length {A B} (f : A -> outcome B) l r :
  Pandas.map_outcome f l = Ok r -> length r = length l.
Proof.
  revert r. induction l as [|x l IH]; intros r Hr; cbn [Pandas.map_outcome] in Hr.
  - by injection Hr as <-.
  - destruct (f x); [|discriminate Hr].
    destruct (Pandas.map_outcome f l) as [r'|]; [|discriminate Hr].
    injection Hr as <-. cbn. f_equal. by apply IH.
Qed.

Lemma zip_with_outcome_lookup {A B C} (f : A -> B -> outcome C) l k r :
  Pandas.zip_with_outcome f l k = Ok r ->
  forall i a b, l !! i = Some a -> k !! i = Some b ->
  exists c, f a b = Ok c /\ r !! i = Some c.
Proof.
  revert k r. induction l as [|x l IH]; intros k r Hr i a b Hi Hk;
    [discriminate Hi|].
  destruct k as [|y k]; [discriminate Hk|].
  cbn [Pandas.zip_with_outcome] in Hr.
  destruct (f x y) as [c|] eqn:Hfx; [|discriminate Hr].
  destruct (Pandas.zip_with_outcome f l k) as [r'|] eqn:Hl; [|discriminate Hr].
  injection Hr as <-. destruct i as [|i]; cbn in Hi, Hk |- *.
  - injection Hi as <-. injection Hk as <-. eauto.
  - eapply IH; eauto.
Qed.

Lemma compare_int_lookup test s r :
  Pandas.compare_int test s = Ok r ->
  forall i c, s !! i = Some c -> r !! i = Some (Some (VNum (flag test c))).
Proof.
  intros Hr i c Hi.
  destruct (map_outcome_lookup _ _ _ Hr i c Hi) as (b & Hb & Hri).
  rewrite Hri. destruct c as [[q|t]|]; cbn in Hb |- *; congruence.
Qed.

Lemma compare_int_length test s r :
  Pandas.compare_int test s = Ok r -> length r = length s.
Proof. apply map_outcome_length. Qed.

Lemma add_flags_lookup s t r i (p q : Q) :
  Pandas.add s t = Ok r ->
  s !! i = Some (Some (VNum p)) -> t !! i = Some (Some (VNum q)) ->
  r !! i = Some (Some (VNum (p + q))).
Proof.
  intros Hr Hs Ht.
  destruct (zip_with_outcome_lookup _ _ _ _ Hr i _ _ Hs Ht) as (c & Hc & Hri).
  cbn in Hc. congruence.
Qed.

(** ** What [create_interaction_features] leaves and what it adds *)

Ltac outcome_inv H :=
  repeat
    (let a := fresh "v" in
     let Ha := fresh "Hv" in
     apply outcome_bind_inv in H as (a & Ha & H)).

Lemma product_feature_other name l r (d d' : frame) c :
  product_feature name l r d = Ok d' -> c <> name -> d' !! c = d !! c.
Proof.
  unfold product_feature. intros Hp Hc.
  destruct (has_column d l && has_column d r).
  - outcome_inv Hp. injection Hp as <-. by rewrite lookup_insert_ne.
  - by injection Hp as <-.
Qed.

Lemma area_interactions_other (d d' : frame) c :
  area_interactions d = Ok d' ->
  c ∉ ["area_x_bathrooms"; "area_x_bedrooms"; "area_x_floors"] ->
  d' !! c = d !! c.
Proof.
  unfold area_interactions. intros Hp Hc.
  destruct (has_column d "Area"); [|by injection Hp as <-].
  outcome_inv Hp.
  rewrite (product_feature_other _ _ _ _ _ c Hp) by set_solver.
  rewrite (product_feature_other _ _ _ _ _ c Hv0) by set_solver.
  rewrite (product_feature_other _ _ _ _ _ c Hv) by set_solver.
  reflexivity.
Qed.

Lemma room_interactions_other (d d' : frame) c :
  room_interactions d = Ok d' ->
  c ∉ ["bedrooms_x_bathrooms"; "bedrooms_x_floors"] ->
  d' !! c = d !! c.
Proof.
  unfold room_interactions. intros Hp Hc. outcome_inv Hp.
  rewrite (product_feature_other _ _ _ _ _ c Hp) by set_solver.
  rewrite (product_feature_other _ _ _ _ _ c Hv) by set_solver.
  reflexivity.
Qed.

Lemma luxury_score_feature_other (d d' : frame) c :
  luxury_score_feature d = Ok d' -> c <> "luxury_score" -> d' !! c = d !! c.
Proof.
  unfold luxury_score_feature. intros Hp Hc.
  destruct (forallb _ _); [|by injection Hp as <-].
  outcome_inv Hp. injection Hp as <-. by rewrite lookup_insert_ne.
Qed.

Lemma city_area_feature_other city_col (d d' : frame) c :
  city_area_feature city_col d = Ok d' -> c <> city_col.2 -> d' !! c = d !! c.
Proof.
  unfold city_area_feature. intros Hp Hc.
  outcome_inv Hp. injection Hp as <-. by rewrite lookup_insert_ne.
Qed.

Lemma city_area_features_other (d d' : frame) c :
  city_area_features d = Ok d' ->
  c ∉ map snd MAJOR_CITIES ->
  d' !! c = d !! c.
Proof.
  unfold city_area_features. intros Hp Hc.
  destruct (has_column d "new_city" && has_column d "Area");
    [|by injection Hp as <-].
  cbn [foldl MAJOR_CITIES] in Hp.
  apply outcome_bind_inv in Hp as (d3 & Hp & H4).
  apply outcome_bind_inv in Hp as (d2 & Hp & H3).
  apply outcome_bind_inv in Hp as (d1 & Hp & H2).
  apply outcome_bind_inv in Hp as (d0 & Hp & H1).
  injection Hp as <-.
  cbn [map snd MAJOR_CITIES] in Hc.
  rewrite (city_area_feature_other _ _ _ c H4) by (cbn; set_solver).
  rewrite (city_area_feature_other _ _ _ c H3) by (cbn; set_solver).
  rewrite (city_area_feature_other _ _ _ c H2) by (cbn; set_solver).
  rewrite (city_area_feature_other _ _ _ c H1) by (cbn; set_solver).
  reflexivity.
Qed.

Lemma room_density_feature_other (d d' : frame) c :
  room_density_feature d = Ok d' -> c <> "room_density" -> d' !! c = d !! c.
Proof.
  unfold room_density_feature. intros Hp Hc.
  destruct (_ && _); [|by injection Hp as <-].
  outcome_inv Hp. injection Hp as <-. by rewrite lookup_insert_ne.
Qed.

Lemma access_quality_feature_other (d d' : frame) c :
  access_quality_feature d = Ok d' -> c <> "access_quality" -> d' !! c = d !! c.
Proof.
  unfold access_quality_feature. intros Hp Hc.
  destruct (_ && _); [|by injection Hp as <-].
  outcome_inv Hp. injection Hp as <-. by rewrite lookup_insert_ne.
Qed.

Lemma has_column_true (d : frame) c s : d !! c = Some s -> has_column d c = true.
Proof. intros Hc. unfold has_column. apply bool_decide_eq_true_2. eauto. Qed.

(** Block 3 computes [luxury_score_row] at every record. *)
Lemma luxury_score_feature_rows (d d' : frame) bathrooms bedrooms floors area :
  luxury_score_feature d = Ok d' ->
  d !! "Bathrooms" = Some bathrooms -> d !! "Bedrooms" = Some bedrooms ->
  d !! "Floors" = Some floors -> d !! "Area" = Some area ->
  exists s,
    d' !! "luxury_score" = Some s /\
    forall i ba be fl ar,
      bathrooms !! i = Some ba -> bedrooms !! i = Some be ->
      floors !! i = Some fl -> area !! i = Some ar ->
      s !! i = Some (luxury_score_row ba be fl ar).
Proof.
  unfold luxury_score_feature. intros Hp Hba Hbe Hfl Har.
  cbn [forallb] in Hp.
  rewrite (has_column_true _ _ _ Hba), (has_column_true _ _ _ Hbe),
    (has_column_true _ _ _ Hfl), (has_column_true _ _ _ Har) in Hp.
  cbn [andb] in Hp. unfold getitem in Hp. rewrite Hba, Hbe, Hfl, Har in Hp.
  cbn in Hp. outcome_inv Hp. injection Hp as <-.
  eexists. split; [apply lookup_insert_eq|].
  intros i ba be fl ar Hi1 Hi2 Hi3 Hi4. unfold luxury_score_row.
  eapply add_flags_lookup; [eassumption| |].
  - eapply add_flags_lookup; [eassumption| |].
    + eapply add_flags_lookup; [eassumption| |].
      * eapply compare_int_lookup; eassumption.
      * eapply compare_int_lookup; eassumption.
    + eapply compare_int_lookup; eassumption.
  - eapply compare_int_lookup; eassumption.
Qed.

(** Block 6 computes [access_quality_row] at every record. *)
Lemma access_quality_feature_rows (d d' : frame) access_road frontage :
  access_quality_feature d = Ok d' ->
  d !! "Access Road" = Some access_road -> d !! "Frontage" = Some frontage ->
  exists s,
    d' !! "access_quality" = Some s /\
    forall i ar fr,
      access_road !! i = Some ar -> frontage !! i = Some fr ->
      s !! i = Some (access_quality_row ar fr).
Proof.
  unfold access_quality_feature. intros Hp Har Hfr.
  rewrite (has_column_true _ _ _ Har), (has_column_true _ _ _ Hfr) in Hp.
  cbn [andb] in Hp. unfold getitem in Hp. rewrite Har, Hfr in Hp.
  cbn in Hp. outcome_inv Hp. injection Hp as <-.
  eexists. split; [apply lookup_insert_eq|].
  intros i ar fr Hi1 Hi2. unfold access_quality_row.
  eapply add_flags_lookup; [eassumption| |];
    eapply compare_int_lookup; eassumption.
Qed.

(** The two scores of [create_interaction_features], record by record. *)
Lemma create_interaction_features_rows (d d' : frame) :
  create_interaction_features d = Ok d' ->
  (forall bathrooms bedrooms floors area,
      d !! "Bathrooms" = Some bathrooms -> d !! "Bedrooms" = Some bedrooms ->
      d !! "Floors" = Some floors -> d !! "Area" = Some area ->
      exists s,
        d' !! "luxury_score" = Some s /\
        forall i ba be fl ar,
          bathrooms !! i = Some ba -> bedrooms !! i = Some be ->
          floors !! i = Some fl -> area !! i = Some ar ->
          s !! i = Some (luxury_score_row ba be fl ar)) /\
  (forall access_road frontage,
      d !! "Access Road" = Some access_road -> d !! "Frontage" = Some frontage ->
      exists s,
        d' !! "access_quality" = Some s /\
        forall i ar fr,
          access_road !! i = Some ar -> frontage !! i = Some fr ->
          s !! i = Some (access_quality_row ar fr)).
Proof.
  unfold create_interaction_features. intros Hp.
  apply outcome_bind_inv in Hp as (d1 & H1 & Hp).
  apply outcome_bind_inv in Hp as (d2 & H2 & Hp).
  apply outcome_bind_inv in Hp as (d3 & H3 & Hp).
  apply outcome_bind_inv in Hp as (d4 & H4 & Hp).
  apply outcome_bind_inv in Hp as (d5 & H5 & H6).
  assert (forall c, c ∈ ["Bathrooms"; "Bedrooms"; "Floors"; "Area";
                         "Access Road"; "Frontage"] -> d2 !! c = d !! c) as Hd2.
  { intros c Hc.
    rewrite (room_interactions_other _ _ c H2) by set_solver.
    rewrite (area_interactions_other _ _ c H1) by set_solver.
    reflexivity. }
  split.
  - intros bathrooms bedrooms floors area Hba Hbe Hfl Har.
    destruct (luxury_score_feature_rows d2 d3 bathrooms bedrooms floors area H3)
      as (s & Hs & Hrows);
      try (rewrite Hd2 by set_solver; assumption).
    exists s. split; [|exact Hrows].
    rewrite (access_quality_feature_other _ _ _ H6) by done.
    rewrite (room_density_feature_other _ _ _ H5) by done.
    rewrite (city_area_features_other _ _ _ H4) by (cbn; set_solver).
    exact Hs.
  - intros access_road frontage Har Hfr.
    apply (access_quality_feature_rows d5 d' access_road frontage H6).
    + rewrite (room_density_feature_other _ _ _ H5) by done.
      rewrite (city_area_features_other _ _ _ H4) by (cbn; set_solver).
      rewrite (luxury_score_feature_other _ _ _ H3) by done.
      rewrite Hd2 by set_solver. exact Har.
    + rewrite (room_density_feature_other _ _ _ H5) by done.
      rewrite (city_area_features_other _ _ _ H4) by (cbn; set_solver).
      rewrite (luxury_score_feature_other _ _ _ H3) by done.
      rewrite Hd2 by set_solver. exact Hfr.
Qed.

(** ** Derived scores: online against batch *)

(** C6.  The online luxury score is not the score of section 4.3.  In every
    returned frame it is the number of conditions that hold among
    Bathrooms >= 3, Area > 100 and furniture code in {0, 1} (range 0-3),
    whereas the batch pipeline counts Bathrooms >= 4, Bedrooms >= 5,
    Floors >= 4 and Area > 140 at every record.  On the record of the
    specification's scenario (Area 120, 3 bedrooms, 2 bathrooms, 2 floors)
    the online value is 2 and the batch value is 0. *)
Theorem luxury_score_online_is_not_the_batch_score `{PyBuiltins} :
  (forall data w df w',
      preprocess data w = (Ok df, w') ->
      exists bathrooms area furniture_state,
        _to_float (dict_get data "Bathrooms" (PInt 2)) 0 = Ok bathrooms /\
        _to_float (dict_get data "Area" (PInt 70)) 0 = Ok area /\
        _encode_furniture
          (dict_get data "Furniture" (dict_get data "Furniture state" (PStr "")))
          = Ok furniture_state /\
        frame_get df "luxury_score" =
          Some (PInt (luxury_score_online bathrooms area furniture_state))) /\
  (forall (d d' : frame) bathrooms bedrooms floors area,
      create_interaction_features d = Ok d' ->
      d !! "Bathrooms" = Some bathrooms -> d !! "Bedrooms" = Some bedrooms ->
      d !! "Floors" = Some floors -> d !! "Area" = Some area ->
      exists s,
        d' !! "luxury_score" = Some s /\
        forall i ba be fl ar,
          bathrooms !! i = Some ba -> bedrooms !! i = Some be ->
          floors !! i = Some fl -> area !! i = Some ar ->
          s !! i = Some (luxury_score_row ba be fl ar)) /\
  (exists df,
      fst (@preprocess reference_builtins scenario_request
             (fresh_world demo_service)) = Ok df /\
      frame_get df "luxury_score" = Some (PInt 2)) /\
  (d' ← create_interaction_features scenario_frame; getitem d' "luxury_score")
    = Ok [Some (VNum 0)].
Proof.
  split; [|split; [|split]].
  - intros data w df w' Hp.
    apply preprocess_inv in Hp as (processed & w1 & Hc & -> & _).
    apply compute_features_inv in Hc as (_ & _ & Hvalues & _ & _).
    destruct Hvalues as (area & frontage & access_road & floors & bedrooms
      & bathrooms & furniture_state & Ha & _ & _ & _ & _ & Hba & Hfu & _ & _
      & _ & _ & _ & _ & _ & Plux & _).
    exists bathrooms, area, furniture_state.
    repeat (split; [assumption|]).
    rewrite frame_get_expected_row by expected_feature. by rewrite Plux.
  - intros d d' bathrooms bedrooms floors area Hp.
    apply (proj1 (create_interaction_features_rows d d' Hp)).
  - eexists. split; vm_compute; reflexivity.
  - vm_compute. reflexivity.
Qed.

(** C7: a record on which the batch generator leaves the width rule.  With
    a 3 m access road and a 4 m frontage it gives 2, where the width rule
    (below 5 m is narrow), which the online preprocessor follows, gives
    1. *)
Lemma batch_access_quality_is_not_by_width :
  (d' ← create_interaction_features scenario_frame; getitem d' "access_quality")
    = Ok [Some (VNum 2)] /\
  access_quality_by_width 3 = 1%Q /\
  ~ (2 == 1)%Q.
Proof.
  split; [vm_compute; reflexivity|].
  split; [vm_compute; reflexivity|].
  intros Heq. vm_compute in Heq. discriminate Heq.
Qed.

(** C7.  The access quality of the batch generator is not the one of the
    online preprocessor, whose module says it matches the batch
    preprocessing.  Online, the access quality of every returned frame is
    the ordinal of the road width: 0 when the width is 0, 1 when it is
    below 5, 2 otherwise.  In the batch generator it is, at every record,
    the number of positive values among Access Road and Frontage: the
    models are trained on one feature and served the other. *)
Theorem access_quality_online_and_batch `{PyBuiltins} :
  (forall data w df w',
      preprocess data w = (Ok df, w') ->
      exists access_road,
        _to_float (dict_get data "AccessRoad"
                     (dict_get data "Access Road" (PInt 0))) 0 = Ok access_road /\
        frame_get df "access_quality" =
          Some (PInt (if PrimFloat.eqb access_road 0 then 0
                      else if PrimFloat.ltb access_road 5 then 1 else 2))) /\
  (forall data w,
      well_formed data -> exists df w', preprocess data w = (Ok df, w')) /\
  (forall (d d' : frame) access_road frontage,
      create_interaction_features d = Ok d' ->
      d !! "Access Road" = Some access_road -> d !! "Frontage" = Some frontage ->
      exists s,
        d' !! "access_quality" = Some s /\
        forall i ar fr,
          access_road !! i = Some ar -> frontage !! i = Some fr ->
          s !! i = Some (access_quality_row ar fr)).
Proof.
  split; [|split].
  - intros data w df w' Hp.
    apply preprocess_inv in Hp as (processed & w1 & Hc & -> & _).
    apply compute_features_inv in Hc as (_ & _ & Hvalues & _ & _).
    destruct Hvalues as (area & frontage & access_road & floors & bedrooms
      & bathrooms & furniture_state & _ & _ & Har & _ & _ & _ & _ & _ & _
      & _ & _ & _ & _ & _ & _ & Pacc).
    exists access_road. split; [assumption|].
    rewrite frame_get_expected_row by expected_feature. by rewrite Pacc.
  - intros data w Hwf.
    destruct (preprocess_total data w Hwf) as (processed & _ & Hp). eauto.
  - intros d d' access_road frontage Hp.
    apply (proj2 (create_interaction_features_rows d d' Hp)).
Qed.

Lemma access_quality_online_and_batch_witness :
  (exists df w',
      @preprocess reference_builtins
        (list_to_map [("AccessRoad", PInt 3); ("Frontage", PInt 4)])
        (fresh_world bare_service) = (Ok df, w') /\
      frame_get df "access_quality" = Some (PInt 1)) /\
  (exists s,
      (d' ← create_interaction_features scenario_frame;
       getitem d' "access_quality") = Ok s /\
      s !! 0%nat = Some (access_quality_row (Some (VNum 3)) (Some (VNum 4)))).
Proof.
  destruct (@access_quality_online_and_batch reference_builtins)
    as (Honline & Htotal & Hbatch).
  split.
  - destruct (Htotal (list_to_map [("AccessRoad", PInt 3); ("Frontage", PInt 4)])
                (fresh_world bare_service)) as (df & w' & Hp).
    { apply well_formed_by_computation. vm_compute. reflexivity. }
    exists df, w'. split; [exact Hp|].
    destruct (Honline _ _ _ _ Hp) as (access_road & Har & ->).
    vm_compute in Har. injection Har as <-. reflexivity.
  - pose proof (outcome_of_is_ok (create_interaction_features scenario_frame) ∅)
      as Hrun.
    destruct (Hbatch scenario_frame
                (from_outcome ∅ (create_interaction_features scenario_frame))
                [Some (VNum 3)] [Some (VNum 4)])
      as (s & Hs & Hrows);
      [ apply Hrun; vm_compute; reflexivity
      | vm_compute; reflexivity | vm_compute; reflexivity | ].
    exists s. split; [|by apply Hrows].
    rewrite Hrun by (vm_compute; reflexivity).
    cbn [mbind outcome_bind]. unfold getitem. by rewrite Hs.
Defined.

(** ** Phase 1.5 of [split_and_encode] *)

Lemma select_sublist {A} (mask : list bool) (l : list A) :
  Pandas.select mask l `sublist_of` l.
Proof.
  revert l. induction mask as [|b mask IH]; intros [|x l]; cbn;
    try apply sublist_nil_l.
  - destruct b; apply sublist_nil_l.
  - destruct b; [apply sublist_skip | apply sublist_cons]; apply IH.
Qed.

(** C3.  Outlier filtering touches the training partition only.  The test
    rows and test targets come out as they went in (so the test row count
    is unchanged); the training rows kept are those whose own target lies
    within the bounds [iqr_bounds], which are computed from the training
    targets alone; and the outcome for the training partition is the same
    whatever the test partition holds. *)
Theorem outlier_removal_leaves_test_partition {row : Type}
  (quantile : list (option Q) -> Q -> option Q) (cfg : outlier_config)
  (X_train X_test : list row) (y_train y_test : list (option Q)) :
  let r := remove_outliers_train_only quantile cfg X_train X_test y_train y_test in
  let mask :=
    map (in_bounds (iqr_bounds quantile (default 1.5%Q (multiplier cfg)) y_train))
        y_train in
  r.1.1.2 = X_test /\
  r.2 = y_test /\
  length r.1.1.2 = length X_test /\
  ((r.1.1.1 = Pandas.select mask X_train /\ r.1.2 = Pandas.select mask y_train) \/
   (r.1.1.1 = X_train /\ r.1.2 = y_train)) /\
  (default true (enabled cfg) = true -> default "iqr" (method cfg) = "iqr" ->
   r.1.1.1 = Pandas.select mask X_train /\ r.1.2 = Pandas.select mask y_train) /\
  r.1.1.1 `sublist_of` X_train /\
  r.1.2 `sublist_of` y_train /\
  (forall (X_test2 : list row) (y_test2 : list (option Q)),
      let r2 :=
        remove_outliers_train_only quantile cfg X_train X_test2 y_train y_test2 in
      r2.1.1.1 = r.1.1.1 /\ r2.1.2 = r.1.2 /\
      r2.1.1.2 = X_test2 /\ r2.2 = y_test2).
Proof.
  cbv zeta. unfold remove_outliers_train_only.
  destruct (default true (enabled cfg)) eqn:Henabled;
    [destruct (String.eqb (default "iqr" (method cfg)) "iqr") eqn:Hmethod|];
    cbn [fst snd].
  - repeat apply conj; try reflexivity; try apply select_sublist.
    + left. by split.
    + intros _ _. by split.
    + intros X_test2 y_test2. by repeat split.
  - apply String.eqb_neq in Hmethod.
    repeat apply conj; try reflexivity.
    + right. by split.
    + intros _ Hm. contradiction.
    + intros X_test2 y_test2. by repeat split.
  - repeat apply conj; try reflexivity.
    + right. by split.
    + intros Hf. discriminate Hf.
    + intros X_test2 y_test2. by repeat split.
Qed.

(** ** The address decomposer *)

Lemma split_nonempty c s : PyStr.split c s <> [].
Proof.
  destruct s as [|a s]; cbn [PyStr.split]; [discriminate|].
  destruct (Ascii.eqb a c); [discriminate|].
  destruct (PyStr.split c s); discriminate.
Qed.

Lemma join_cons_char sep a p ps :
  PyStr.join sep (String a p :: ps) = String a (PyStr.join sep (p :: ps)).
Proof. destruct ps; reflexivity. Qed.

Lemma join_empty_head c p ps :
  PyStr.join (String c EmptyString) (EmptyString :: p :: ps)
  = String c (PyStr.join (String c EmptyString) (p :: ps)).
Proof. reflexivity. Qed.

(** Joining the segments with the separator gives the text back. *)
Lemma join_split c s :
  PyStr.join (String c EmptyString) (PyStr.split c s) = s.
Proof.
  induction s as [|a s IH]; [reflexivity|].
  cbn [PyStr.split]. pose proof (split_nonempty c s) as Hne.
  destruct (PyStr.split c s) as [|p ps] eqn:Hs; [done|].
  destruct (Ascii.eqb a c) eqn:Hac.
  - apply Ascii.eqb_eq in Hac as ->. rewrite join_empty_head. by rewrite IH.
  - rewrite join_cons_char. by rewrite IH.
Qed.

(** No segment holds the separator. *)
Lemma split_segments_free c s :
  Forall (fun p => PyStr.contains_char c p = false) (PyStr.split c s).
Proof.
  induction s as [|a s IH]; cbn [PyStr.split].
  - by repeat constructor.
  - destruct (Ascii.eqb a c) eqn:Hac.
    + constructor; [reflexivity | exact IH].
    + destruct (PyStr.split c s) as [|p ps].
      * repeat constructor. cbn. by rewrite Hac.
      * apply Forall_cons in IH as [Hp Hps].
        constructor; [|exact Hps]. cbn. by rewrite Hac, Hp.
Qed.

Lemma nth_last_default (l : list string) d :
  nth (length l - 1) l d = List.last l d.
Proof.
  induction l as [|x l IH]; [reflexivity|].
  destruct l as [|y l]; [reflexivity|].
  replace (length (x :: y :: l) - 1)%nat with (S (length (y :: l) - 1))
    by (cbn [length]; lia).
  exact IH.
Qed.

Lemma item_last (parts : list string) :
  parts <> [] -> item parts (-1) = List.last parts "".
Proof.
  intros Hne. unfold item. cbn [Z.ltb Z.compare].
  replace (Z.of_nat (length parts) + -1 <? 0)%Z with false.
  2:{ symmetry. apply Z.ltb_ge. destruct parts; [done | cbn [length]; lia]. }
  replace (Z.to_nat (Z.of_nat (length parts) + -1)) with (length parts - 1)%nat
    by lia.
  apply nth_last_default.
Qed.

Lemma item_second_last (parts : list string) :
  (2 <= length parts)%nat ->
  item parts (-2) = nth (length parts - 2) parts "".
Proof.
  intros Hn. unfold item. cbn [Z.ltb Z.compare].
  replace (Z.of_nat (length parts) + -2 <? 0)%Z with false
    by (symmetry; apply Z.ltb_ge; lia).
  f_equal. lia.
Qed.

Lemma item_first (parts : list string) : item parts 0 = nth 0 parts "".
Proof. reflexivity. Qed.

Lemma drop_while_space_stops (at_head : list ascii -> nat) :
  at_head [] = 0%nat ->
  forall fuel l, (length l <= fuel)%nat ->
  at_head (PyStr.drop_while_space at_head fuel l) = 0%nat.
Proof.
  intros Hnil. induction fuel as [|fuel IH]; intros l Hl.
  - destruct l; [exact Hnil | cbn in Hl; lia].
  - cbn [PyStr.drop_while_space]. destruct (at_head l) as [|k] eqn:Hk; [exact Hk|].
    apply IH. destruct l as [|a l]; [congruence|].
    rewrite length_skipn. cbn [length] in Hl |- *. lia.
Qed.

Lemma drop_while_space_skipn (at_head : list ascii -> nat) fuel l :
  exists k, PyStr.drop_while_space at_head fuel l = skipn k l.
Proof.
  revert l. induction fuel as [|fuel IH]; intros l; [by exists 0%nat|].
  cbn [PyStr.drop_while_space]. destruct (at_head l) as [|k]; [by exists 0%nat|].
  destruct (IH (skipn (S k) l)) as [j Hj]. exists (S k + j)%nat.
  rewrite Hj. apply drop_drop.
Qed.

Lemma is_prefix_firstn p n l :
  PyStr.is_prefix p (firstn n l) = true -> PyStr.is_prefix p l = true.
Proof.
  revert n l. induction p as [|a p IH]; intros n l Hp; [reflexivity|].
  destruct n as [|n]; [discriminate Hp|].
  destruct l as [|b l]; [discriminate Hp|].
  cbn [firstn PyStr.is_prefix] in Hp |- *.
  destruct (Ascii.eqb a b); [by eapply IH | discriminate Hp].
Qed.

Lemma space_at_head_firstn n l :
  PyStr.space_at_head l = 0%nat -> PyStr.space_at_head (firstn n l) = 0%nat.
Proof.
  unfold PyStr.space_at_head. intros Hl.
  destruct (List.find _ PyStr.whitespace) as [w|] eqn:Hw in |- *; [|reflexivity].
  apply find_some in Hw as [Hin Hp]. apply is_prefix_firstn in Hp.
  destruct (List.find (fun w => PyStr.is_prefix (map ascii_of_nat w) l)
              PyStr.whitespace) as [w'|] eqn:Hw'.
  - apply find_some in Hw' as [Hin' _].
    destruct w' as [|x w']; [|discriminate Hl].
    exfalso. revert Hin'. vm_compute. intuition discriminate.
  - by rewrite (find_none _ _ Hw' w Hin) in Hp.
Qed.

(** [strip] leaves no whitespace at either end. *)
Lemma strip_stripped s : PyStr.stripped (PyStr.strip s).
Proof.
  unfold PyStr.stripped, PyStr.strip.
  rewrite list_ascii_of_string_of_list_ascii.
  set (l := PyStr.lstrip_bytes (list_ascii_of_string s)).
  assert (PyStr.space_at_head l = 0%nat) as Hhead.
  { apply drop_while_space_stops; [reflexivity | lia]. }
  unfold PyStr.rstrip_bytes. split.
  - destruct (drop_while_space_skipn PyStr.space_at_end (length l) (rev l))
      as [k ->].
    rewrite skipn_rev, rev_involutive. by apply space_at_head_firstn.
  - rewrite rev_involutive.
    apply drop_while_space_stops; [reflexivity | by rewrite length_rev].
Qed.

(** C5.  The address decomposer.  A cell that is no string, or the empty
    string, gives "Unknown" three times and no exception (the function is
    total).  Otherwise the text is split on commas (joining the segments
    with commas gives it back, and no segment holds a comma) and every
    segment is stripped; with three segments or more the city is the last
    segment without its trailing periods, the district the one before it,
    and street-and-ward the leading segments joined with ", "; with two
    segments street-and-ward is "Unknown"; with one, district and
    street-and-ward are "Unknown".  The two scenarios of the specification
    are instances. *)
Theorem parse_location_decomposes_address :
  (forall addr,
      match addr with
      | Some (VStr s) =>
          let segments := PyStr.split "," s in
          let parts := map PyStr.strip segments in
          let n := length parts in
          PyStr.join "," segments = s /\
          Forall (fun p => PyStr.contains_char "," p = false) segments /\
          Forall PyStr.stripped parts /\
          (1 <= n)%nat /\
          (s = "" ->
             _parse_location addr = ("Unknown", "Unknown", "Unknown")) /\
          (s <> "" -> (3 <= n)%nat ->
             _parse_location addr =
               (PyStr.rstrip_char "." (List.last parts ""),
                nth (n - 2) parts "",
                PyStr.join ", " (take (n - 2) parts))) /\
          (s <> "" -> n = 2%nat ->
             _parse_location addr =
               (PyStr.rstrip_char "." (List.last parts ""),
                nth 0 parts "",
                "Unknown")) /\
          (s <> "" -> n = 1%nat ->
             _parse_location addr =
               (PyStr.rstrip_char "." (nth 0 parts ""), "Unknown", "Unknown"))
      | _ => _parse_location addr = ("Unknown", "Unknown", "Unknown")
      end) /\
  _parse_location
    (Some (VStr "12 Lê Lợi, Phường Bến Nghé, Quận 1, Hồ Chí Minh."))
    = ("Hồ Chí Minh", "Quận 1", "12 Lê Lợi, Phường Bến Nghé") /\
  _parse_location (Some (VStr "")) = ("Unknown", "Unknown", "Unknown") /\
  _parse_location None = ("Unknown", "Unknown", "Unknown").
Proof.
  split; [|repeat split; vm_compute; reflexivity].
  intros [[q|s]|]; try reflexivity. cbv zeta.
  pose proof (split_nonempty "," s) as Hne.
  assert (map PyStr.strip (PyStr.split "," s) <> []) as Hparts.
  { destruct (PyStr.split "," s); [done | discriminate]. }
  split; [apply join_split|]. split; [apply split_segments_free|].
  split. { clear. induction (PyStr.split "," s); constructor;
             [apply strip_stripped | assumption]. }
  split. { destruct (map PyStr.strip (PyStr.split "," s)); [done | cbn; lia]. }
  split; [intros ->; reflexivity|].
  unfold _parse_location.
  split; [|split]; intros Hs Hn; apply String.eqb_neq in Hs; rewrite Hs.
  - apply Nat.leb_le in Hn as Hn'. rewrite Hn'.
    rewrite item_last by done. rewrite item_second_last by lia.
    reflexivity.
  - rewrite Hn. cbn [Nat.leb Nat.eqb].
    rewrite item_last by done. rewrite item_second_last by lia.
    rewrite Hn. reflexivity.
  - rewrite Hn. cbn [Nat.leb Nat.eqb]. reflexivity.
Qed.

(** ** Label encoding: the vocabulary and the code of an unseen label *)

Lemma index_of_None v l : index_of v l = None <-> ~ In v l.
Proof.
  induction l as [|x l IH]; cbn [index_of]; [cbn; intuition|].
  destruct (String.eqb x v) eqn:Hxv.
  - apply String.eqb_eq in Hxv as ->. split; [discriminate|].
    intros Hn. exfalso. apply Hn. by left.
  - apply String.eqb_neq in Hxv.
    destruct (index_of v l) as [i|]; cbn [option_map].
    + split; [discriminate|]. intros Hn. exfalso.
      assert (~ In v l) as Hl by (intros Hin; apply Hn; by right).
      apply IH in Hl. discriminate Hl.
    + split; [|reflexivity]. intros _ [Heq|Hin]; [done|].
      by apply (proj1 IH).
Qed.

Lemma index_of_Some v l i : index_of v l = Some i -> l !! i = Some v.
Proof.
  revert i. induction l as [|x l IH]; intros i; cbn [index_of]; [discriminate|].
  destruct (String.eqb x v) eqn:Hxv.
  - apply String.eqb_eq in Hxv as ->. by intros [= <-].
  - destruct (index_of v l) as [j|]; cbn [option_map]; [|discriminate].
    intros [= <-]. by apply IH.
Qed.

Lemma in_insert_string v x l : In v (insert_string x l) <-> v = x \/ In v l.
Proof.
  induction l as [|y l IH]; cbn [insert_string].
  - cbn. intuition.
  - destruct (String.leb x y); cbn [In]; [intuition|].
    rewrite IH. intuition.
Qed.

Lemma in_sorted_labels v y : In v (fold_right insert_string [] y) <-> In v y.
Proof.
  induction y as [|x y IH]; cbn [fold_right]; [reflexivity|].
  rewrite in_insert_string, IH. cbn. intuition.
Qed.

Lemma dedup_sorted_cons x y l :
  dedup_sorted (x :: y :: l) =
  if String.eqb x y then dedup_sorted (y :: l) else x :: dedup_sorted (y :: l).
Proof. reflexivity. Qed.

Lemma in_dedup_sorted v l : In v (dedup_sorted l) <-> In v l.
Proof.
  induction l as [|x l IH]; [reflexivity|].
  destruct l as [|y l]; [reflexivity|].
  rewrite dedup_sorted_cons. destruct (String.eqb x y) eqn:Hxy.
  - apply String.eqb_eq in Hxy as ->. rewrite IH. cbn. intuition.
  - cbn [In]. rewrite IH. cbn. intuition.
Qed.

(** The classes of a fitted encoder are exactly the training labels. *)
Lemma in_classes_fit v y : In v (classes_ (fit y)) <-> In v y.
Proof. unfold fit. cbn [classes_]. by rewrite in_dedup_sorted, in_sorted_labels. Qed.

Lemma encode_test_value_unseen le val :
  ~ In val (classes_ le) -> encode_test_value le val = Ok (-1).
Proof.
  intros Hval. unfold encode_test_value, in_classes.
  by rewrite (proj2 (index_of_None val (classes_ le)) Hval).
Qed.

Lemma encode_test_value_seen le val :
  In val (classes_ le) ->
  exists i, encode_test_value le val = Ok (Z.of_nat i) /\
            classes_ le !! i = Some val.
Proof.
  intros Hval. unfold encode_test_value, in_classes, transform.
  destruct (index_of val (classes_ le)) as [i|] eqn:Hi.
  - exists i. split; [reflexivity | by apply index_of_Some].
  - apply index_of_None in Hi. contradiction.
Qed.

Lemma encode_categorical_unseen `{PyBuiltins} column le value w :
  label_encoders (self w) !! column = Some le ->
  in_classes_value le value = false ->
  _encode_categorical column value w = (Ok (-1), w).
Proof.
  intros Hle Hval. unfold _encode_categorical.
  erewrite bind_ok by reflexivity. rewrite Hle, Hval. reflexivity.
Qed.

Lemma in_classes_value_false le value :
  (forall s, value = PStr s -> ~ In s (classes_ le)) ->
  in_classes_value le value = false.
Proof.
  intros Hval. destruct value as [|b|z|f|s]; try reflexivity.
  cbn [in_classes_value]. unfold in_classes.
  by rewrite (proj2 (index_of_None s (classes_ le)) (Hval s eq_refl)).
Qed.

(** C2: requests on which the serve-time code of an unseen category is not
    -1.  A direction string that is in no vocabulary (neither the synonym
    table nor a fitted encoder for the column) is encoded as 1, an unknown
    legal status as 0 and an unknown furniture state as 1. *)
Lemma unseen_direction_is_not_minus_one :
  (exists df,
      fst (@preprocess reference_builtins {["Direction" := PStr "hướng lạ"]}
             (fresh_world demo_service)) = Ok df /\
      frame_get df "House direction" = Some (PInt 1)) /\
  DIRECTION_MAPPING !! "hướng lạ" = None /\
  ~ In "hướng lạ" (classes_ (fit ["Đông"; "Tây"; "Không rõ"])) /\
  @_encode_legal_status reference_builtins (PStr "giấy tay") = Ok 0 /\
  @_encode_furniture reference_builtins (PStr "sang trọng") = Ok 1.
Proof.
  split; [eexists; split; vm_compute; reflexivity|].
  split; [vm_compute; reflexivity|].
  split; [|split; vm_compute; reflexivity].
  vm_compute. intuition discriminate.
Qed.

(** C2.  An unseen category is not encoded at serve time as it is in the
    batch pipeline, which the service's module says it matches.  At batch
    test-transform time, for every categorical column, a label that is not
    among the training labels is encoded as -1, the encoder stored for the
    column is the one fitted on the training labels, and a training label
    gets its non-negative position.  At serve time the same holds for the
    columns encoded with a loaded encoder (new_city, new_district,
    new_street_ward): an unseen value gives -1, again -1 when encoded a
    second time, and the service is left as it was.  The direction,
    legal-status and furniture columns, which [preprocess] lists as label
    encoded too, are encoded at serve time by fixed synonym tables, whose
    unknown strings get the codes 1, 0 and 1 of known categories. *)
Theorem unseen_category_codes `{PyBuiltins} :
  (forall train_values val,
      ~ In val train_values ->
      encode_test_value (fit train_values) val = Ok (-1)) /\
  (forall train_values val,
      In val train_values ->
      exists i, encode_test_value (fit train_values) val = Ok (Z.of_nat i)) /\
  (forall (astype_str : option value -> string) col
          (X_train X_test X_train' X_test' : frame)
          (encoders encoders' : gmap string LabelEncoder) train_col test_col,
      label_encode_column astype_str col (X_train, X_test, encoders)
        = Ok (X_train', X_test', encoders') ->
      X_train !! col = Some train_col -> X_test !! col = Some test_col ->
      encoders' !! col = Some (fit (map astype_str train_col)) /\
      exists encoded,
        X_test' !! col = Some (codes_series encoded) /\
        forall i cell,
          test_col !! i = Some cell ->
          ~ In (astype_str cell) (map astype_str train_col) ->
          encoded !! i = Some (-1)) /\
  (forall column le value w,
      label_encoders (self w) !! column = Some le ->
      (forall s, value = PStr s -> ~ In s (classes_ le)) ->
      _encode_categorical column value w = (Ok (-1), w) /\
      (c1 ← _encode_categorical column value;
       c2 ← _encode_categorical column value;
       mret (c1, c2)) w = (Ok (-1, -1), w)) /\
  (forall data w df w' le,
      preprocess data w = (Ok df, w') ->
      label_encoders (self w) !! "new_district" = Some le ->
      (forall s, request_district data = PStr s -> ~ In s (classes_ le)) ->
      frame_get df "new_district" = Some (PInt (-1)) /\ self w' = self w) /\
  (forall s,
      DIRECTION_MAPPING !! PyStr.strip (str_lower s) = None ->
      _encode_direction (PStr s) = Ok 1) /\
  (forall s,
      LEGAL_STATUS_MAPPING !! PyStr.strip (str_lower s) = None ->
      _encode_legal_status (PStr s) = Ok 0) /\
  (forall s,
      FURNITURE_MAPPING !! PyStr.strip (str_lower s) = None ->
      _encode_furniture (PStr s) = Ok 1).
Proof.
  repeat apply conj.
  - intros train_values val Hval. apply encode_test_value_unseen.
    by rewrite in_classes_fit.
  - intros train_values val Hval.
    destruct (encode_test_value_seen (fit train_values) val) as (i & Hi & _);
      [by rewrite in_classes_fit | eauto].
  - intros astype_str col X_train X_test X_train' X_test' encoders encoders'
      train_col test_col Hrun Htrain Htest.
    unfold label_encode_column, getitem in Hrun. rewrite Htrain in Hrun.
    cbn [mbind outcome_bind] in Hrun.
    apply outcome_bind_inv in Hrun as (train_codes & Hcodes & Hrun).
    rewrite Htest in Hrun. cbn [mbind outcome_bind] in Hrun.
    apply outcome_bind_inv in Hrun as (encoded & Henc & Hrun).
    injection Hrun as <- <- <-.
    split; [apply lookup_insert_eq|].
    exists encoded. split; [apply lookup_insert_eq|].
    intros i cell Hi Hunseen.
    assert (map astype_str test_col !! i = Some (astype_str cell)) as Hval.
    { change (map astype_str test_col) with (astype_str <$> test_col).
      by rewrite list_lookup_fmap, Hi. }
    destruct (map_outcome_lookup _ _ _ Henc i _ Hval) as (code & Hcode & ->).
    rewrite encode_test_value_unseen in Hcode by (by rewrite in_classes_fit).
    by injection Hcode as <-.
  - intros column le value w Hle Hval.
    pose proof (encode_categorical_unseen column le value w Hle
                  (in_classes_value_false le value Hval)) as Hrun.
    split; [exact Hrun|].
    erewrite bind_ok by exact Hrun. erewrite bind_ok by exact Hrun.
    reflexivity.
  - intros data w df w' le Hp Hle Hval.
    apply preprocess_inv in Hp as (processed & w1 & Hc & -> & Hself & _).
    apply compute_features_inv in Hc as (-> & _ & _ & Hloc & _).
    destruct Hloc as (city & nc & nd & nw & _ & _ & Hnd & _ & _ & Pnd & _).
    rewrite (encode_categorical_unseen "new_district" le _ w Hle
               (in_classes_value_false le _ Hval)) in Hnd.
    injection Hnd as <-.
    rewrite frame_get_expected_row by expected_feature.
    rewrite Pnd. by split.
  - intros s Hs. unfold _encode_direction, encode_with, dict_get. by rewrite Hs.
  - intros s Hs. unfold _encode_legal_status, encode_with, dict_get. by rewrite Hs.
  - intros s Hs. unfold _encode_furniture, encode_with, dict_get. by rewrite Hs.
Qed.

Lemma unseen_category_codes_witness :
  exists df w',
    @preprocess reference_builtins unseen_district_request
      (fresh_world demo_service) = (Ok df, w') /\
    frame_get df "new_district" = Some (PInt (-1)) /\
    self w' = demo_service.
Proof.
  destruct (@unseen_category_codes reference_builtins)
    as (_ & _ & _ & _ & Hserve & _).
  destruct (preprocess_total (H := reference_builtins) unseen_district_request
              (fresh_world demo_service)) as (processed & _ & Hp).
  { apply well_formed_by_computation. vm_compute. reflexivity. }
  eexists _, _. split; [exact Hp|].
  apply (Hserve _ _ _ _ (fit ["Quận 1"; "Quận 7"; "Ba Đình"]) Hp).
  - vm_compute. reflexivity.
  - intros s Hs. vm_compute in Hs. injection Hs as <-.
    vm_compute. intuition discriminate.
Defined.

(** ** Missing values through [basic_preprocessing] *)

Lemma isna_sum_zero (s : series) :
  Pandas.isna_sum s = 0%nat <-> Forall (fun c => c <> None) s.
Proof.
  unfold Pandas.isna_sum. induction s as [|[v|] s IH]; cbn.
  - split; [constructor | reflexivity].
  - rewrite IH. split; [by constructor | by inversion 1].
  - split; [discriminate | inversion 1; congruence].
Qed.

Lemma isna_sum_fillna v s : Pandas.isna_sum (Pandas.fillna v s) = 0%nat.
Proof.
  apply isna_sum_zero. unfold Pandas.fillna.
  induction s as [|[w|] s IH]; cbn; constructor; done.
Qed.

Lemma isna_sum_notna_int s : Pandas.isna_sum (Pandas.notna_int s) = 0%nat.
Proof.
  apply isna_sum_zero. unfold Pandas.notna_int.
  induction s as [|c s IH]; cbn; constructor; done.
Qed.

Lemma isna_sum_map_some {A} (f : A -> value) (l : list A) :
  Pandas.isna_sum (map (fun r => Some (f r)) l) = 0%nat.
Proof.
  apply isna_sum_zero. induction l as [|a l IH]; cbn; constructor; done.
Qed.

Lemma notna_any_dropna s : Pandas.notna_any s = true <-> Pandas.dropna s <> [].
Proof.
  unfold Pandas.notna_any, Pandas.dropna.
  induction s as [|[v|] s IH]; cbn.
  - split; [discriminate | congruence].
  - split; [discriminate | reflexivity].
  - exact IH.
Qed.

Lemma dropna_nil_numeric s : Pandas.dropna s = [] -> Pandas.is_numeric s = true.
Proof.
  unfold Pandas.dropna, Pandas.is_numeric.
  induction s as [|[v|] s IH]; cbn; [reflexivity | discriminate | exact IH].
Qed.

(** *** Mode and median exist on a column with a value *)

Lemma fold_left_is_some {A B} (f : option A -> B -> option A) l a :
  (forall b v, is_Some (f b v)) -> l <> [] \/ is_Some a ->
  is_Some (fold_left f l a).
Proof.
  intros Hf. revert a. induction l as [|v l IH]; intros a Ha; cbn [fold_left].
  - destruct Ha as [Ha|Ha]; [congruence | exact Ha].
  - apply IH. right. apply Hf.
Qed.

Lemma mode_some s : Pandas.dropna s <> [] -> exists m, Pandas.mode s = Some m.
Proof.
  unfold Pandas.mode. cbv zeta. intros Hs.
  apply fold_left_is_some; [|by left].
  intros [b|] v; [|by eexists].
  destruct (_ <? _)%nat; [by eexists|].
  destruct (_ && _ && _); by eexists.
Qed.

Lemma mode_vacant s : Pandas.dropna s = [] -> Pandas.mode s = None.
Proof. unfold Pandas.mode. cbv zeta. by intros ->. Qed.

Lemma mode_none s : Pandas.mode s = None -> Pandas.dropna s = [].
Proof.
  intros Hm. destruct (Pandas.dropna s) as [|v l] eqn:Hd; [reflexivity|].
  destruct (mode_some s) as (m & Hs); congruence.
Qed.

Lemma insert_sorted_length {A} (leb : A -> A -> bool) x l :
  length (Pandas.insert_sorted leb x l) = S (length l).
Proof.
  induction l as [|y l IH]; cbn; [reflexivity|].
  destruct (leb x y); cbn; [reflexivity | by rewrite IH].
Qed.

Lemma sort_length {A} (leb : A -> A -> bool) l :
  length (Pandas.sort leb l) = length l.
Proof.
  unfold Pandas.sort. induction l as [|x l IH]; cbn; [reflexivity|].
  by rewrite insert_sorted_length, IH.
Qed.

Lemma median_of_some l : l <> [] -> exists q, Pandas.median_of l = Some q.
Proof.
  intros Hl. unfold Pandas.median_of. cbv zeta.
  pose proof (sort_length Qle_bool l) as Hlen.
  set (sorted := Pandas.sort Qle_bool l) in *.
  assert (Hpos : (0 < length sorted)%nat).
  { rewrite Hlen. destruct l; [congruence | cbn; lia]. }
  destruct (length sorted) as [|n] eqn:Hn; [lia|]. rewrite <- Hn.
  assert (Hhalf : (length sorted / 2 < length sorted)%nat)
    by (apply Nat.div_lt; lia).
  destruct (nth_error sorted (length sorted / 2)) as [b|] eqn:Hb;
    [|apply nth_error_None in Hb; lia].
  destruct (Nat.even (length sorted)); [|eauto].
  destruct (nth_error sorted (length sorted / 2 - 1)) as [a|] eqn:Ha;
    [eauto | apply nth_error_None in Ha; lia].
Qed.

Lemma numbers_nil s l :
  Pandas.numbers s = Ok l -> l = [] -> Pandas.dropna s = [].
Proof.
  unfold Pandas.dropna. revert l.
  induction s as [|[[q|t]|] s IH]; intros l Hn Hl; cbn in Hn |- *.
  - reflexivity.
  - destruct (Pandas.numbers s); [|discriminate Hn].
    injection Hn as <-. discriminate Hl.
  - discriminate Hn.
  - eapply IH; eauto.
Qed.

Lemma median_some s m :
  Pandas.median s = Ok m -> Pandas.dropna s <> [] -> exists v, m = Some v.
Proof.
  unfold Pandas.median. intros Hm Hs.
  destruct (Pandas.numbers s) as [l|] eqn:Hl; [|discriminate Hm].
  injection Hm as <-.
  destruct (median_of_some l) as (q & ->); [|cbn; eauto].
  intros ->. apply Hs. by eapply numbers_nil.
Qed.

Lemma median_ok_numeric s m : Pandas.median s = Ok m -> Pandas.is_numeric s = true.
Proof.
  unfold Pandas.median, Pandas.is_numeric.
  destruct (Pandas.numbers s) as [l|] eqn:Hl; [intros _ | discriminate].
  revert l Hl. induction s as [|[[q|t]|] s IH]; intros l Hl; cbn in Hl |- *.
  - reflexivity.
  - destruct (Pandas.numbers s) as [l'|]; [eauto | discriminate Hl].
  - discriminate Hl.
  - eauto.
Qed.

(** *** Filling keeps the values that are there *)

Lemma keeps_values_refl s : keeps_values s s.
Proof. unfold keeps_values. induction s; constructor; auto. Qed.

Lemma keeps_values_trans s t u :
  keeps_values s t -> keeps_values t u -> keeps_values s u.
Proof.
  unfold keeps_values. intros Hst. revert u.
  induction Hst as [|x y s t Hxy Hst IH]; intros u Htu; inversion Htu; subst.
  - constructor.
  - constructor; [|by apply IH].
    destruct Hxy as [->| ->]; [by left|]. assumption.
Qed.

Lemma keeps_values_full s t :
  keeps_values s t -> Pandas.isna_sum s = 0%nat -> t = s.
Proof.
  unfold keeps_values. rewrite isna_sum_zero.
  induction 1 as [|x y s t Hxy Hst IH]; intros Hfull; [reflexivity|].
  inversion Hfull; subst. destruct Hxy as [->| ->]; [congruence|].
  f_equal. by apply IH.
Qed.

Lemma keeps_values_dropna s t :
  keeps_values s t -> Pandas.dropna t = [] -> Pandas.dropna s = [].
Proof.
  unfold keeps_values, Pandas.dropna.
  induction 1 as [|x y s t Hxy Hst IH]; intros Ht; [reflexivity|].
  destruct Hxy as [->| ->].
  - cbn. apply IH. destruct y; [discriminate Ht | exact Ht].
  - destruct x; [discriminate Ht|]. cbn in Ht |- *. by apply IH.
Qed.

Lemma keeps_values_assign_where mask v s :
  keeps_values s
    (Pandas.assign_where (zip_with andb mask (map Pandas.isna s)) v s).
Proof.
  unfold keeps_values. revert mask.
  induction s as [|x s IH]; intros [|b mask]; cbn.
  - constructor.
  - constructor.
  - apply keeps_values_refl.
  - constructor; [|apply IH].
    destruct x as [w|]; [right | by left].
    by rewrite andb_false_r.
Qed.

Lemma dropna_select_nil mask s :
  Pandas.dropna s = [] -> Pandas.dropna (Pandas.select mask s) = [].
Proof.
  unfold Pandas.dropna. revert mask.
  induction s as [|[v|] s IH]; intros [|[|] mask]; cbn; try done; eauto.
Qed.

Lemma fill_mode_by_group_keeps groups target :
  keeps_values target (fill_mode_by_group groups target).
Proof.
  unfold fill_mode_by_group.
  generalize (Pandas.unique groups). intros cities. revert target.
  induction cities as [|city cities IH]; intros target; cbn [fold_left].
  - apply keeps_values_refl.
  - eapply keeps_values_trans; [|apply IH].
    destruct (Pandas.mode _); [apply keeps_values_assign_where|].
    apply keeps_values_refl.
Qed.


Lemma fill_mode_by_group_vacant groups target :
  Pandas.dropna target = [] -> fill_mode_by_group groups target = target.
Proof.
  unfold fill_mode_by_group.
  generalize (Pandas.unique groups). intros cities Hvac.
  induction cities as [|city cities IH]; cbn [fold_left]; [reflexivity|].
  rewrite mode_vacant by (by apply dropna_select_nil). exact IH.
Qed.

(** *** Steps that only fill *)

Lemma col_step_refl d c : col_step d d c.
Proof. by left. Qed.

Lemma col_step_trans d1 d2 d3 c :
  col_step d1 d2 c -> col_step d2 d3 c -> col_step d1 d3 c.
Proof.
  intros [H12|(s & Hs & Hfull)] [H23|H23].
  - left. congruence.
  - by right.
  - right. exists s. split; [congruence | exact Hfull].
  - by right.
Qed.

Lemma only_fills_refl d : only_fills d d.
Proof. intros c. apply col_step_refl. Qed.

Lemma only_fills_trans d1 d2 d3 :
  only_fills d1 d2 -> only_fills d2 d3 -> only_fills d1 d3.
Proof. intros H12 H23 c. eapply col_step_trans; eauto. Qed.

Lemma only_fills_insert_full (d : frame) k s :
  Pandas.isna_sum s = 0%nat -> only_fills d (<[k := s]> d).
Proof.
  intros Hs c. destruct (decide (k = c)) as [->|Hne].
  - right. exists s. by rewrite lookup_insert_eq.
  - left. by rewrite lookup_insert_ne.
Qed.

Lemma only_fills_insert_same (d : frame) k s :
  d !! k = Some s -> only_fills d (<[k := s]> d).
Proof.
  intros Hs c. left. destruct (decide (k = c)) as [->|Hne].
  - by rewrite lookup_insert_eq.
  - by rewrite lookup_insert_ne.
Qed.

Lemma column_full_insert (d : frame) k s :
  Pandas.isna_sum s = 0%nat -> column_full (<[k := s]> d) k.
Proof. intros Hs s'. rewrite lookup_insert_eq. by intros [= <-]. Qed.

Lemma column_full_step d d' c :
  col_step d d' c -> column_full d c -> column_full d' c.
Proof.
  intros [Hsame|(s & Hs & Hfull)] Hd s' Hs'.
  - apply Hd. congruence.
  - congruence.
Qed.

Lemma column_full_absent d d' c :
  col_step d d' c -> d !! c = None -> column_full d' c.
Proof.
  intros Hstep Hnone. apply (column_full_step d d' c Hstep).
  intros s. congruence.
Qed.

Lemma fillable_step d d' c :
  col_step d d' c -> fillable d c = true -> fillable d' c = true.
Proof.
  unfold fillable. intros [-> |(s & -> & ->)]; [done | reflexivity].
Qed.

Lemma fillable_full d c s :
  fillable d c = true -> d !! c = Some s ->
  Pandas.isna_sum s = 0%nat \/ Pandas.dropna s <> [].
Proof.
  unfold fillable. intros Hf Hs. rewrite Hs in Hf.
  apply orb_true_iff in Hf as [Hz|Hv].
  - left. by apply Nat.eqb_eq.
  - right. by apply notna_any_dropna.
Qed.

Lemma has_column_false (d : frame) c : has_column d c = false -> d !! c = None.
Proof.
  unfold has_column. intros Hc. apply bool_decide_eq_false in Hc.
  by apply eq_None_not_Some.
Qed.

(** *** The methods of [DataPreprocessor] *)

Lemma add_binary_flag_fills column flag_name p :
  only_fills (df p) (df (add_binary_flag column flag_name p)).
Proof.
  unfold add_binary_flag. destruct (df p !! column); cbn.
  - apply only_fills_insert_full, isna_sum_notna_int.
  - apply only_fills_refl.
Qed.

Lemma fill_value_fills column v p :
  only_fills (df p) (df (fill_value column v p)).
Proof.
  unfold fill_value. destruct (df p !! column); [|apply only_fills_refl].
  cbv zeta. destruct (0 <? _)%nat; cbn; [|apply only_fills_refl].
  apply only_fills_insert_full, isna_sum_fillna.
Qed.

Lemma fill_value_full column v p :
  column_full (df (fill_value column v p)) column.
Proof.
  unfold fill_value. destruct (df p !! column) as [s|] eqn:Hs.
  - cbv zeta. destruct (0 <? _)%nat eqn:Hm; cbn.
    + apply column_full_insert, isna_sum_fillna.
    + intros s' Hs'. apply Nat.ltb_ge in Hm.
      assert (s' = s) as -> by congruence. lia.
  - intros s'. congruence.
Qed.

Lemma flag_and_fill_fills df0 column flag_name v p :
  only_fills (df p) (df (flag_and_fill df0 column flag_name v p)).
Proof.
  unfold flag_and_fill. destruct (has_column df0 column); [|apply only_fills_refl].
  eapply only_fills_trans; [apply add_binary_flag_fills | apply fill_value_fills].
Qed.

Lemma flag_and_fill_full df0 column flag_name v p :
  only_fills df0 (df p) ->
  column_full (df (flag_and_fill df0 column flag_name v p)) column.
Proof.
  unfold flag_and_fill. intros Hp.
  destruct (has_column df0 column) eqn:Hc; [apply fill_value_full|].
  eapply column_full_absent; [apply Hp | by apply has_column_false].
Qed.

Lemma df_add_feature_once name p : df (add_feature_once name p) = df p.
Proof. unfold add_feature_once. by destruct (bool_decide _). Qed.

Lemma only_fills_fillna_column (d : frame) feature v :
  only_fills d
    (match d !! feature with
     | Some s => <[feature := Pandas.fillna v s]> d
     | None => d
     end).
Proof.
  destruct (d !! feature); [|apply only_fills_refl].
  apply only_fills_insert_full, isna_sum_fillna.
Qed.

Lemma extract_from_address_fills address_column p p' :
  extract_from_address address_column p = Ok p' -> only_fills (df p) (df p').
Proof.
  unfold extract_from_address.
  destruct (df p !! address_column) as [addresses|];
    [|intros [= <-]; apply only_fills_refl].
  cbv zeta. destruct (map _parse_location addresses) as [|r rows];
    [discriminate|].
  intros [= <-]. cbn [fold_left df _log].
  rewrite !df_add_feature_once. cbn [df set_df].
  repeat (eapply only_fills_trans; [|apply only_fills_fillna_column]).
  repeat (eapply only_fills_trans;
          [|apply only_fills_insert_full;
            apply (isna_sum_map_some (fun r => VStr _))]).
  apply only_fills_refl.
Qed.

Lemma extract_if_needed_fills p p' :
  extract_if_needed p = Ok p' -> only_fills (df p) (df p').
Proof.
  unfold extract_if_needed. destruct (_ && _).
  - apply extract_from_address_fills.
  - intros [= <-]. apply only_fills_refl.
Qed.

Lemma fill_median_ungrouped column p p' :
  fill_median column None p = Ok p' ->
  only_fills (df p) (df p') /\
  (fillable (df p) column = true -> column_full (df p') column).
Proof.
  unfold fill_median. destruct (df p !! column) as [s|] eqn:Hs.
  - cbv zeta. destruct (_ =? 0)%nat eqn:Hz.
    + intros [= <-]. split; [apply only_fills_refl|].
      intros _ s' Hs'. apply Nat.eqb_eq in Hz. congruence.
    + cbn [mbind option_bind]. intros Hm.
      apply outcome_bind_inv in Hm as (median_value & Hmed & [= <-]).
      cbn [df _log set_df]. destruct median_value as [m|]; cbn [Pandas.fillna_cell].
      * split; [apply only_fills_insert_full | intros _; apply column_full_insert];
          apply isna_sum_fillna.
      * split; [by apply only_fills_insert_same|].
        intros Hf. apply Nat.eqb_neq in Hz.
        destruct (fillable_full _ _ _ Hf Hs) as [Hfull|Hval]; [done|].
        destruct (median_some _ _ Hmed Hval) as (v & Hv). discriminate Hv.
  - intros [= <-]. split; [apply only_fills_refl|].
    intros _ s'. congruence.
Qed.

Lemma fill_mode_ungrouped column p p' :
  fill_mode column None p = Ok p' ->
  only_fills (df p) (df p') /\
  (fillable (df p) column = true -> column_full (df p') column).
Proof.
  unfold fill_mode. destruct (df p !! column) as [s|] eqn:Hs.
  - cbv zeta. destruct (_ =? 0)%nat eqn:Hz.
    + intros [= <-]. split; [apply only_fills_refl|].
      intros _ s' Hs'. apply Nat.eqb_eq in Hz. congruence.
    + cbn [mbind option_bind]. destruct (Pandas.mode s) as [m|] eqn:Hm.
      * intros [= <-]. cbn [df _log set_df].
        split; [apply only_fills_insert_full | intros _; apply column_full_insert];
          apply isna_sum_fillna.
      * intros [= <-]. split; [apply only_fills_refl|].
        intros Hf. apply Nat.eqb_neq in Hz.
        destruct (fillable_full _ _ _ Hf Hs) as [Hfull|Hval]; [done|].
        apply mode_none in Hm. done.
  - intros [= <-]. split; [apply only_fills_refl|].
    intros _ s'. congruence.
Qed.

Lemma zip_with_outcome_Forall {A B C} (f : A -> B -> outcome C)
  (P : C -> Prop) l k r :
  Pandas.zip_with_outcome f l k = Ok r ->
  Forall (fun a => forall b c, f a b = Ok c -> P c) l ->
  Forall P r.
Proof.
  revert k r. induction l as [|a l IH]; intros [|b k] r Hr Hl;
    cbn [Pandas.zip_with_outcome] in Hr; try (injection Hr as <-; constructor).
  destruct (f a b) as [c|] eqn:Hc; [|discriminate Hr].
  destruct (Pandas.zip_with_outcome f l k) as [r'|] eqn:Hr'; [|discriminate Hr].
  injection Hr as <-. inversion Hl; subst. constructor; eauto.
Qed.

Lemma group_fill_value_some keys col key fill :
  group_fill_value Pandas.median keys col key = Ok fill ->
  Pandas.dropna col <> [] -> exists v, fill = Some v.
Proof.
  unfold group_fill_value. cbv zeta.
  destruct (Pandas.dropna (Pandas.select _ col)) as [|v l] eqn:Hx;
    intros Hm Hcol.
  - by eapply median_some.
  - eapply median_some; [exact Hm|]. by rewrite Hx.
Qed.

Lemma groupby_transform_full keys col s' :
  groupby_transform_fillna Pandas.median keys col = Ok s' ->
  Pandas.isna_sum keys = 0%nat -> Pandas.dropna col <> [] ->
  Pandas.isna_sum s' = 0%nat.
Proof.
  unfold groupby_transform_fillna. intros Hs' Hkeys Hcol.
  apply isna_sum_zero. apply isna_sum_zero in Hkeys.
  eapply zip_with_outcome_Forall; [exact Hs'|].
  eapply Forall_impl; [exact Hkeys|].
  intros [k|] Hk c y Hy; [|done].
  apply outcome_bind_inv in Hy as (fill & Hfill & [= <-]).
  destruct c as [v|]; [done|].
  destruct (group_fill_value_some _ _ _ _ Hfill Hcol) as (v & ->). done.
Qed.

Lemma fill_median_grouped column g p p' :
  fill_median column (Some g) p = Ok p' ->
  (forall c, c <> column -> df p' !! c = df p !! c) /\
  (column_full (df p) column -> column_full (df p') column) /\
  (column_full (df p) g -> fillable (df p) column = true ->
   column_full (df p') column).
Proof.
  unfold fill_median. destruct (df p !! column) as [s|] eqn:Hs.
  - cbv zeta. destruct (_ =? 0)%nat eqn:Hz.
    + intros [= <-]. split; [done|]. split; [done|].
      intros _ _ s' Hs'. apply Nat.eqb_eq in Hz. congruence.
    + cbn [mbind option_bind]. apply Nat.eqb_neq in Hz.
      destruct (df p !! g) as [keys|] eqn:Hg; intros Hm.
      * apply outcome_bind_inv in Hm as (s' & Htr & [= <-]).
        cbn [df _log set_df].
        split; [intros c Hc; by rewrite lookup_insert_ne|].
        split; [intros Hfull; by specialize (Hfull s Hs)|].
        intros Hkeys Hf. apply column_full_insert.
        destruct (fillable_full _ _ _ Hf Hs) as [Hfull|Hval]; [done|].
        eapply groupby_transform_full; eauto.
      * apply outcome_bind_inv in Hm as (median_value & Hmed & [= <-]).
        cbn [df _log set_df].
        split; [intros c Hc; by rewrite lookup_insert_ne|].
        split; [intros Hfull; by specialize (Hfull s Hs)|].
        intros _ Hf.
        destruct (fillable_full _ _ _ Hf Hs) as [Hfull|Hval]; [done|].
        destruct (median_some _ _ Hmed Hval) as (v & ->).
        apply column_full_insert, isna_sum_fillna.
  - intros [= <-]. split; [done|]. split; [done|]. intros _ _ s'. congruence.
Qed.

(** *** The blocks of [basic_preprocessing] *)

Lemma fill_furniture_by_city_fills p p' :
  fill_furniture_by_city p = Ok p' ->
  only_fills (df p) (df p') /\
  (fillable (df p) "Furniture state" = true ->
   column_full (df p') "Furniture state").
Proof.
  unfold fill_furniture_by_city. cbv zeta. intros Hp.
  apply outcome_bind_inv in Hp as (new_city & _ & Hp).
  apply outcome_bind_inv in Hp as (furniture & Hf & [= <-]).
  apply getitem_inv in Hf. cbn [df set_df].
  pose proof (fill_mode_by_group_keeps new_city furniture) as Hkeeps.
  destruct (0 <? _)%nat eqn:Hmissing.
  - destruct (Pandas.mode (fill_mode_by_group new_city furniture)) as [m|] eqn:Hm.
    + split; [apply only_fills_insert_full | intros _; apply column_full_insert];
        apply isna_sum_fillna.
    + apply mode_none in Hm.
      pose proof (keeps_values_dropna _ _ Hkeeps Hm) as Hvac.
      rewrite (fill_mode_by_group_vacant _ _ Hvac) in Hmissing |- *.
      split; [by apply only_fills_insert_same|].
      intros Hfill. apply Nat.ltb_lt in Hmissing.
      destruct (fillable_full _ _ _ Hfill Hf) as [Hfull|Hval]; [lia | done].
  - apply Nat.ltb_ge in Hmissing.
    split; [apply only_fills_insert_full | intros _; apply column_full_insert]; lia.
Qed.

Lemma fill_bathrooms_fills df0 p p' :
  fill_bathrooms df0 p = Ok p' -> only_fills df0 (df p) ->
  (forall c, c <> "Bathrooms" -> col_step (df p) (df p') c) /\
  (column_full (df p) "Bathrooms" -> column_full (df p') "Bathrooms") /\
  (fillable df0 "Bathrooms" = true -> fillable df0 "Bedrooms" = true ->
   column_full (df p') "Bathrooms").
Proof.
  unfold fill_bathrooms. intros Hp Hfrom.
  destruct (has_column df0 "Bathrooms") eqn:Hbath; cbn [andb] in Hp.
  - destruct (has_column df0 "Bedrooms") eqn:Hbed.
    + apply outcome_bind_inv in Hp as (bedrooms & Hb & Hp).
      apply getitem_inv in Hb.
      apply outcome_bind_inv in Hp as (p1 & Hp1 & Hp).
      assert (Hstep1 : only_fills (df p) (df p1) /\
                (fillable df0 "Bedrooms" = true -> column_full (df p1) "Bedrooms")).
      { destruct (0 <? _)%nat eqn:Hmissing.
        - apply fill_median_ungrouped in Hp1 as (Hfills & Hfull).
          split; [exact Hfills|]. intros Hfill. apply Hfull.
          by apply (fillable_step df0).
        - injection Hp1 as <-. split; [apply only_fills_refl|]. intros _.
          apply Nat.ltb_ge in Hmissing.
          apply (column_full_step df0); [apply Hfrom|].
          intros s Hs. assert (s = bedrooms) as -> by congruence. lia. }
      destruct Hstep1 as (Hfills1 & Hbedrooms).
      apply fill_median_grouped in Hp as (Hother & Hkeep & Hfull).
      split; [|split].
      * intros c Hc. eapply col_step_trans; [apply Hfills1|].
        left. by apply Hother.
      * intros Hb0. apply Hkeep. by apply (column_full_step (df p)).
      * intros Hfill Hfillbed. apply Hfull; [by apply Hbedrooms|].
        apply (fillable_step (df p)); [apply Hfills1|].
        by apply (fillable_step df0).
    + apply fill_median_ungrouped in Hp as (Hfills & Hfull).
      split; [intros c _; apply Hfills|].
      split; [intros Hb0; by apply (column_full_step (df p))|].
      intros Hfill _. apply Hfull. by apply (fillable_step df0).
  - injection Hp as <-.
    split; [intros c _; apply col_step_refl|]. split; [done|]. intros _ _.
    eapply column_full_absent; [apply Hfrom | by apply has_column_false].
Qed.

Lemma fill_legal_status_fills df0 p p' :
  fill_legal_status df0 p = Ok p' -> col_step df0 (df p) "Legal status" ->
  only_fills (df p) (df p') /\ column_full (df p') "Legal status".
Proof.
  unfold fill_legal_status. intros Hp Hfrom.
  destruct (has_column df0 "Legal status") eqn:Hlegal.
  - apply outcome_bind_inv in Hp as (p1 & Hp1 & Hp).
    apply extract_if_needed_fills in Hp1.
    destruct (has_column (df p1) "new_city").
    + cbv zeta in Hp.
      apply outcome_bind_inv in Hp as (new_city & _ & Hp).
      apply outcome_bind_inv in Hp as (legal & _ & [= <-]).
      cbn [df set_df].
      assert (Hfull : Pandas.isna_sum
                (if (0 <? Pandas.isna_sum (fill_mode_by_group new_city legal))%nat
                 then Pandas.fillna (VStr "Không rõ")
                        (fill_mode_by_group new_city legal)
                 else fill_mode_by_group new_city legal) = 0%nat).
      { destruct (0 <? _)%nat eqn:Hmissing; [apply isna_sum_fillna|].
        apply Nat.ltb_ge in Hmissing. lia. }
      split; [|by apply column_full_insert].
      eapply only_fills_trans; [exact Hp1|]. by apply only_fills_insert_full.
    + injection Hp as <-.
      split; [|apply fill_value_full].
      eapply only_fills_trans; [exact Hp1 | apply fill_value_fills].
  - injection Hp as <-. split; [apply only_fills_refl|].
    eapply column_full_absent; [exact Hfrom | by apply has_column_false].
Qed.

Lemma fill_numeric_column_fills col p p' :
  fill_numeric_column col p = Ok p' ->
  only_fills (df p) (df p') /\
  (fillable (df p) col = true -> column_full (df p') col).
Proof.
  unfold fill_numeric_column. destruct (df p !! col) as [s|] eqn:Hs; [|discriminate].
  destruct (0 <? _)%nat eqn:Hmissing; [apply fill_median_ungrouped|].
  intros [= <-]. split; [apply only_fills_refl|].
  intros _ s' Hs'. apply Nat.ltb_ge in Hmissing.
  assert (s' = s) as -> by congruence. lia.
Qed.

Lemma fill_numeric_columns_raise cols e :
  foldl (fun acc col => prep ← acc; fill_numeric_column col prep)
        (Raise e) cols = Raise e.
Proof. induction cols as [|col cols IH]; [reflexivity | exact IH]. Qed.

Lemma fill_numeric_columns_fills cols p p' :
  foldl (fun acc col => prep ← acc; fill_numeric_column col prep)
        (Ok p) cols = Ok p' ->
  only_fills (df p) (df p') /\
  (forall c, In c cols -> fillable (df p) c = true -> column_full (df p') c).
Proof.
  revert p. induction cols as [|col cols IH]; intros p Hp; cbn [foldl] in Hp.
  - injection Hp as <-. split; [apply only_fills_refl | intros c []].
  - cbn [mbind outcome_bind] in Hp.
    destruct (fill_numeric_column col p) as [p1|e] eqn:Hcol;
      [|by rewrite fill_numeric_columns_raise in Hp].
    apply fill_numeric_column_fills in Hcol as (Hfills1 & Hfull1).
    apply IH in Hp as (Hfills & Hfull).
    split; [by eapply only_fills_trans|].
    intros c [<-|Hc] Hfill.
    + apply (column_full_step (df p1)); [apply Hfills | by apply Hfull1].
    + apply Hfull; [exact Hc|]. by apply (fillable_step (df p)).
Qed.

Lemma in_numeric_cols (d : frame) c s :
  d !! c = Some s -> Pandas.is_numeric s = true -> In c (numeric_cols d).
Proof.
  intros Hs Hnum. unfold numeric_cols.
  apply (in_map fst _ (c, s)). apply filter_In. split; [|exact Hnum].
  apply list_elem_of_In. by apply elem_of_map_to_list.
Qed.

Lemma fill_remaining_numeric_fills p p' :
  fill_remaining_numeric p = Ok p' ->
  only_fills (df p) (df p') /\
  (forall c, numeric_column (df p) c = true -> fillable (df p) c = true ->
             column_full (df p') c).
Proof.
  unfold fill_remaining_numeric. intros Hp.
  apply fill_numeric_columns_fills in Hp as (Hfills & Hfull).
  split; [exact Hfills|]. intros c Hnum Hfill. apply Hfull; [|exact Hfill].
  unfold numeric_column in Hnum.
  destruct (df p !! c) as [s|] eqn:Hs; [|discriminate Hnum].
  by eapply in_numeric_cols.
Qed.

Lemma numeric_column_step d d' c :
  col_step d d' c -> numeric_column d c = true ->
  column_full d' c \/ numeric_column d' c = true.
Proof.
  unfold numeric_column. intros [Hsame|(s & Hs & Hfull)] Hnum.
  - right. by rewrite Hsame.
  - left. intros s' Hs'. congruence.
Qed.

(** *** The phases *)

Lemma phase_1_high_missing_fills df0 p :
  only_fills df0 (df p) ->
  only_fills (df p) (df (phase_1_high_missing df0 p)) /\
  column_full (df (phase_1_high_missing df0 p)) "Balcony direction" /\
  column_full (df (phase_1_high_missing df0 p)) "House direction".
Proof.
  unfold phase_1_high_missing. cbv zeta. intros Hfrom.
  pose proof (flag_and_fill_fills df0 "Balcony direction"
                "new_has_balcony_direction" (VStr "Unknown") p) as H1.
  pose proof (flag_and_fill_full df0 "Balcony direction"
                "new_has_balcony_direction" (VStr "Unknown") p Hfrom) as F1.
  set (p1 := flag_and_fill df0 "Balcony direction" _ _ p) in *.
  pose proof (flag_and_fill_fills df0 "House direction"
                "new_has_house_direction" (VStr "Không rõ") p1) as H2.
  split; [by eapply only_fills_trans|]. split.
  - by apply (column_full_step (df p1)).
  - apply flag_and_fill_full. by eapply only_fills_trans.
Qed.

Lemma phase_2_moderate_missing_fills df0 p p' :
  phase_2_moderate_missing df0 p = Ok p' -> only_fills df0 (df p) ->
  only_fills (df p) (df p') /\
  (fillable df0 "Furniture state" = true ->
   column_full (df p') "Furniture state") /\
  column_full (df p') "Access Road" /\
  column_full (df p') "Frontage".
Proof.
  unfold phase_2_moderate_missing. cbv zeta. intros Hp Hfrom.
  apply outcome_bind_inv in Hp as (p1 & Hp1 & Hp).
  apply outcome_bind_inv in Hp as (p2 & Hp2 & [= <-]).
  apply extract_if_needed_fills in Hp1.
  apply fill_furniture_by_city_fills in Hp2 as (Hfills2 & Hfurniture).
  pose proof (flag_and_fill_fills df0 "Access Road" "new_has_access_road"
                (VNum 0) p2) as H3.
  assert (Hfrom2 : only_fills df0 (df p2))
    by (eapply only_fills_trans; [|exact Hfills2]; by eapply only_fills_trans).
  pose proof (flag_and_fill_full df0 "Access Road" "new_has_access_road"
                (VNum 0) p2 Hfrom2) as F3.
  set (p3 := flag_and_fill df0 "Access Road" _ _ p2) in *.
  pose proof (flag_and_fill_fills df0 "Frontage" "has_frontage" (VNum 0) p3) as H4.
  assert (H23 : only_fills (df p2) (df (flag_and_fill df0 "Frontage"
                   "has_frontage" (VNum 0) p3)))
    by (by eapply only_fills_trans).
  split; [|split; [|split]].
  - eapply only_fills_trans; [exact Hp1|]. by eapply only_fills_trans.
  - intros Hfill. apply (column_full_step (df p2)); [apply H23|].
    apply Hfurniture. apply (fillable_step df0); [|exact Hfill].
    apply (only_fills_trans _ _ _ Hfrom Hp1).
  - by apply (column_full_step (df p3)).
  - apply flag_and_fill_full. by eapply only_fills_trans.
Qed.

Lemma phase_3_low_missing_fills df0 p p' :
  phase_3_low_missing df0 p = Ok p' -> only_fills df0 (df p) ->
  (forall c, column_full (df p) c -> column_full (df p') c) /\
  column_full (df p') "Legal status" /\
  (fillable df0 "Floors" = true -> column_full (df p') "Floors") /\
  (fillable df0 "Bathrooms" = true -> fillable df0 "Bedrooms" = true ->
   column_full (df p') "Bathrooms") /\
  (forall c, c <> "Bathrooms" -> numeric_column df0 c = true ->
             fillable df0 c = true -> column_full (df p') c).
Proof.
  unfold phase_3_low_missing. intros Hp Hfrom.
  apply outcome_bind_inv in Hp as (p1 & Hp1 & Hp).
  apply outcome_bind_inv in Hp as (p2 & Hp2 & Hp).
  apply outcome_bind_inv in Hp as (p3 & Hp3 & Hp4).
  apply (fill_bathrooms_fills df0 p p1) in Hp1 as (Hother1 & Hkeep1 & Hbath);
    [|exact Hfrom].
  assert (Hfull1 : forall c, column_full (df p) c -> column_full (df p1) c).
  { intros c Hc. destruct (decide (c = "Bathrooms")) as [->|Hne]; [by apply Hkeep1|].
    apply (column_full_step (df p)); [by apply Hother1 | exact Hc]. }
  assert (Hfrom1 : forall c, c <> "Bathrooms" -> col_step df0 (df p1) c).
  { intros c Hc. eapply col_step_trans; [apply Hfrom | by apply Hother1]. }
  apply (fill_legal_status_fills df0 p1 p2) in Hp2 as (Hfills2 & Hlegal);
    [|by apply Hfrom1].
  assert (Hfloors : only_fills (df p2) (df p3) /\
            (fillable df0 "Floors" = true -> column_full (df p3) "Floors")).
  { destruct (has_column df0 "Floors") eqn:Hfl.
    - apply fill_mode_ungrouped in Hp3 as (Hfills3 & Hfull3).
      split; [exact Hfills3|]. intros Hfill. apply Hfull3.
      apply (fillable_step (df p1)); [apply Hfills2|].
      apply (fillable_step df0); [by apply Hfrom1 | exact Hfill].
    - injection Hp3 as <-. split; [apply only_fills_refl|]. intros _.
      apply (column_full_step (df p1)); [apply Hfills2|].
      eapply column_full_absent; [by apply (Hfrom1 "Floors")|].
      by apply has_column_false. }
  destruct Hfloors as (Hfills3 & Hfloors).
  apply fill_remaining_numeric_fills in Hp4 as (Hfills4 & Hnumeric).
  assert (Hrest : only_fills (df p1) (df p')).
  { eapply only_fills_trans; [exact Hfills2|]. by eapply only_fills_trans. }
  split; [|split; [|split; [|split]]].
  - intros c Hc. apply (column_full_step (df p1)); [apply Hrest | by apply Hfull1].
  - apply (column_full_step (df p2)); [|exact Hlegal].
    eapply col_step_trans; [apply Hfills3 | apply Hfills4].
  - intros Hfill. apply (column_full_step (df p3)); [apply Hfills4 | by apply Hfloors].
  - intros Hfill Hfillbed.
    apply (column_full_step (df p1)); [apply Hrest | by apply Hbath].
  - intros c Hc Hnum Hfill.
    assert (Hstep3 : col_step df0 (df p3) c).
    { eapply col_step_trans; [by apply Hfrom1|].
      eapply col_step_trans; [apply Hfills2 | apply Hfills3]. }
    destruct (numeric_column_step _ _ _ Hstep3 Hnum) as [Hfull|Hnum3].
    + by apply (column_full_step (df p3)); [apply Hfills4|].
    + apply Hnumeric; [exact Hnum3|]. by apply (fillable_step df0).
Qed.

Lemma create_feature_other feature_name formula description p c :
  c <> feature_name ->
  df (create_feature feature_name formula description p) !! c = df p !! c.
Proof.
  unfold create_feature. intros Hc. destruct (formula (df p)); [|reflexivity].
  cbn [df _log add_feature set_df]. by rewrite lookup_insert_ne.
Qed.

Lemma not_derived c name :
  c ∉ DERIVED_COLUMNS -> bool_decide (name ∈ DERIVED_COLUMNS) = true -> c <> name.
Proof. intros Hc Hname ->. apply bool_decide_eq_true in Hname. by apply Hc. Qed.

Lemma room_features_other p c :
  c ∉ DERIVED_COLUMNS -> df (room_features p) !! c = df p !! c.
Proof.
  intros Hc. unfold room_features. destruct (_ && _); [|reflexivity].
  cbv zeta.
  rewrite (create_feature_other "new_total_rooms")
    by (by apply not_derived).
  by rewrite (create_feature_other "new_bathroom_bedroom_ratio")
    by (by apply not_derived).
Qed.

Lemma area_features_other p c :
  c ∉ DERIVED_COLUMNS -> df (area_features p) !! c = df p !! c.
Proof.
  intros Hc. unfold area_features.
  destruct (has_column (df p) "Area"); [|reflexivity].
  cbv zeta. destruct (has_column _ "new_total_rooms").
  - rewrite (create_feature_other "new_avg_room_size")
      by (by apply not_derived).
    by rewrite (create_feature_other "new_is_large_house")
      by (by apply not_derived).
  - by rewrite (create_feature_other "new_is_large_house")
      by (by apply not_derived).
Qed.

Lemma indicator_features_other p c :
  c ∉ DERIVED_COLUMNS -> df (indicator_features p) !! c = df p !! c.
Proof.
  intros Hc. unfold indicator_features. cbv zeta.
  assert (Hluxury : forall q,
            df (if has_column (df q) "Bathrooms"
                then create_feature "new_is_luxury"
                       (fun d => bathrooms ← getitem d "Bathrooms";
                                 Pandas.ge_int 4 bathrooms)
                       "Luxury house indicator (4+ bathrooms)" q
                else q) !! c = df q !! c).
  { intros q. destruct (has_column (df q) "Bathrooms"); [|reflexivity].
    by rewrite (create_feature_other "new_is_luxury")
      by (by apply not_derived). }
  destruct (has_column _ "Floors"); [|apply Hluxury].
  rewrite (create_feature_other "new_is_multi_story")
    by (by apply not_derived).
  apply Hluxury.
Qed.

Lemma create_bins_other pd_cut column n_bins labels p c :
  c <> (column ++ "_binned")%string ->
  df (create_bins pd_cut column n_bins labels p) !! c = df p !! c.
Proof.
  unfold create_bins. intros Hc. destruct (df p !! column); [|reflexivity].
  cbv zeta. destruct (pd_cut _ _ _); [|reflexivity].
  cbn [df _log add_feature set_df]. by rewrite lookup_insert_ne.
Qed.

Lemma phase_4_feature_engineering_step pd_cut p p' c :
  phase_4_feature_engineering pd_cut p = Ok p' ->
  c ∉ DERIVED_COLUMNS -> col_step (df p) (df p') c.
Proof.
  unfold phase_4_feature_engineering. cbv zeta. intros Hp Hc.
  apply outcome_bind_inv in Hp as (p1 & Hp1 & [= <-]).
  assert (Hfeatures :
            df (indicator_features (area_features (room_features p))) !! c
            = df p !! c).
  { by rewrite indicator_features_other, area_features_other,
         room_features_other. }
  assert (Hstep1 : col_step (df p) (df p1) c).
  { destruct (_ && _).
    - apply extract_from_address_fills in Hp1.
      eapply col_step_trans; [|apply Hp1]. by left.
    - injection Hp1 as <-. by left. }
  eapply col_step_trans; [exact Hstep1|]. left.
  destruct (has_column (df p1) "Area"); [|reflexivity].
  apply create_bins_other. by apply not_derived.
Qed.

(** C4, as stated, fails: of three listings none states its furniture;
    the column is one that the stage processes, no city has a mode, the
    global mode is empty, and the stage returns with its three cells
    missing. *)
Lemma entirely_missing_furniture_state_is_not_filled :
  processed_column unfurnished_frame "Furniture state" = true /\
  (d ← basic_preprocessing equal_width_cut unfurnished_frame;
   getitem d "Furniture state") = Ok [None; None; None] /\
  Pandas.isna_sum [None; None; None] = 3%nat.
Proof. repeat split; vm_compute; reflexivity. Qed.

(** C4, amended.  Whenever [basic_preprocessing] returns, a processed
    column of its result has no missing value provided there is something
    to fill it with: always for the five columns that take a fixed value
    (Balcony direction, House direction, Access Road, Frontage, Legal
    status); for Furniture state, Floors, Bathrooms and the numeric
    columns of the input when the input column is not entirely missing,
    and for Bathrooms when Bedrooms is not entirely missing either. *)
Theorem basic_preprocessing_fills_processed_columns
  (pd_cut : series -> nat -> list string -> outcome series)
  (df0 out : frame) (c : string) :
  basic_preprocessing pd_cut df0 = Ok out ->
  processed_column df0 c = true ->
  has_fill_value df0 c = true ->
  column_full out c.
Proof.
  unfold basic_preprocessing. cbv zeta. intros Hrun Hproc Hfill.
  apply outcome_bind_inv in Hrun as (p2 & Hp2 & Hrun).
  apply outcome_bind_inv in Hrun as (p3 & Hp3 & Hrun).
  apply outcome_bind_inv in Hrun as (p4 & Hp4 & [= <-]).
  destruct (phase_1_high_missing_fills df0 (DataPreprocessor_init df0))
    as (Hfills1 & Hbalcony & Hhouse); [apply only_fills_refl|].
  set (p1 := phase_1_high_missing df0 (DataPreprocessor_init df0)) in *.
  cbn [df DataPreprocessor_init] in Hfills1.
  destruct (phase_2_moderate_missing_fills df0 p1 p2 Hp2 Hfills1)
    as (Hfills2 & Hfurniture & Haccess & Hfrontage).
  assert (Hfrom2 : only_fills df0 (df p2)) by (by eapply only_fills_trans).
  destruct (phase_3_low_missing_fills df0 p2 p3 Hp3 Hfrom2)
    as (Hkeep3 & Hlegal & Hfloors & Hbath & Hnumeric).
  unfold processed_column in Hproc.
  apply andb_true_iff in Hproc as (Hderived & Hkind).
  apply bool_decide_eq_true in Hderived.
  apply (column_full_step (df p3));
    [by eapply phase_4_feature_engineering_step|].
  unfold has_fill_value in Hfill.
  destruct (bool_decide (c ∈ SENTINEL_COLUMNS)) eqn:Hsentinel.
  - apply bool_decide_eq_true in Hsentinel. unfold SENTINEL_COLUMNS in Hsentinel.
    repeat (apply elem_of_cons in Hsentinel as [->|Hsentinel]).
    + apply Hkeep3. by apply (column_full_step (df p1)); [apply Hfills2|].
    + apply Hkeep3. by apply (column_full_step (df p1)); [apply Hfills2|].
    + by apply Hkeep3.
    + by apply Hkeep3.
    + exact Hlegal.
    + by apply elem_of_nil in Hsentinel.
  - cbn [orb] in Hfill, Hkind.
    apply andb_true_iff in Hfill as (Hfillc & Hbed).
    destruct (decide (c = "Bathrooms")) as [->|Hne].
    + cbn in Hbed. by apply Hbath.
    + destruct (bool_decide (c ∈ STATISTIC_COLUMNS)) eqn:Hstat.
      * apply bool_decide_eq_true in Hstat. unfold STATISTIC_COLUMNS in Hstat.
        repeat (apply elem_of_cons in Hstat as [->|Hstat]).
        -- apply Hkeep3. by apply Hfurniture.
        -- done.
        -- by apply Hfloors.
        -- by apply elem_of_nil in Hstat.
      * cbn [orb] in Hkind. by apply Hnumeric.
Qed.

Lemma basic_preprocessing_fills_processed_columns_witness :
  (processed_column furnished_frame "Furniture state" = true /\
   has_fill_value furnished_frame "Furniture state" = true /\
   column_full
     (from_outcome ∅ (basic_preprocessing equal_width_cut furnished_frame))
     "Furniture state") /\
  (processed_column furnished_frame "Bathrooms" = true /\
   has_fill_value furnished_frame "Bathrooms" = true /\
   column_full
     (from_outcome ∅ (basic_preprocessing equal_width_cut furnished_frame))
     "Bathrooms").
Proof.
  pose proof (outcome_of_is_ok
                (basic_preprocessing equal_width_cut furnished_frame) ∅) as Hrun.
  split.
  - split; [vm_compute; reflexivity|]. split; [vm_compute; reflexivity|].
    apply (basic_preprocessing_fills_processed_columns equal_width_cut
             furnished_frame).
    + apply Hrun. vm_compute. reflexivity.
    + vm_compute. reflexivity.
    + vm_compute. reflexivity.
  - split; [vm_compute; reflexivity|]. split; [vm_compute; reflexivity|].
    apply (basic_preprocessing_fills_processed_columns equal_width_cut
             furnished_frame).
    + apply Hrun. vm_compute. reflexivity.
    + vm_compute. reflexivity.
    + vm_compute. reflexivity.
Defined.


(** ** Further facts about the online preprocessor *)

(** X1.  A returning call of [preprocess] never takes the default-0 branch
    of lines 281-283: it logs no warning, only the closing information
    line, and leaves the service object as it was. *)
Theorem preprocess_logs_no_warning `{PyBuiltins} data w df w' :
  preprocess data w = (Ok df, w') ->
  w' = {| self := self w;
          logged := logged w ++ [(INFO, "Preprocessed input to 41 features")] |} /\
  forall entry, entry ∈ logged w' -> entry ∈ logged w \/ entry.1 = INFO.
Proof.
  intros Hp. apply preprocess_inv in Hp as (processed & w1 & Hc & _ & Hself & Hlog).
  apply compute_features_inv in Hc as (-> & Hall & _).
  rewrite (missing_warnings_nil _ _ Hall) in Hlog. cbn [app] in Hlog.
  assert (w' = {| self := self w;
                  logged := logged w
                            ++ [(INFO, "Preprocessed input to 41 features")] |})
    as ->.
  { destruct w' as [s l]. cbn [self logged] in Hself, Hlog. by subst. }
  split; [reflexivity|]. cbn [logged]. intros entry Hin.
  apply elem_of_app in Hin as [Hin|Hin]; [by left|].
  apply list_elem_of_singleton in Hin as ->. by right.
Qed.

Lemma preprocess_logs_no_warning_witness :
  exists df w',
    @preprocess reference_builtins scenario_request (fresh_world demo_service)
      = (Ok df, w') /\
    logged w' = [(INFO, "Preprocessed input to 41 features")].
Proof.
  destruct (preprocess_total (H := reference_builtins) scenario_request
              (fresh_world demo_service)) as (processed & _ & Hp).
  { apply well_formed_by_computation. vm_compute. reflexivity. }
  eexists _, _. split; [exact Hp|].
  destruct (preprocess_logs_no_warning (H := reference_builtins) _ _ _ _ Hp)
    as (Hw & _).
  exact (f_equal logged Hw).
Defined.

Lemma reorder_columns_map (g : string -> pyval) (l columns : list string) :
  (forall c, c ∈ columns -> c ∈ l) ->
  reorder_columns columns (map (fun f => (f, g f)) l)
  = Ok (map (fun f => (f, g f)) columns).
Proof.
  induction columns as [|c cs IH]; intros Hall; [reflexivity|].
  cbn [reorder_columns map]. rewrite frame_get_map by (apply Hall; left).
  rewrite IH; [reflexivity|]. intros c' Hc'. apply Hall. by right.
Qed.

(** X2.  The frame that [preprocess] returns is what [TreeModelService.predict]
    expects: the two modules list the same 41 features in the same order,
    the column check of [predict] logs no warning, the selection
    [features_df[EXPECTED_FEATURES]] raises nothing and changes nothing, and
    only the LightGBM renaming alters the column names. *)
Theorem preprocess_output_fits_model_service `{PyBuiltins}
  data w df w' model_name :
  preprocess data w = (Ok df, w') ->
  MODEL_EXPECTED_FEATURES = EXPECTED_FEATURES /\
  check_columns df = [] /\
  reorder_columns MODEL_EXPECTED_FEATURES df = Ok df /\
  prepare_features model_name df =
    (Ok (if String.eqb model_name "lightgbm"
         then rename_columns LIGHTGBM_RENAME df else df), []).
Proof.
  intros Hp. apply preprocess_inv in Hp as (processed & w1 & _ & -> & _).
  assert (Hsame : MODEL_EXPECTED_FEATURES = EXPECTED_FEATURES) by reflexivity.
  assert (Hcheck : check_columns (expected_row processed) = []).
  { unfold check_columns. cbv zeta.
    rewrite frame_columns_expected_row, Hsame.
    by rewrite bool_decide_eq_true_2. }
  assert (Hsel : reorder_columns MODEL_EXPECTED_FEATURES (expected_row processed)
                 = Ok (expected_row processed)).
  { rewrite Hsame. unfold expected_row. by apply reorder_columns_map. }
  split; [exact Hsame|]. split; [exact Hcheck|]. split; [exact Hsel|].
  unfold prepare_features. cbv zeta. by rewrite Hcheck, Hsel.
Qed.

Lemma preprocess_output_fits_model_service_witness :
  exists df w',
    @preprocess reference_builtins scenario_request (fresh_world demo_service)
      = (Ok df, w') /\
    prepare_features "xgboost" df = (Ok df, []) /\
    prepare_features "lightgbm" df = (Ok (rename_columns LIGHTGBM_RENAME df), []).
Proof.
  destruct (preprocess_total (H := reference_builtins) scenario_request
              (fresh_world demo_service)) as (processed & _ & Hp).
  { apply well_formed_by_computation. vm_compute. reflexivity. }
  eexists _, _. split; [exact Hp|].
  destruct (preprocess_output_fits_model_service (H := reference_builtins)
              _ _ _ _ "xgboost" Hp) as (_ & _ & _ & Hx).
  destruct (preprocess_output_fits_model_service (H := reference_builtins)
              _ _ _ _ "lightgbm" Hp) as (_ & _ & _ & Hl).
  split; [exact Hx | exact Hl].
Defined.


Lemma dict_get_in_range (table : gmap string Z) (default lo hi : Z) k :
  map_Forall (fun _ v => lo <= v <= hi) table ->
  lo <= default <= hi ->
  lo <= dict_get table k default <= hi.
Proof.
  intros Htable Hdefault. unfold dict_get.
  destruct (table !! k) as [v|] eqn:Hk; [|exact Hdefault].
  exact (Htable k v Hk).
Qed.

(** X3.  For every string the direction, legal-status and furniture
    encoders return a code of their table's range (0 to 7, 0 to 4, 0 to
    4), whatever the runtime's [lower] does; an integer given in place of
    the string bypasses the table and is returned as it is. *)
Theorem synonym_codes_stay_in_range `{PyBuiltins} :
  (forall s, exists code,
      _encode_direction (PStr s) = Ok code /\ 0 <= code <= 7) /\
  (forall s, exists code,
      _encode_legal_status (PStr s) = Ok code /\ 0 <= code <= 4) /\
  (forall s, exists code,
      _encode_furniture (PStr s) = Ok code /\ 0 <= code <= 4) /\
  (forall z,
      _encode_direction (PInt z) = Ok z /\
      _encode_legal_status (PInt z) = Ok z /\
      _encode_furniture (PInt z) = Ok z).
Proof.
  repeat apply conj.
  - intros s. eexists. split; [reflexivity|].
    apply dict_get_in_range; [|lia].
    apply (bool_decide_unpack _). vm_compute. exact I.
  - intros s. eexists. split; [reflexivity|].
    apply dict_get_in_range; [|lia].
    apply (bool_decide_unpack _). vm_compute. exact I.
  - intros s. eexists. split; [reflexivity|].
    apply dict_get_in_range; [|lia].
    apply (bool_decide_unpack _). vm_compute. exact I.
  - intros z. repeat split.
Qed.

(** X4.  [_encode_categorical] always returns and leaves the service as
    it is.  With a loaded encoder for the column the code is -1 or the
    position of the value among the encoder's classes, so that decoding
    it gives the value back; without one it is 0 for a falsy value and
    otherwise [abs(hash(value)) % 1000], which lies between 0 and 999. *)
Theorem encode_categorical_code `{PyBuiltins} column value w :
  exists code,
    _encode_categorical column value w = (Ok code, w) /\
    match label_encoders (self w) !! column with
    | Some le =>
        code = -1 \/
        exists s, value = PStr s /\ 0 <= code /\
                  classes_ le !! Z.to_nat code = Some s
    | None =>
        0 <= code < 1000 /\
        (truthy value = false -> code = 0) /\
        (truthy value = true -> code = Z.abs (py_hash value) mod 1000)
    end.
Proof.
  unfold _encode_categorical. erewrite bind_ok by reflexivity.
  destruct (label_encoders (self w) !! column) as [le|].
  - destruct value as [|b|z|f|s]; cbn [in_classes_value];
      try (exists (-1); split; [reflexivity | by left]).
    unfold in_classes, transform_value, transform.
    destruct (index_of s (classes_ le)) as [i|] eqn:Hi.
    + exists (Z.of_nat i). split; [reflexivity|]. right. exists s.
      split; [reflexivity|]. split; [lia|].
      rewrite Nat2Z.id. by apply index_of_Some.
    + exists (-1). split; [reflexivity | by left].
  - destruct (truthy value) eqn:Htruthy; cbn [negb].
    + exists (Z.abs (py_hash value) mod 1000). split; [reflexivity|].
      split; [apply Z.mod_pos_bound; lia|]. split; [discriminate | reflexivity].
    + exists 0. split; [reflexivity|]. split; [lia|].
      split; [reflexivity | discriminate].
Qed.

(** *** Comparisons of floats with 0 and 1 *)

Lemma prim_zero : Prim2SF 0 = S754_zero false.
Proof. vm_compute. reflexivity. Qed.
Lemma prim_one : exists m e, Prim2SF 1 = S754_finite false m e.
Proof. eexists _, _. vm_compute. reflexivity. Qed.
Lemma float_zero_below_one (x : float) :
  PrimFloat.eqb x 0 = true -> PrimFloat.ltb x 1 = true.
Proof.
  rewrite FloatAxioms.eqb_spec, FloatAxioms.ltb_spec, prim_zero.
  destruct prim_one as (m1 & e1 & ->).
  unfold SFeqb, SFltb, SFcompare.
  destruct (Prim2SF x) as [s| s | |s m e]; intros Hz;
    try discriminate Hz; try reflexivity; destruct s; discriminate Hz.
Qed.
Lemma float_zero_not_positive (x : float) :
  PrimFloat.eqb x 0 = true -> PrimFloat.ltb 0 x = false.
Proof.
  rewrite FloatAxioms.eqb_spec, FloatAxioms.ltb_spec, prim_zero.
  unfold SFeqb, SFltb, SFcompare.
  destruct (Prim2SF x) as [s| s | |s m e]; intros Hz;
    try discriminate Hz; try reflexivity; destruct s; discriminate Hz.
Qed.

Lemma max_1_not_zero (x : float) : PrimFloat.eqb (max_1 x) 0 = false.
Proof.
  unfold max_1. destruct (PrimFloat.ltb x 1) eqn:Hlt; [reflexivity|].
  destruct (PrimFloat.eqb x 0) eqn:Hz; [|reflexivity].
  apply float_zero_below_one in Hz. congruence.
Qed.

(** More entries of the dictionary that a successful run of lines 158-273
    builds. *)
Lemma compute_features_derived `{PyBuiltins} data w processed w' :
  compute_features data w = (Ok processed, w') ->
  exists area frontage access_road floors bedrooms bathrooms city,
    _normalize_city
      (dict_get data "City" (dict_get data "new_city" (PStr "Hồ Chí Minh")))
      = Ok city /\
    processed !! "Area" = Some (PFloat area) /\
    processed !! "Frontage" = Some (PFloat frontage) /\
    processed !! "Access Road" = Some (PFloat access_road) /\
    processed !! "Floors" = Some (PFloat floors) /\
    processed !! "Bedrooms" = Some (PFloat bedrooms) /\
    processed !! "Bathrooms" = Some (PFloat bathrooms) /\
    processed !! "new_has_access_road" =
      Some (PInt (if PrimFloat.ltb 0 access_road then 1 else 0)) /\
    processed !! "has_frontage" =
      Some (PInt (if PrimFloat.ltb 0 frontage then 1 else 0)) /\
    processed !! "access_quality" =
      Some (PInt (access_quality_online access_road)) /\
    processed !! "new_bathroom_bedroom_ratio" =
      Some (PFloat (bathrooms / max_1 bedrooms)) /\
    processed !! "new_total_rooms" =
      Some (PFloat (max_1 bedrooms + bathrooms)) /\
    processed !! "new_avg_room_size" =
      Some (PFloat (area / max_1 (max_1 bedrooms + bathrooms))) /\
    processed !! "room_density" =
      Some (PFloat ((max_1 bedrooms + bathrooms) / max_1 area)) /\
    processed !! "area_x_bedrooms" = Some (PFloat (area * max_1 bedrooms)) /\
    processed !! "bedrooms_x_bathrooms" =
      Some (PFloat (max_1 bedrooms * bathrooms)) /\
    processed !! "bedrooms_x_floors" =
      Some (PFloat (max_1 bedrooms * floors)) /\
    processed !! "area_in_hồ_chí_minh" =
      Some (if String.eqb city "Hồ Chí Minh" then PFloat area else PInt 0) /\
    processed !! "area_in_hà_nội" =
      Some (if String.eqb city "Hà Nội" then PFloat area else PInt 0) /\
    processed !! "area_in_bình_dương" =
      Some (if String.eqb city "Bình Dương" then PFloat area else PInt 0) /\
    processed !! "area_in_đà_nẵng" =
      Some (if String.eqb city "Đà Nẵng" then PFloat area else PInt 0).
Proof.
  intros Hc. unfold compute_features in Hc. cbv zeta in Hc.
  repeat step_inv Hc.
  match type of Hc with
  | match ?found with _ => _ end _ = _ => destruct found as [stats|] eqn:Hfound
  end; apply ret_inv in Hc as [-> ->].
  all: do 7 eexists; split; [eassumption|].
  all: repeat split; reflexivity.
Qed.

Lemma preprocess_derived `{PyBuiltins} data w df w' :
  preprocess data w = (Ok df, w') ->
  exists processed,
    compute_features data w = (Ok processed, w) /\
    forall feature v,
      feature ∈ EXPECTED_FEATURES -> processed !! feature = Some v ->
      frame_get df feature = Some v.
Proof.
  intros Hp. apply preprocess_inv in Hp as (processed & w1 & Hc & -> & _).
  pose proof (compute_features_inv _ _ _ _ Hc) as (-> & _).
  exists processed. split; [exact Hc|]. intros feature v Hin Hv.
  rewrite frame_get_expected_row by done. by rewrite Hv.
Qed.

(** X5.  No division of [preprocess] can raise [ZeroDivisionError]: the
    three quotients it computes (bathroom-bedroom ratio, average room
    size, room density) have denominators of the form [max(x, 1)], and
    [max(x, 1)] is not zero for any float, NaN and the infinities
    included. *)
Theorem preprocess_never_divides_by_zero `{PyBuiltins} data w df w' :
  preprocess data w = (Ok df, w') ->
  (forall x, PrimFloat.eqb (max_1 x) 0 = false) /\
  exists area bedrooms bathrooms d1 d2 d3,
    frame_get df "Area" = Some (PFloat area) /\
    frame_get df "Bedrooms" = Some (PFloat bedrooms) /\
    frame_get df "Bathrooms" = Some (PFloat bathrooms) /\
    frame_get df "new_bathroom_bedroom_ratio" = Some (PFloat (bathrooms / d1)) /\
    frame_get df "new_avg_room_size" = Some (PFloat (area / d2)) /\
    frame_get df "room_density" = Some (PFloat ((d1 + bathrooms) / d3)) /\
    d1 = max_1 bedrooms /\ d2 = max_1 (d1 + bathrooms) /\ d3 = max_1 area /\
    PrimFloat.eqb d1 0 = false /\
    PrimFloat.eqb d2 0 = false /\
    PrimFloat.eqb d3 0 = false.
Proof.
  intros Hp. split; [apply max_1_not_zero|].
  apply preprocess_derived in Hp as (processed & Hc & Hget).
  apply compute_features_derived in Hc
    as (area & frontage & access_road & floors & bedrooms & bathrooms & city
        & _ & Parea & _ & _ & _ & Pbed & Pbath & _ & _ & _ & Pratio & _
        & Pavg & Pdens & _).
  exists area, bedrooms, bathrooms, (max_1 bedrooms),
    (max_1 (max_1 bedrooms + bathrooms)), (max_1 area).
  repeat (split; [apply Hget; [expected_feature | eassumption]|]).
  repeat (split; [reflexivity|]).
  repeat split; apply max_1_not_zero.
Qed.

Lemma preprocess_never_divides_by_zero_witness :
  exists df w',
    @preprocess reference_builtins {["Bedrooms" := PInt 0]}
      (fresh_world bare_service) = (Ok df, w') /\
    exists bedrooms bathrooms d1,
      frame_get df "Bedrooms" = Some (PFloat bedrooms) /\
      frame_get df "new_bathroom_bedroom_ratio" = Some (PFloat (bathrooms / d1)) /\
      d1 = max_1 bedrooms /\
      PrimFloat.eqb d1 0 = false.
Proof.
  destruct (preprocess_total (H := reference_builtins) {["Bedrooms" := PInt 0]}
              (fresh_world bare_service)) as (processed & _ & Hp).
  { apply well_formed_by_computation. vm_compute. reflexivity. }
  eexists _, _. split; [exact Hp|].
  destruct (preprocess_never_divides_by_zero (H := reference_builtins)
              _ _ _ _ Hp)
    as (_ & area & bedrooms & bathrooms & d1 & d2 & d3 & _ & Hbed & _ & Hratio
        & _ & _ & Hd1 & _ & _ & Hz & _).
  exists bedrooms, bathrooms, d1. repeat split; assumption.
Defined.

(** X6.  In every frame that [preprocess] returns, at most one of the four
    city-specific area features differs from the integer 0: each one is
    the area when the normalized city is its city and 0 otherwise. *)
Theorem at_most_one_city_area `{PyBuiltins} data w df w' :
  preprocess data w = (Ok df, w') ->
  exists area city,
    _normalize_city
      (dict_get data "City" (dict_get data "new_city" (PStr "Hồ Chí Minh")))
      = Ok city /\
    frame_get df "Area" = Some (PFloat area) /\
    frame_get df "area_in_hồ_chí_minh" =
      Some (if String.eqb city "Hồ Chí Minh" then PFloat area else PInt 0) /\
    frame_get df "area_in_hà_nội" =
      Some (if String.eqb city "Hà Nội" then PFloat area else PInt 0) /\
    frame_get df "area_in_bình_dương" =
      Some (if String.eqb city "Bình Dương" then PFloat area else PInt 0) /\
    frame_get df "area_in_đà_nẵng" =
      Some (if String.eqb city "Đà Nẵng" then PFloat area else PInt 0) /\
    forall f g,
      f ∈ CITY_AREA_FEATURES -> g ∈ CITY_AREA_FEATURES -> f <> g ->
      frame_get df f = Some (PInt 0) \/ frame_get df g = Some (PInt 0).
Proof.
  intros Hp. apply preprocess_derived in Hp as (processed & Hc & Hget).
  apply compute_features_derived in Hc
    as (area & frontage & access_road & floors & bedrooms & bathrooms & city
        & Hcity & Parea & _ & _ & _ & _ & _ & _ & _ & _ & _ & _ & _ & _ & _
        & _ & _ & Phcm & Phn & Pbd & Pdn).
  exists area, city. split; [exact Hcity|].
  apply Hget in Parea, Phcm, Phn, Pbd, Pdn; try expected_feature.
  repeat (split; [assumption|]).
  intros f g Hf Hg Hfg. unfold CITY_AREA_FEATURES in Hf, Hg.
  repeat (apply elem_of_cons in Hf as [->|Hf]);
    try (by apply elem_of_nil in Hf);
    repeat (apply elem_of_cons in Hg as [->|Hg]);
    try (by apply elem_of_nil in Hg);
    try done;
    rewrite ?Phcm, ?Phn, ?Pbd, ?Pdn;
    match goal with
    | |- context [String.eqb city ?name] =>
        destruct (String.eqb city name) eqn:E; [|by left]
    end;
    right; apply String.eqb_eq in E; subst city; reflexivity.
Qed.

Lemma at_most_one_city_area_witness :
  exists df w',
    @preprocess reference_builtins
      (list_to_map [("Area", PInt 90); ("City", PStr "hanoi")])
      (fresh_world bare_service) = (Ok df, w') /\
    frame_get df "area_in_hà_nội" = frame_get df "Area" /\
    frame_get df "area_in_hồ_chí_minh" = Some (PInt 0).
Proof.
  destruct (preprocess_total (H := reference_builtins)
              (list_to_map [("Area", PInt 90); ("City", PStr "hanoi")])
              (fresh_world bare_service)) as (processed & _ & Hp).
  { apply well_formed_by_computation. vm_compute. reflexivity. }
  eexists _, _. split; [exact Hp|].
  destruct (at_most_one_city_area (H := reference_builtins) _ _ _ _ Hp)
    as (area & city & Hcity & Harea & Hhcm & Hhn & _).
  vm_compute in Hcity. injection Hcity as <-.
  rewrite Hhn, Hhcm, Harea. split; reflexivity.
Defined.

(** X7.  In every frame that [preprocess] returns the two positivity flags
    agree with the values next to them: the frontage flag is 1 exactly
    when Frontage is above 0, the access-road flag 1 exactly when Access
    Road is above 0; and an access quality of 0 comes with an access-road
    flag of 0. *)
Theorem flags_agree_with_values `{PyBuiltins} data w df w' :
  preprocess data w = (Ok df, w') ->
  exists frontage access_road,
    frame_get df "Frontage" = Some (PFloat frontage) /\
    frame_get df "Access Road" = Some (PFloat access_road) /\
    frame_get df "has_frontage" =
      Some (PInt (if PrimFloat.ltb 0 frontage then 1 else 0)) /\
    frame_get df "new_has_access_road" =
      Some (PInt (if PrimFloat.ltb 0 access_road then 1 else 0)) /\
    (frame_get df "access_quality" = Some (PInt 0) ->
     frame_get df "new_has_access_road" = Some (PInt 0)).
Proof.
  intros Hp. apply preprocess_derived in Hp as (processed & Hc & Hget).
  apply compute_features_derived in Hc
    as (area & frontage & access_road & floors & bedrooms & bathrooms & city
        & _ & _ & Pfr & Par & _ & _ & _ & Phar & Phf & Pq & _).
  exists frontage, access_road.
  apply Hget in Pfr, Par, Phar, Phf, Pq; try expected_feature.
  repeat (split; [assumption|]).
  rewrite Pq, Phar. unfold access_quality_online. intros [= Hq].
  destruct (PrimFloat.eqb access_road 0) eqn:Hz.
  - by rewrite (float_zero_not_positive _ Hz).
  - destruct (PrimFloat.ltb access_road 5); discriminate Hq.
Qed.

Lemma flags_agree_with_values_witness :
  exists df w',
    @preprocess reference_builtins
      (list_to_map [("AccessRoad", PInt 0); ("Frontage", PInt 4)])
      (fresh_world bare_service) = (Ok df, w') /\
    exists frontage access_road,
      frame_get df "Frontage" = Some (PFloat frontage) /\
      frame_get df "Access Road" = Some (PFloat access_road) /\
      frame_get df "has_frontage" =
        Some (PInt (if PrimFloat.ltb 0 frontage then 1 else 0)) /\
      frame_get df "new_has_access_road" =
        Some (PInt (if PrimFloat.ltb 0 access_road then 1 else 0)).
Proof.
  destruct (preprocess_total (H := reference_builtins)
              (list_to_map [("AccessRoad", PInt 0); ("Frontage", PInt 4)])
              (fresh_world bare_service)) as (processed & _ & Hp).
  { apply well_formed_by_computation. vm_compute. reflexivity. }
  eexists _, _. split; [exact Hp|].
  destruct (flags_agree_with_values (H := reference_builtins) _ _ _ _ Hp)
    as (frontage & access_road & Hfr & Har & Hhf & Hhar & _).
  exists frontage, access_road. repeat split; assumption.
Defined.


(** ** [extract_from_address] *)

Lemma fillna_full v s : Pandas.isna_sum s = 0%nat -> Pandas.fillna v s = s.
Proof.
  rewrite isna_sum_zero. unfold Pandas.fillna.
  induction 1 as [|[w|] s Hx Hs IH]; cbn; [reflexivity | by rewrite IH | done].
Qed.

Lemma fillna_parsed {A} v (f : A -> value) x l :
  Pandas.fillna v (Some x :: map (fun r => Some (f r)) l)
  = Some x :: map (fun r => Some (f r)) l.
Proof.
  apply fillna_full, isna_sum_zero. constructor; [done|].
  apply isna_sum_zero, isna_sum_map_some.
Qed.

Lemma extract_from_address_run address_column p :
  match df p !! address_column with
  | None => extract_from_address address_column p = Ok p
  | Some [] => extract_from_address address_column p = Raise ValueError
  | Some addresses =>
      exists p',
        extract_from_address address_column p = Ok p' /\
        df p' !! "new_city" =
          Some (map (fun a => Some (VStr (_parse_location a).1.1)) addresses) /\
        df p' !! "new_district" =
          Some (map (fun a => Some (VStr (_parse_location a).1.2)) addresses) /\
        df p' !! "new_street_ward" =
          Some (map (fun a => Some (VStr (_parse_location a).2)) addresses) /\
        (forall c, c ∉ LOCATION_COLUMNS -> df p' !! c = df p !! c)
  end.
Proof.
  unfold extract_from_address.
  destruct (df p !! address_column) as [[|a addresses]|] eqn:Haddr;
    [reflexivity | | reflexivity].
  cbv zeta. cbn [map]. eexists. split; [reflexivity|].
  cbn [fold_left df _log]. rewrite !df_add_feature_once. cbn [df set_df].
  repeat (first [rewrite lookup_insert_eq | rewrite lookup_insert_ne by done];
          cbv beta iota).
  rewrite !fillna_parsed, !map_map.
  split; [reflexivity|]. split; [reflexivity|]. split; [reflexivity|].
  intros c Hc. unfold LOCATION_COLUMNS in Hc.
  apply not_elem_of_cons in Hc as (H1 & Hc).
  apply not_elem_of_cons in Hc as (H2 & Hc).
  apply not_elem_of_cons in Hc as (H3 & _).
  by rewrite !lookup_insert_ne.
Qed.

(** X8.  [extract_from_address] returns the preprocessor as it is when the
    address column is absent and raises [ValueError] when the frame has no
    row; otherwise it writes three string columns with one cell per
    address: the parsed city, district and street-and-ward, none of them
    missing, and leaves every other column as it was. *)
Theorem extract_from_address_columns address_column p :
  match df p !! address_column with
  | None => extract_from_address address_column p = Ok p
  | Some [] => extract_from_address address_column p = Raise ValueError
  | Some addresses =>
      exists p',
        extract_from_address address_column p = Ok p' /\
        df p' !! "new_city" =
          Some (map (fun a => Some (VStr (_parse_location a).1.1)) addresses) /\
        df p' !! "new_district" =
          Some (map (fun a => Some (VStr (_parse_location a).1.2)) addresses) /\
        df p' !! "new_street_ward" =
          Some (map (fun a => Some (VStr (_parse_location a).2)) addresses) /\
        (forall c, c ∉ LOCATION_COLUMNS -> df p' !! c = df p !! c)
  end.
Proof. apply extract_from_address_run. Qed.


(** ** Columns and values that [basic_preprocessing] keeps *)

Ltac by_computation := apply (bool_decide_unpack _); vm_compute; exact I.

Lemma keeps_column_refl d c : keeps_column d d c.
Proof. intros s Hs. exists s. split; [exact Hs | apply keeps_values_refl]. Qed.

Lemma keeps_column_trans d1 d2 d3 c :
  keeps_column d1 d2 c -> keeps_column d2 d3 c -> keeps_column d1 d3 c.
Proof.
  intros H12 H23 s Hs. destruct (H12 s Hs) as (s2 & Hs2 & K12).
  destruct (H23 s2 Hs2) as (s3 & Hs3 & K23).
  exists s3. split; [exact Hs3 | by eapply keeps_values_trans].
Qed.

Lemma keeps_column_same (d d' : frame) c :
  d' !! c = d !! c -> keeps_column d d' c.
Proof.
  intros Hsame s Hs. exists s. split; [congruence | apply keeps_values_refl].
Qed.

Lemma keeps_column_insert (d : frame) k s' c :
  (forall s, d !! k = Some s -> keeps_values s s') ->
  keeps_column d (<[k := s']> d) c.
Proof.
  intros Hk s Hs. destruct (decide (k = c)) as [->|Hne].
  - exists s'. rewrite lookup_insert_eq. split; [reflexivity | by apply Hk].
  - exists s. rewrite lookup_insert_ne by done.
    split; [exact Hs | apply keeps_values_refl].
Qed.

Lemma keeps_values_fillna v s : keeps_values s (Pandas.fillna v s).
Proof.
  unfold keeps_values, Pandas.fillna.
  induction s as [|[w|] s IH]; cbn; constructor; auto.
Qed.

Lemma keeps_values_lookup s s' :
  keeps_values s s' ->
  length s' = length s /\
  forall i v, s !! i = Some (Some v) -> s' !! i = Some (Some v).
Proof.
  unfold keeps_values. intros Hk. split; [symmetry; by eapply Forall2_length|].
  intros i v Hi. destruct (Forall2_lookup_l _ _ _ _ _ Hk Hi) as (y & Hy & [Hx|Hx]).
  - discriminate Hx.
  - by rewrite Hy, Hx.
Qed.

Lemma add_binary_flag_other column flag_name p c :
  c <> flag_name -> df (add_binary_flag column flag_name p) !! c = df p !! c.
Proof.
  intros Hc. unfold add_binary_flag. destruct (df p !! column); [|reflexivity].
  cbn. by rewrite lookup_insert_ne.
Qed.

Lemma add_binary_flag_flag column flag_name p s :
  df p !! column = Some s ->
  df (add_binary_flag column flag_name p) !! flag_name
  = Some (Pandas.notna_int s).
Proof.
  intros Hs. unfold add_binary_flag. rewrite Hs. cbn. apply lookup_insert_eq.
Qed.

Lemma fill_value_other column v p c :
  c <> column -> df (fill_value column v p) !! c = df p !! c.
Proof.
  intros Hc. unfold fill_value. destruct (df p !! column); [|reflexivity].
  cbv zeta. destruct (0 <? _)%nat; [|reflexivity].
  cbn. by rewrite lookup_insert_ne.
Qed.

Lemma fill_value_keeps column v p c :
  keeps_column (df p) (df (fill_value column v p)) c.
Proof.
  unfold fill_value. destruct (df p !! column) as [s|] eqn:Hs;
    [|apply keeps_column_refl].
  cbv zeta. destruct (0 <? _)%nat; [|apply keeps_column_refl].
  cbn. apply keeps_column_insert. intros s0 Hs0.
  assert (s0 = s) as -> by congruence. apply keeps_values_fillna.
Qed.

Lemma flag_and_fill_other df0 column flag_name v p c :
  c <> column -> c <> flag_name ->
  df (flag_and_fill df0 column flag_name v p) !! c = df p !! c.
Proof.
  intros Hcol Hflag. unfold flag_and_fill.
  destruct (has_column df0 column); [|reflexivity].
  by rewrite fill_value_other, add_binary_flag_other.
Qed.

Lemma flag_and_fill_keeps df0 column flag_name v p c :
  c <> flag_name ->
  keeps_column (df p) (df (flag_and_fill df0 column flag_name v p)) c.
Proof.
  intros Hflag. unfold flag_and_fill.
  destruct (has_column df0 column); [|apply keeps_column_refl].
  eapply keeps_column_trans; [|apply fill_value_keeps].
  apply keeps_column_same. by apply add_binary_flag_other.
Qed.

Lemma flag_and_fill_flag df0 column flag_name v p s0 :
  df0 !! column = Some s0 -> df p !! column = Some s0 ->
  flag_name <> column ->
  df (flag_and_fill df0 column flag_name v p) !! flag_name
  = Some (Pandas.notna_int s0).
Proof.
  intros H0 Hp Hne. unfold flag_and_fill.
  rewrite (has_column_true _ _ _ H0).
  rewrite fill_value_other by done. by apply add_binary_flag_flag.
Qed.

Lemma extract_from_address_other address_column p p' c :
  extract_from_address address_column p = Ok p' ->
  c ∉ LOCATION_COLUMNS -> df p' !! c = df p !! c.
Proof.
  intros Hp Hc. pose proof (extract_from_address_run address_column p) as Hrun.
  destruct (df p !! address_column) as [[|a addresses]|].
  - congruence.
  - destruct Hrun as (q & Hq & _ & _ & _ & Hother).
    assert (q = p') as -> by congruence. by apply Hother.
  - assert (p' = p) as -> by congruence. reflexivity.
Qed.

Lemma extract_if_needed_other p p' c :
  extract_if_needed p = Ok p' ->
  c ∉ LOCATION_COLUMNS -> df p' !! c = df p !! c.
Proof.
  unfold extract_if_needed. destruct (_ && _).
  - apply extract_from_address_other.
  - by intros [= <-].
Qed.

Lemma keeps_values_group_fill groups target (fallback : option value) :
  keeps_values target
    (if (0 <? Pandas.isna_sum (fill_mode_by_group groups target))%nat
     then match fallback with
          | Some v => Pandas.fillna v (fill_mode_by_group groups target)
          | None => fill_mode_by_group groups target
          end
     else fill_mode_by_group groups target).
Proof.
  eapply keeps_values_trans; [apply fill_mode_by_group_keeps|].
  destruct (0 <? _)%nat; [|apply keeps_values_refl].
  destruct fallback; [apply keeps_values_fillna | apply keeps_values_refl].
Qed.

Lemma fill_furniture_by_city_keeps p p' c :
  fill_furniture_by_city p = Ok p' -> keeps_column (df p) (df p') c.
Proof.
  unfold fill_furniture_by_city. cbv zeta. intros Hp.
  apply outcome_bind_inv in Hp as (new_city & _ & Hp).
  apply outcome_bind_inv in Hp as (furniture & Hf & [= <-]).
  apply getitem_inv in Hf. cbn [df set_df].
  apply keeps_column_insert. intros s Hs.
  assert (s = furniture) as -> by congruence.
  apply (keeps_values_group_fill new_city furniture
           (Pandas.mode (fill_mode_by_group new_city furniture))).
Qed.

Lemma fill_furniture_by_city_other p p' c :
  fill_furniture_by_city p = Ok p' ->
  c <> "Furniture state" -> df p' !! c = df p !! c.
Proof.
  unfold fill_furniture_by_city. cbv zeta. intros Hp Hc.
  apply outcome_bind_inv in Hp as (new_city & _ & Hp).
  apply outcome_bind_inv in Hp as (furniture & _ & [= <-]).
  cbn [df set_df]. by rewrite lookup_insert_ne.
Qed.

Lemma fill_median_ungrouped_keeps column p p' c :
  fill_median column None p = Ok p' -> keeps_column (df p) (df p') c.
Proof.
  unfold fill_median. destruct (df p !! column) as [s|] eqn:Hs;
    [|intros [= <-]; apply keeps_column_refl].
  cbv zeta. destruct (_ =? 0)%nat; [intros [= <-]; apply keeps_column_refl|].
  cbn [mbind option_bind]. intros Hm.
  apply outcome_bind_inv in Hm as (median_value & _ & [= <-]).
  cbn [df _log set_df]. apply keeps_column_insert. intros s0 Hs0.
  assert (s0 = s) as -> by congruence.
  destruct median_value; [apply keeps_values_fillna | apply keeps_values_refl].
Qed.

Lemma fill_mode_ungrouped_keeps column p p' c :
  fill_mode column None p = Ok p' -> keeps_column (df p) (df p') c.
Proof.
  unfold fill_mode. destruct (df p !! column) as [s|] eqn:Hs;
    [|intros [= <-]; apply keeps_column_refl].
  cbv zeta. destruct (_ =? 0)%nat; [intros [= <-]; apply keeps_column_refl|].
  cbn [mbind option_bind]. destruct (Pandas.mode s);
    intros [= <-]; [|apply keeps_column_refl].
  cbn [df _log set_df]. apply keeps_column_insert. intros s0 Hs0.
  assert (s0 = s) as -> by congruence. apply keeps_values_fillna.
Qed.

Lemma fill_bathrooms_keeps df0 p p' c :
  fill_bathrooms df0 p = Ok p' -> c <> "Bathrooms" ->
  keeps_column (df p) (df p') c.
Proof.
  unfold fill_bathrooms. intros Hp Hc.
  destruct (has_column df0 "Bathrooms"); cbn [andb] in Hp;
    [|injection Hp as <-; apply keeps_column_refl].
  destruct (has_column df0 "Bedrooms");
    [|by eapply fill_median_ungrouped_keeps].
  apply outcome_bind_inv in Hp as (bedrooms & _ & Hp).
  apply outcome_bind_inv in Hp as (p1 & Hp1 & Hp).
  apply fill_median_grouped in Hp as (Hother & _).
  eapply keeps_column_trans; [|apply keeps_column_same; by apply Hother].
  destruct (0 <? _)%nat; [by eapply fill_median_ungrouped_keeps|].
  injection Hp1 as <-. apply keeps_column_refl.
Qed.

Lemma fill_legal_status_keeps df0 p p' c :
  fill_legal_status df0 p = Ok p' -> c ∉ LOCATION_COLUMNS ->
  keeps_column (df p) (df p') c.
Proof.
  unfold fill_legal_status. intros Hp Hc.
  destruct (has_column df0 "Legal status");
    [|injection Hp as <-; apply keeps_column_refl].
  apply outcome_bind_inv in Hp as (p1 & Hp1 & Hp).
  eapply keeps_column_trans;
    [apply keeps_column_same; by eapply extract_if_needed_other|].
  destruct (has_column (df p1) "new_city").
  - cbv zeta in Hp.
    apply outcome_bind_inv in Hp as (new_city & _ & Hp).
    apply outcome_bind_inv in Hp as (legal & Hl & [= <-]).
    apply getitem_inv in Hl. cbn [df set_df].
    apply keeps_column_insert. intros s Hs.
    assert (s = legal) as -> by congruence.
    apply (keeps_values_group_fill new_city legal (Some (VStr "Không rõ"))).
  - injection Hp as <-. apply fill_value_keeps.
Qed.

Lemma fill_numeric_column_keeps col p p' c :
  fill_numeric_column col p = Ok p' -> keeps_column (df p) (df p') c.
Proof.
  unfold fill_numeric_column. destruct (df p !! col); [|discriminate].
  destruct (0 <? _)%nat; [apply fill_median_ungrouped_keeps|].
  intros [= <-]. apply keeps_column_refl.
Qed.

Lemma fill_numeric_columns_keeps cols p p' c :
  foldl (fun acc col => prep ← acc; fill_numeric_column col prep)
        (Ok p) cols = Ok p' ->
  keeps_column (df p) (df p') c.
Proof.
  revert p. induction cols as [|col cols IH]; intros p Hp; cbn [foldl] in Hp.
  - injection Hp as <-. apply keeps_column_refl.
  - cbn [mbind outcome_bind] in Hp.
    destruct (fill_numeric_column col p) as [p1|e] eqn:Hcol;
      [|by rewrite fill_numeric_columns_raise in Hp].
    eapply keeps_column_trans; [by eapply fill_numeric_column_keeps | by apply IH].
Qed.

Lemma phase_1_high_missing_other df0 p c :
  c ∉ ["Balcony direction"; "new_has_balcony_direction";
       "House direction"; "new_has_house_direction"] ->
  df (phase_1_high_missing df0 p) !! c = df p !! c.
Proof.
  intros Hc. unfold phase_1_high_missing. cbv zeta.
  apply not_elem_of_cons in Hc as (H1 & Hc).
  apply not_elem_of_cons in Hc as (H2 & Hc).
  apply not_elem_of_cons in Hc as (H3 & Hc).
  apply not_elem_of_cons in Hc as (H4 & _).
  by rewrite !flag_and_fill_other.
Qed.

Lemma phase_2_tail_keeps df0 p c :
  c <> "new_has_access_road" -> c <> "has_frontage" ->
  keeps_column (df p)
    (df (flag_and_fill df0 "Frontage" "has_frontage" (VNum 0)
           (flag_and_fill df0 "Access Road" "new_has_access_road" (VNum 0) p)))
    c.
Proof.
  intros H1 H2.
  eapply keeps_column_trans; by apply flag_and_fill_keeps.
Qed.

Lemma phase_3_low_missing_keeps df0 p p' c :
  phase_3_low_missing df0 p = Ok p' ->
  c <> "Bathrooms" -> c ∉ LOCATION_COLUMNS ->
  keeps_column (df p) (df p') c.
Proof.
  unfold phase_3_low_missing, fill_remaining_numeric. intros Hp Hc Hloc.
  apply outcome_bind_inv in Hp as (p1 & Hp1 & Hp).
  apply outcome_bind_inv in Hp as (p2 & Hp2 & Hp).
  apply outcome_bind_inv in Hp as (p3 & Hp3 & Hp4).
  eapply keeps_column_trans; [by eapply fill_bathrooms_keeps|].
  eapply keeps_column_trans; [by eapply fill_legal_status_keeps|].
  eapply keeps_column_trans; [|by eapply fill_numeric_columns_keeps].
  destruct (has_column df0 "Floors"); [by eapply fill_mode_ungrouped_keeps|].
  injection Hp3 as <-. apply keeps_column_refl.
Qed.

Lemma phase_4_feature_engineering_other pd_cut p p' c :
  phase_4_feature_engineering pd_cut p = Ok p' ->
  c ∉ DERIVED_COLUMNS -> c ∉ LOCATION_COLUMNS ->
  df p' !! c = df p !! c.
Proof.
  unfold phase_4_feature_engineering. cbv zeta. intros Hp Hc Hloc.
  apply outcome_bind_inv in Hp as (p1 & Hp1 & [= <-]).
  assert (Hfeatures :
            df (indicator_features (area_features (room_features p))) !! c
            = df p !! c).
  { by rewrite indicator_features_other, area_features_other,
         room_features_other. }
  assert (Hstep1 : df p1 !! c = df p !! c).
  { destruct (_ && _).
    - by rewrite (extract_from_address_other _ _ _ c Hp1).
    - by injection Hp1 as <-. }
  rewrite <- Hstep1.
  destruct (has_column (df p1) "Area"); [|reflexivity].
  apply create_bins_other. by apply not_derived.
Qed.

Lemma phases_3_4_keep pd_cut df0 p p3 p4 c :
  phase_3_low_missing df0 p = Ok p3 ->
  phase_4_feature_engineering pd_cut p3 = Ok p4 ->
  c <> "Bathrooms" -> c ∉ LOCATION_COLUMNS -> c ∉ DERIVED_COLUMNS ->
  keeps_column (df p) (df p4) c.
Proof.
  intros Hp3 Hp4 Hc Hloc Hder.
  eapply keeps_column_trans; [by eapply phase_3_low_missing_keeps|].
  apply keeps_column_same. by eapply phase_4_feature_engineering_other.
Qed.

Lemma flag_survives (d d' : frame) flag s0 :
  d !! flag = Some (Pandas.notna_int s0) -> keeps_column d d' flag ->
  d' !! flag = Some (Pandas.notna_int s0).
Proof.
  intros Hflag Hkeeps. destruct (Hkeeps _ Hflag) as (s' & Hs' & Hk).
  rewrite Hs'. f_equal. apply (keeps_values_full _ _ Hk), isna_sum_notna_int.
Qed.

(** X9.  [basic_preprocessing] only fills: a column of the input that is
    not one of the columns the stage creates, Bathrooms apart, is in the
    result with the same number of cells, and every cell that held a value
    in the input holds the same value in the result. *)
Theorem basic_preprocessing_keeps_values
  (pd_cut : series -> nat -> list string -> outcome series)
  (df0 out : frame) (c : string) (s0 : series) :
  basic_preprocessing pd_cut df0 = Ok out ->
  c ∉ CREATED_COLUMNS -> c <> "Bathrooms" ->
  df0 !! c = Some s0 ->
  exists s,
    out !! c = Some s /\
    length s = length s0 /\
    forall i v, s0 !! i = Some (Some v) -> s !! i = Some (Some v).
Proof.
  unfold basic_preprocessing. cbv zeta. intros Hrun Hc Hbath Hs0.
  apply outcome_bind_inv in Hrun as (p2 & Hp2 & Hrun).
  apply outcome_bind_inv in Hrun as (p3 & Hp3 & Hrun).
  apply outcome_bind_inv in Hrun as (p4 & Hp4 & [= <-]).
  unfold CREATED_COLUMNS in Hc.
  apply not_elem_of_app in Hc as (Hflags & Hc).
  apply not_elem_of_app in Hc as (Hloc & Hder).
  cbn [map snd FLAG_COLUMNS] in Hflags.
  apply not_elem_of_cons in Hflags as (F1 & Hflags).
  apply not_elem_of_cons in Hflags as (F2 & Hflags).
  apply not_elem_of_cons in Hflags as (F3 & Hflags).
  apply not_elem_of_cons in Hflags as (F4 & _).
  assert (Hkeeps : keeps_column df0 (df p4) c).
  { eapply keeps_column_trans; [|by eapply phases_3_4_keep].
    unfold phase_2_moderate_missing in Hp2. cbv zeta in Hp2.
    apply outcome_bind_inv in Hp2 as (p2a & Hp2a & Hp2).
    apply outcome_bind_inv in Hp2 as (p2b & Hp2b & [= <-]).
    eapply keeps_column_trans; [|by apply phase_2_tail_keeps].
    eapply keeps_column_trans; [|by eapply fill_furniture_by_city_keeps].
    eapply keeps_column_trans;
      [|apply keeps_column_same; by eapply extract_if_needed_other].
    unfold phase_1_high_missing. cbv zeta.
    change df0 with (df (DataPreprocessor_init df0)) at 1.
    eapply keeps_column_trans; by apply flag_and_fill_keeps. }
  destruct (Hkeeps s0 Hs0) as (s & Hs & Hk).
  exists s. split; [exact Hs|]. by apply keeps_values_lookup.
Qed.

Lemma basic_preprocessing_keeps_values_witness :
  exists s,
    from_outcome ∅ (basic_preprocessing equal_width_cut furnished_frame)
      !! "Legal status" = Some s /\
    length s = 3%nat /\
    s !! 1%nat = Some (Some (VStr "Sổ đỏ")).
Proof.
  pose proof (outcome_of_is_ok
                (basic_preprocessing equal_width_cut furnished_frame) ∅) as Hrun.
  destruct (basic_preprocessing_keeps_values equal_width_cut furnished_frame
              (from_outcome ∅ (basic_preprocessing equal_width_cut furnished_frame))
              "Legal status" [None; Some (VStr "Sổ đỏ"); None])
    as (s & Hs & Hlen & Hvals).
  - apply Hrun. vm_compute. reflexivity.
  - by_computation.
  - discriminate.
  - vm_compute. reflexivity.
  - exists s. split; [exact Hs|]. split; [exact Hlen|]. by apply Hvals.
Defined.

(** X10.  The presence flags are taken before the fill: for each of
    Balcony direction, House direction, Access Road and Frontage that the
    input has, the flag column of the result holds 1 exactly at the rows
    where the input column had a value and 0 where it was missing. *)
Theorem basic_preprocessing_flags_record_input
  (pd_cut : series -> nat -> list string -> outcome series)
  (df0 out : frame) (column flag_name : string) (s0 : series) :
  basic_preprocessing pd_cut df0 = Ok out ->
  (column, flag_name) ∈ FLAG_COLUMNS ->
  df0 !! column = Some s0 ->
  out !! flag_name = Some (Pandas.notna_int s0).
Proof.
  unfold basic_preprocessing. cbv zeta. intros Hrun Hpair Hs0.
  apply outcome_bind_inv in Hrun as (p2 & Hp2 & Hrun).
  apply outcome_bind_inv in Hrun as (p3 & Hp3 & Hrun).
  apply outcome_bind_inv in Hrun as (p4 & Hp4 & [= <-]).
  unfold phase_2_moderate_missing in Hp2. cbv zeta in Hp2.
  apply outcome_bind_inv in Hp2 as (p2a & Hp2a & Hp2).
  apply outcome_bind_inv in Hp2 as (p2b & Hp2b & [= <-]).
  unfold phase_1_high_missing in Hp2a. cbv zeta in Hp2a.
  set (p0 := DataPreprocessor_init df0) in *.
  set (p1a := flag_and_fill df0 "Balcony direction" "new_has_balcony_direction"
                (VStr "Unknown") p0) in *.
  set (p1 := flag_and_fill df0 "House direction" "new_has_house_direction"
               (VStr "Không rõ") p1a) in *.
  set (p2c := flag_and_fill df0 "Access Road" "new_has_access_road"
                (VNum 0) p2b) in *.
  set (p2d := flag_and_fill df0 "Frontage" "has_frontage" (VNum 0) p2c) in *.
  assert (Htail : forall c, c <> "Bathrooms" -> c ∉ LOCATION_COLUMNS ->
                            c ∉ DERIVED_COLUMNS ->
                            keeps_column (df p2d) (df p4) c)
    by (intros c ? ? ?; by eapply phases_3_4_keep).
  assert (Hmid : forall c, c ∉ LOCATION_COLUMNS ->
                           keeps_column (df p1) (df p2b) c).
  { intros c Hc.
    eapply keeps_column_trans; [|by eapply fill_furniture_by_city_keeps].
    apply keeps_column_same. by eapply extract_if_needed_other. }
  assert (Hpre : forall c, c ∉ LOCATION_COLUMNS -> c <> "Furniture state" ->
                           df p2b !! c = df p1 !! c).
  { intros c Hc Hf.
    rewrite (fill_furniture_by_city_other _ _ c Hp2b) by done.
    by eapply extract_if_needed_other. }
  unfold FLAG_COLUMNS in Hpair.
  repeat (apply elem_of_cons in Hpair as [[= -> ->]|Hpair]);
    [| | | | by apply elem_of_nil in Hpair].
  - apply (flag_survives (df p1a)).
    + by apply (flag_and_fill_flag df0 _ _ _ p0 s0).
    + apply (keeps_column_trans _ (df p1));
        [unfold p1; by apply flag_and_fill_keeps|].
      apply (keeps_column_trans _ (df p2b)); [apply Hmid; by_computation|].
      apply (keeps_column_trans _ (df p2d));
        [unfold p2d, p2c; by apply phase_2_tail_keeps|].
      apply Htail; [done | by_computation | by_computation].
  - apply (flag_survives (df p1)).
    + apply (flag_and_fill_flag df0 _ _ _ p1a s0); [done | | done].
      unfold p1a. by rewrite flag_and_fill_other.
    + apply (keeps_column_trans _ (df p2b)); [apply Hmid; by_computation|].
      apply (keeps_column_trans _ (df p2d));
        [unfold p2d, p2c; by apply phase_2_tail_keeps|].
      apply Htail; [done | by_computation | by_computation].
  - apply (flag_survives (df p2c)).
    + apply (flag_and_fill_flag df0 _ _ _ p2b s0); [done | | done].
      rewrite Hpre by (by_computation || done).
      unfold p1, p1a. by rewrite !flag_and_fill_other.
    + apply (keeps_column_trans _ (df p2d));
        [unfold p2d; by apply flag_and_fill_keeps|].
      apply Htail; [done | by_computation | by_computation].
  - apply (flag_survives (df p2d)).
    + apply (flag_and_fill_flag df0 _ _ _ p2c s0); [done | | done].
      unfold p2c. rewrite flag_and_fill_other by done.
      rewrite Hpre by (by_computation || done).
      unfold p1, p1a. by rewrite !flag_and_fill_other.
    + apply Htail; [done | by_computation | by_computation].
Qed.

Lemma basic_preprocessing_flags_record_input_witness :
  from_outcome ∅ (basic_preprocessing equal_width_cut furnished_frame)
    !! "new_has_access_road"
  = Some [Some (VNum 0); Some (VNum 1); Some (VNum 0)].
Proof.
  pose proof (outcome_of_is_ok
                (basic_preprocessing equal_width_cut furnished_frame) ∅) as Hrun.
  apply (basic_preprocessing_flags_record_input equal_width_cut furnished_frame
           _ "Access Road" "new_has_access_road"
           [None; Some (VNum 4); None]).
  - apply Hrun. vm_compute. reflexivity.
  - by_computation.
  - vm_compute. reflexivity.
Defined.

(** X11.  [basic_preprocessing] cannot complete without a Furniture state
    column, nor without a location: when the input lacks Furniture state,
    or lacks both new_city and Address, the call raises, [KeyError] in
    general and [ValueError] when new_city is absent and the Address
    column has no row. *)
Theorem basic_preprocessing_raises_without_furniture_or_location
  (pd_cut : series -> nat -> list string -> outcome series) (df0 : frame) :
  df0 !! "Furniture state" = None \/
  (df0 !! "new_city" = None /\ df0 !! "Address" = None) ->
  basic_preprocessing pd_cut df0 =
  Raise (match df0 !! "new_city", df0 !! "Address" with
         | None, Some [] => ValueError
         | _, _ => KeyError
         end).
Proof.
  intros Hlack. unfold basic_preprocessing. cbv zeta.
  set (p1 := phase_1_high_missing df0 (DataPreprocessor_init df0)).
  assert (Hsame : forall c,
            c ∉ ["Balcony direction"; "new_has_balcony_direction";
                 "House direction"; "new_has_house_direction"] ->
            df p1 !! c = df0 !! c)
    by (intros c Hc; unfold p1; by rewrite phase_1_high_missing_other).
  pose proof (Hsame "new_city" ltac:(by_computation)) as Hcity.
  pose proof (Hsame "Address" ltac:(by_computation)) as Haddr.
  pose proof (Hsame "Furniture state" ltac:(by_computation)) as Hfurn.
  unfold phase_2_moderate_missing, extract_if_needed, has_column.
  rewrite Hcity, Haddr.
  destruct (df0 !! "new_city") as [new_city|] eqn:Hc0.
  - rewrite bool_decide_eq_true_2 by eauto. cbn [negb andb mbind outcome_bind].
    unfold fill_furniture_by_city, getitem. cbv zeta. rewrite Hcity, Hfurn.
    destruct Hlack as [-> | [[=] _]]. reflexivity.
  - rewrite (bool_decide_eq_false_2 (is_Some None)) by (by intros [? ?]).
    cbn [negb andb].
    pose proof (extract_from_address_run "Address" p1) as Hrun.
    rewrite Haddr in Hrun.
    destruct (df0 !! "Address") as [[|a addresses]|] eqn:Ha0.
    + rewrite bool_decide_eq_true_2 by eauto. by rewrite Hrun.
    + rewrite bool_decide_eq_true_2 by eauto.
      destruct Hrun as (q & -> & Hq & _ & _ & Hother).
      cbn [mbind outcome_bind].
      unfold fill_furniture_by_city, getitem. cbv zeta. rewrite Hq.
      rewrite (Hother "Furniture state") by by_computation. rewrite Hfurn.
      destruct Hlack as [-> | [_ [=]]]. reflexivity.
    + rewrite (bool_decide_eq_false_2 (is_Some None)) by (by intros [? ?]).
      cbn [mbind outcome_bind].
      unfold fill_furniture_by_city, getitem. cbv zeta. by rewrite Hcity.
Qed.

Lemma basic_preprocessing_raises_without_furniture_or_location_witness :
  basic_preprocessing equal_width_cut
    (list_to_map [("Area", [Some (VNum 80)]); ("new_city", [Some (VStr "Huế")])])
  = Raise KeyError.
Proof.
  rewrite (basic_preprocessing_raises_without_furniture_or_location
             equal_width_cut
             (list_to_map [("Area", [Some (VNum 80)]);
                           ("new_city", [Some (VStr "Huế")])])).
  - vm_compute. reflexivity.
  - left. vm_compute. reflexivity.
Defined.


(** ** Rare categories *)

Lemma value_eqb_refl v : Pandas.value_eqb v v = true.
Proof.
  destruct v as [q|s]; cbn; [apply Qeq_bool_iff; reflexivity | apply String.eqb_refl].
Qed.

Lemma value_eqb_sym u v : Pandas.value_eqb u v = Pandas.value_eqb v u.
Proof.
  destruct u as [p|s], v as [q|t]; cbn; try reflexivity.
  - apply Bool.eq_iff_eq_true. rewrite !Qeq_bool_iff. split; intros E; by symmetry.
  - apply String.eqb_sym.
Qed.

Lemma value_eqb_congr u v w :
  Pandas.value_eqb u v = true -> Pandas.value_eqb u w = Pandas.value_eqb v w.
Proof.
  destruct u as [p|s], v as [q|t]; cbn; try discriminate.
  - intros E%Qeq_bool_iff. destruct w as [r|r]; [|reflexivity].
    apply Bool.eq_iff_eq_true. rewrite !Qeq_bool_iff. by rewrite E.
  - intros E%String.eqb_eq. by subst.
Qed.

Lemma value_eqb_str v name :
  Pandas.value_eqb v (VStr name) = true -> v = VStr name.
Proof.
  destruct v as [q|s]; cbn; [discriminate|]. intros E%String.eqb_eq. by subst.
Qed.

Lemma count_of_congr u v l :
  Pandas.value_eqb u v = true -> Pandas.count_of u l = Pandas.count_of v l.
Proof.
  intros E. unfold Pandas.count_of. f_equal.
  induction l as [|x l IH]; [reflexivity|]. cbn.
  by rewrite (value_eqb_congr u v x E), IH.
Qed.

Lemma rows_of_congr u v s :
  Pandas.value_eqb u v = true -> rows_of u s = rows_of v s.
Proof. apply count_of_congr. Qed.

Lemma rows_of_cons v x s :
  rows_of v (x :: s)
  = ((if Pandas.cell_eqb (Some v) x then 1 else 0) + rows_of v s)%nat.
Proof.
  unfold rows_of, Pandas.count_of, Pandas.dropna.
  destruct x as [u|]; cbn; [|reflexivity]. by destruct (Pandas.value_eqb v u).
Qed.

(** A value has a row exactly when a cell holds it. *)
Lemma rows_of_positive v s :
  (0 < rows_of v s)%nat <->
  exists u, Some u ∈ s /\ Pandas.value_eqb v u = true.
Proof.
  induction s as [|x s IH].
  - cbn. split; [lia|]. intros (u & Hu & _). by apply elem_of_nil in Hu.
  - rewrite rows_of_cons. split.
    + destruct x as [u|]; cbn [Pandas.cell_eqb].
      * destruct (Pandas.value_eqb v u) eqn:E.
        -- intros _. exists u. split; [left | exact E].
        -- intros Hpos. apply IH in Hpos as (w & Hw & Ew).
           exists w. split; [by right | exact Ew].
      * intros Hpos. apply IH in Hpos as (w & Hw & Ew).
        exists w. split; [by right | exact Ew].
    + intros (u & Hu & Eu). apply elem_of_cons in Hu as [<-|Hu].
      * cbn [Pandas.cell_eqb]. rewrite Eu. lia.
      * assert (0 < rows_of v s)%nat by (apply IH; eauto). lia.
Qed.

Lemma rows_of_member v s : Some v ∈ s -> (0 < rows_of v s)%nat.
Proof.
  intros Hv. apply rows_of_positive. exists v. split; [exact Hv|].
  apply value_eqb_refl.
Qed.

Lemma unique_from_sound seen s x :
  x ∈ Pandas.unique_from seen s -> x ∈ s.
Proof.
  revert seen. induction s as [|c s IH]; intros seen; cbn; [done|].
  destruct (existsb _ seen).
  - intros Hx. right. by eapply IH.
  - intros [->|Hx]%elem_of_cons; [left | right; by eapply IH].
Qed.

Lemma unique_from_complete seen s v :
  Some v ∈ s ->
  (exists u, Some u ∈ seen /\ Pandas.value_eqb v u = true) \/
  (exists u, Some u ∈ Pandas.unique_from seen s /\ Pandas.value_eqb v u = true).
Proof.
  revert seen. induction s as [|c s IH]; intros seen Hv;
    [by apply elem_of_nil in Hv|].
  cbn [Pandas.unique_from].
  destruct (existsb _ seen) eqn:Hseen.
  - apply elem_of_cons in Hv as [<-|Hv]; [|by apply IH].
    left. apply existsb_exists in Hseen as ([u|] & Hu & Eu); [|discriminate].
    exists u. split; [by apply list_elem_of_In | exact Eu].
  - apply elem_of_cons in Hv as [<-|Hv].
    + right. exists v. split; [left | apply value_eqb_refl].
    + destruct (IH (c :: seen) Hv) as [(u & Hu & Eu)|(u & Hu & Eu)].
      * apply elem_of_cons in Hu as [<-|Hu].
        -- right. exists u. split; [left | exact Eu].
        -- left. eauto.
      * right. exists u. split; [by right | exact Eu].
Qed.

Lemma elem_of_dropna v (s : series) : v ∈ Pandas.dropna s <-> Some v ∈ s.
Proof.
  unfold Pandas.dropna. rewrite list_elem_of_omap. split.
  - intros (x & Hx & E). cbn in E. by subst.
  - intros Hv. by exists (Some v).
Qed.

Lemma elem_of_rare_categories min_count s u :
  u ∈ rare_categories min_count s <->
  Some u ∈ Pandas.unique s /\ (Z.of_nat (rows_of u s) < min_count)%Z.
Proof.
  unfold rare_categories, value_counts. rewrite list_elem_of_fmap. split.
  - intros ([w n] & -> & Hin). apply list_elem_of_In, filter_In in Hin as (Hin & Hlt).
    apply list_elem_of_In, list_elem_of_fmap in Hin as (w' & [= -> ->] & Hw).
    cbn in *. apply elem_of_dropna in Hw. split; [exact Hw|].
    by apply Z.ltb_lt in Hlt.
  - intros (Hu & Hlt). exists (u, rows_of u s). split; [reflexivity|].
    apply list_elem_of_In, filter_In. split.
    + apply list_elem_of_In, list_elem_of_fmap. exists u. split; [reflexivity|].
      by apply elem_of_dropna.
    + cbn. by apply Z.ltb_lt.
Qed.

(** The membership test of the two functions: a cell is in the rare index
    exactly when its value has a row, and fewer than [min_count] of them. *)
Lemma isin_rare min_count s v :
  isin (rare_categories min_count s) (Some v)
  = (0 <? rows_of v s)%nat && (Z.of_nat (rows_of v s) <? min_count)%Z.
Proof.
  apply Bool.eq_iff_eq_true. cbn [isin].
  rewrite existsb_exists, andb_true_iff, Nat.ltb_lt, Z.ltb_lt. split.
  - intros (u & Hu & Eu). apply list_elem_of_In, elem_of_rare_categories in Hu as (Hu & Hlt).
    rewrite (rows_of_congr v u s Eu). split; [|exact Hlt].
    apply rows_of_member. by eapply unique_from_sound.
  - intros (Hpos & Hlt). apply rows_of_positive in Hpos as (w & Hw & Ew).
    destruct (unique_from_complete [] s w Hw) as [(u & Hu & _)|(u & Hu & Eu)];
      [by apply elem_of_nil in Hu|].
    assert (Evu : Pandas.value_eqb v u = true)
      by (by rewrite (value_eqb_congr v w u Ew)).
    exists u. split; [|exact Evu].
    apply list_elem_of_In, elem_of_rare_categories. split; [exact Hu|].
    by rewrite <- (rows_of_congr v u s Evu).
Qed.

Lemma isin_rare_congr min_count s u v :
  Pandas.value_eqb u v = true ->
  isin (rare_categories min_count s) (Some u)
  = isin (rare_categories min_count s) (Some v).
Proof. intros E. by rewrite !isin_rare, (rows_of_congr u v s E). Qed.

Lemma isin_rare_false min_count s v :
  Some v ∈ s ->
  isin (rare_categories min_count s) (Some v) = false ->
  (min_count <= Z.of_nat (rows_of v s))%Z.
Proof.
  intros Hv. rewrite isin_rare. apply rows_of_member in Hv.
  intros [Hz|Hm]%andb_false_iff.
  - apply Nat.ltb_ge in Hz. lia.
  - by apply Z.ltb_ge in Hm.
Qed.

Lemma rows_of_map f v s :
  (forall y, y ∈ s -> Pandas.cell_eqb (Some v) (f y) = Pandas.cell_eqb (Some v) y) ->
  rows_of v (map f s) = rows_of v s.
Proof.
  induction s as [|y s IH]; intros Hf; [reflexivity|].
  cbn [map]. rewrite !rows_of_cons, Hf by left.
  rewrite IH; [reflexivity|]. intros z Hz. apply Hf. by right.
Qed.

Lemma rows_of_filter (p : option value -> bool) v s :
  (forall y, y ∈ s -> Pandas.cell_eqb (Some v) y = true -> p y = true) ->
  rows_of v (List.filter p s) = rows_of v s.
Proof.
  induction s as [|y s IH]; intros Hp; [reflexivity|].
  assert (IH' : rows_of v (List.filter p s) = rows_of v s)
    by (apply IH; intros z Hz; apply Hp; by right).
  cbn [List.filter]. destruct (p y) eqn:Hy.
  - by rewrite !rows_of_cons, IH'.
  - rewrite rows_of_cons, IH'.
    destruct (Pandas.cell_eqb (Some v) y) eqn:E; [|reflexivity].
    rewrite (Hp y) in Hy by (left || done). discriminate.
Qed.

Lemma select_map_filter {A} (p : A -> bool) (s : list A) :
  Pandas.select (map p s) s = List.filter p s.
Proof.
  induction s as [|x s IH]; [reflexivity|]. cbn. by destruct (p x); rewrite IH.
Qed.

Lemma elem_of_filter_list {A} (p : A -> bool) (s : list A) x :
  x ∈ List.filter p s <-> x ∈ s /\ p x = true.
Proof. by rewrite !list_elem_of_In, filter_In. Qed.

Lemma grouped_frequent min_count group_name s :
  no_rare_category min_count (Some (VStr group_name))
    (grouped min_count group_name s).
Proof.
  intros v Hv Hname. unfold grouped in *.
  apply list_elem_of_fmap in Hv as (x & Hx & Hin).
  destruct (isin (rare_categories min_count s) x) eqn:Hrare; [congruence|].
  subst x. rewrite rows_of_map; [by apply isin_rare_false|].
  intros [u|] Hu; [|reflexivity].
  destruct (isin (rare_categories min_count s) (Some u)) eqn:Hu_rare;
    [|reflexivity].
  cbn [Pandas.cell_eqb].
  assert (Pandas.value_eqb v (VStr group_name) = false) as ->.
  { destruct (Pandas.value_eqb v (VStr group_name)) eqn:E; [|reflexivity].
    apply value_eqb_str in E. congruence. }
  destruct (Pandas.value_eqb v u) eqn:E; [|reflexivity].
  rewrite <- (isin_rare_congr min_count s v u E) in Hu_rare. congruence.
Qed.

Lemma grouped_fixpoint min_count group_name s :
  grouped min_count group_name (grouped min_count group_name s)
  = grouped min_count group_name s.
Proof.
  set (s' := grouped min_count group_name s).
  unfold grouped at 1. fold s'.
  transitivity (map id s'); [|apply map_id]. apply map_ext_in. intros x Hx%list_elem_of_In.
  destruct (isin (rare_categories min_count s') x) eqn:Hrare; [|reflexivity].
  destruct x as [v|]; [|discriminate].
  destruct (Pandas.value_eqb v (VStr group_name)) eqn:E;
    [by rewrite (value_eqb_str _ _ E)|].
  assert (Hne : Some v <> Some (VStr group_name)).
  { intros [= ->]. by rewrite value_eqb_refl in E. }
  pose proof (grouped_frequent min_count group_name s v Hx Hne) as Hfreq.
  fold s' in Hfreq. rewrite isin_rare in Hrare.
  apply andb_true_iff in Hrare as (_ & Hlt%Z.ltb_lt). lia.
Qed.

Lemma group_rare_categories_lookup column min_count group_name (d : frame) s :
  d !! column = Some s ->
  group_rare_categories column min_count group_name d
  = <[column := grouped min_count group_name s]> d.
Proof. intros Hs. unfold group_rare_categories. by rewrite Hs. Qed.

Lemma group_rare_categories_other column min_count group_name (d : frame) c :
  c <> column ->
  group_rare_categories column min_count group_name d !! c = d !! c.
Proof.
  intros Hc. unfold group_rare_categories.
  destruct (d !! column); [|reflexivity]. by rewrite lookup_insert_ne.
Qed.

(** X12.  [group_rare_categories] returns the frame as it is when the
    column is absent.  Otherwise only that column changes: it keeps its
    length, each cell keeps its value or becomes the group name, a missing
    cell stays missing, and afterwards no category other than the group
    name has fewer than [min_count] rows. *)
Theorem group_rare_categories_leaves_no_rare_category
  column min_count group_name (d : frame) :
  match d !! column with
  | None => group_rare_categories column min_count group_name d = d
  | Some s =>
      exists s',
        group_rare_categories column min_count group_name d !! column = Some s' /\
        length s' = length s /\
        (forall i x, s' !! i = Some x ->
                     s !! i = Some x \/
                     x = Some (VStr group_name) /\ exists v, s !! i = Some (Some v)) /\
        no_rare_category min_count (Some (VStr group_name)) s' /\
        (forall c, c <> column ->
                   group_rare_categories column min_count group_name d !! c
                   = d !! c)
  end.
Proof.
  destruct (d !! column) as [s|] eqn:Hs.
  - exists (grouped min_count group_name s).
    rewrite (group_rare_categories_lookup _ _ _ _ _ Hs), lookup_insert_eq.
    split; [reflexivity|]. split; [apply length_map|].
    split; [|split; [apply grouped_frequent|]].
    + intros i x Hx. unfold grouped in Hx.
      apply list_lookup_fmap_Some in Hx as (y & -> & Hy).
      destruct y as [v|]; [|left; exact Hy].
      destruct (isin _ (Some v)); [right; eauto | left; exact Hy].
    + intros c Hc. by rewrite lookup_insert_ne.
  - unfold group_rare_categories. by rewrite Hs.
Qed.

(** X13.  Grouping is idempotent: a second call of [group_rare_categories]
    with the same column, threshold and group name changes nothing, also
    when the group itself has fewer than [min_count] rows. *)
Theorem group_rare_categories_idempotent column min_count group_name (d : frame) :
  group_rare_categories column min_count group_name
    (group_rare_categories column min_count group_name d)
  = group_rare_categories column min_count group_name d.
Proof.
  destruct (d !! column) as [s|] eqn:Hs.
  - rewrite (group_rare_categories_lookup _ _ _ d s Hs).
    rewrite (group_rare_categories_lookup _ _ _ _ (grouped min_count group_name s))
      by apply lookup_insert_eq.
    by rewrite grouped_fixpoint, insert_insert_eq.
  - unfold group_rare_categories at 2. rewrite Hs.
    unfold group_rare_categories. by rewrite Hs.
Qed.

Lemma remove_rare_categories_lookup column min_count (d : frame) s :
  d !! column = Some s ->
  remove_rare_categories column min_count d
  = match s with
    | [] => Raise ZeroDivisionError
    | _ :: _ => Ok (Pandas.select (kept_rows min_count s) <$> d)
    end.
Proof.
  intros Hs. unfold remove_rare_categories. rewrite Hs. by destruct s.
Qed.

Lemma remove_rare_categories_inv column min_count (d d1 : frame) :
  remove_rare_categories column min_count d = Ok d1 ->
  match d !! column with
  | None => d1 = d
  | Some s => s <> [] /\ d1 = Pandas.select (kept_rows min_count s) <$> d
  end.
Proof.
  destruct (d !! column) as [s|] eqn:Hs.
  - rewrite (remove_rare_categories_lookup _ _ _ _ Hs).
    destruct s; [discriminate|]. by intros [= <-].
  - unfold remove_rare_categories. rewrite Hs. by intros [= <-].
Qed.

Lemma kept_rows_frequent min_count s :
  no_rare_category min_count None
    (Pandas.select (kept_rows min_count s) s).
Proof.
  unfold kept_rows. rewrite select_map_filter. intros v Hv _.
  apply elem_of_filter_list in Hv as (Hv & Hkeep).
  apply negb_true_iff in Hkeep.
  rewrite rows_of_filter; [by apply isin_rare_false|].
  intros [u|] Hu E; [|discriminate]. cbn [Pandas.cell_eqb] in E.
  by rewrite <- (isin_rare_congr min_count s v u E), Hkeep.
Qed.

Lemma select_all {A} (mask : list bool) (t : list A) :
  Forall (fun b => b = true) mask -> (length t <= length mask)%nat ->
  Pandas.select mask t = t.
Proof.
  intros Hall. revert t. induction Hall as [|b mask -> _ IH]; intros [|x t] Hlen;
    cbn in *; try reflexivity; [lia|]. rewrite IH; [reflexivity | lia].
Qed.

Lemma select_length {A B} (mask : list bool) (s : list A) (t : list B) :
  length mask = length s ->
  (length (Pandas.select mask t) <= length (Pandas.select mask s))%nat.
Proof.
  revert s t. induction mask as [|b mask IH]; intros [|x s] [|y t] Hlen;
    cbn in *; try lia; try discriminate.
  - destruct b; cbn; lia.
  - injection Hlen as Hlen. specialize (IH s t Hlen). destruct b; cbn; lia.
Qed.

Lemma kept_rows_all min_count s :
  no_rare_category min_count None s ->
  Forall (fun b => b = true) (kept_rows min_count s).
Proof.
  intros Hfreq. unfold kept_rows. apply Forall_forall.
  intros b Hb. apply list_elem_of_fmap in Hb as ([v|] & -> & Hx);
    [|reflexivity].
  apply negb_true_iff. rewrite isin_rare. apply andb_false_iff. right.
  apply Z.ltb_ge. by apply Hfreq.
Qed.

(** X14.  [remove_rare_categories] returns the frame as it is when the
    column is absent, and raises [ZeroDivisionError] when the column is
    there and the frame has no row.  Otherwise it returns, and cuts every
    column with one mask, which keeps a row exactly when its cell is missing
    or its category has at least [min_count] rows; afterwards no category of
    the column has fewer than [min_count] rows. *)
Theorem remove_rare_categories_leaves_no_rare_category
  column min_count (d : frame) :
  match d !! column with
  | None => remove_rare_categories column min_count d = Ok d
  | Some [] => remove_rare_categories column min_count d = Raise ZeroDivisionError
  | Some s =>
      exists mask d',
        remove_rare_categories column min_count d = Ok d' /\
        length mask = length s /\
        (forall i x, s !! i = Some x ->
           mask !! i = Some (match x with
                             | Some v => (min_count <=? Z.of_nat (rows_of v s))%Z
                             | None => true
                             end)) /\
        (forall c, d' !! c = Pandas.select mask <$> d !! c) /\
        no_rare_category min_count None (Pandas.select mask s)
  end.
Proof.
  destruct (d !! column) as [s|] eqn:Hs.
  - rewrite (remove_rare_categories_lookup _ _ _ _ Hs).
    destruct s as [|x0 s0] eqn:Es; [reflexivity|]. rewrite <- Es.
    exists (kept_rows min_count s), (Pandas.select (kept_rows min_count s) <$> d).
    split; [reflexivity|].
    split; [apply length_map|]. split; [|split].
    + intros i x Hx. unfold kept_rows. rewrite list_lookup_fmap, Hx. cbn.
      f_equal. destruct x as [v|]; [|reflexivity].
      rewrite isin_rare, (proj2 (Nat.ltb_lt _ _)), Z.leb_antisym; [reflexivity|].
      apply rows_of_member. by eapply list_elem_of_lookup_2.
    + intros c. by rewrite lookup_fmap.
    + apply kept_rows_frequent.
  - unfold remove_rare_categories. by rewrite Hs.
Qed.

Lemma remove_rare_categories_fixpoint column min_count (d : frame) s :
  d !! column = Some s ->
  Pandas.select (kept_rows min_count (Pandas.select (kept_rows min_count s) s))
    <$> (Pandas.select (kept_rows min_count s) <$> d)
  = Pandas.select (kept_rows min_count s) <$> d.
Proof.
  intros Hs. set (mask := kept_rows min_count s).
  apply map_eq. intros c. rewrite !lookup_fmap.
  destruct (d !! c) as [t|]; [|reflexivity]. cbn. f_equal.
  apply select_all.
  - apply kept_rows_all, kept_rows_frequent.
  - unfold kept_rows at 1. rewrite length_map.
    apply select_length. apply length_map.
Qed.

(** X15.  A second call of [remove_rare_categories], with the same column
    and threshold on the frame that the first call returned, removes no row
    and returns that frame again; unless the first call left the column
    without a row (every category was rare), where the second call raises
    [ZeroDivisionError]. *)
Theorem remove_rare_categories_twice column min_count (d d1 : frame) :
  remove_rare_categories column min_count d = Ok d1 ->
  remove_rare_categories column min_count d1
  = match d1 !! column with
    | Some [] => Raise ZeroDivisionError
    | _ => Ok d1
    end.
Proof.
  intros Hrun. apply remove_rare_categories_inv in Hrun.
  destruct (d !! column) as [s|] eqn:Hs.
  - destruct Hrun as (_ & ->).
    assert (Hs1 : (Pandas.select (kept_rows min_count s) <$> d) !! column
                  = Some (Pandas.select (kept_rows min_count s) s))
      by (by rewrite lookup_fmap, Hs).
    rewrite Hs1, (remove_rare_categories_lookup _ _ _ _ Hs1).
    rewrite (remove_rare_categories_fixpoint column min_count d s Hs).
    by destruct (Pandas.select (kept_rows min_count s) s).
  - subst d1. rewrite Hs. unfold remove_rare_categories. by rewrite Hs.
Qed.

Lemma remove_rare_categories_twice_witness :
  remove_rare_categories "new_city" 10
    (from_outcome ∅ (remove_rare_categories "new_city" 10 city_frame))
  = Ok (from_outcome ∅ (remove_rare_categories "new_city" 10 city_frame)) /\
  remove_rare_categories "new_city" 20
    (from_outcome ∅ (remove_rare_categories "new_city" 20 city_frame))
  = Raise ZeroDivisionError.
Proof.
  split.
  - rewrite (remove_rare_categories_twice "new_city" 10 city_frame _
               (outcome_of_is_ok
                  (remove_rare_categories "new_city" 10 city_frame) ∅
                  ltac:(vm_compute; reflexivity))).
    vm_compute. reflexivity.
  - rewrite (remove_rare_categories_twice "new_city" 20 city_frame _
               (outcome_of_is_ok
                  (remove_rare_categories "new_city" 20 city_frame) ∅
                  ltac:(vm_compute; reflexivity))).
    vm_compute. reflexivity.
Defined.


(** ** [create_interaction_features] and [enhanced_preprocessing] *)

Ltac split_notin H :=
  repeat (let Hne := fresh "Hne" in apply not_elem_of_cons in H as (Hne & H)).

Ltac solve_notin :=
  cbn; repeat (apply not_elem_of_cons; split; [assumption|]); apply not_elem_of_nil.

Lemma create_interaction_features_other (d d' : frame) c :
  create_interaction_features d = Ok d' ->
  c ∉ INTERACTION_COLUMNS -> d' !! c = d !! c.
Proof.
  unfold create_interaction_features, INTERACTION_COLUMNS. intros Hp Hc.
  cbn [map snd MAJOR_CITIES app] in Hc. split_notin Hc.
  apply outcome_bind_inv in Hp as (d1 & H1 & Hp).
  apply outcome_bind_inv in Hp as (d2 & H2 & Hp).
  apply outcome_bind_inv in Hp as (d3 & H3 & Hp).
  apply outcome_bind_inv in Hp as (d4 & H4 & Hp).
  apply outcome_bind_inv in Hp as (d5 & H5 & H6).
  rewrite (access_quality_feature_other _ _ c H6) by assumption.
  rewrite (room_density_feature_other _ _ c H5) by assumption.
  rewrite (city_area_features_other _ _ c H4) by solve_notin.
  rewrite (luxury_score_feature_other _ _ c H3) by assumption.
  rewrite (room_interactions_other _ _ c H2) by solve_notin.
  rewrite (area_interactions_other _ _ c H1) by solve_notin.
  reflexivity.
Qed.

Lemma is_numeric_cons x s :
  Pandas.is_numeric (x :: s) = true <->
  (forall t, x <> Some (VStr t)) /\ Pandas.is_numeric s = true.
Proof.
  unfold Pandas.is_numeric. cbn [forallb]. rewrite andb_true_iff.
  split; intros (Hx & Hs); (split; [|exact Hs]).
  - intros t ->. discriminate Hx.
  - destruct x as [[q|t]|]; try reflexivity. by destruct (Hx t).
Qed.

Lemma zip_lift2_total f s t :
  Pandas.is_numeric s = true -> Pandas.is_numeric t = true ->
  exists r, Pandas.zip_with_outcome (Pandas.lift2 f) s t = Ok r /\
            Pandas.is_numeric r = true.
Proof.
  revert t. induction s as [|x s IH]; intros [|y t] Hs Ht;
    try (by exists []).
  apply is_numeric_cons in Hs as (Hx & Hs). apply is_numeric_cons in Ht as (Hy & Ht).
  destruct (IH t Hs Ht) as (r & Hr & Hnum). cbn [Pandas.zip_with_outcome].
  destruct x as [[p|a]|]; [|by destruct (Hx a)|];
    (destruct y as [[q|b]|]; [|by destruct (Hy b)|]);
    cbn [Pandas.lift2]; rewrite Hr; eexists; (split; [reflexivity|]);
    by apply is_numeric_cons.
Qed.

Lemma compare_int_total test s :
  Pandas.is_numeric s = true ->
  exists r, Pandas.compare_int test s = Ok r /\ Pandas.is_numeric r = true.
Proof.
  unfold Pandas.compare_int. induction s as [|x s IH]; intros Hs;
    [by exists []|].
  apply is_numeric_cons in Hs as (Hx & Hs). destruct (IH Hs) as (r & Hr & Hnum).
  cbn [Pandas.map_outcome].
  destruct x as [[p|a]|]; [|by destruct (Hx a)|];
    rewrite Hr; eexists; (split; [reflexivity|]); by apply is_numeric_cons.
Qed.

Lemma is_numeric_eq_int v s : Pandas.is_numeric (Pandas.eq_int v s) = true.
Proof.
  induction s as [|x s IH]; [reflexivity|]. cbn [Pandas.eq_int map].
  by apply is_numeric_cons.
Qed.

Lemma is_numeric_replace_0_1 s :
  Pandas.is_numeric s = true -> Pandas.is_numeric (Pandas.replace_0_1 s) = true.
Proof.
  induction s as [|x s IH]; [intros _; reflexivity|].
  intros (Hx & Hs)%is_numeric_cons. cbn [Pandas.replace_0_1 map]. apply is_numeric_cons. split; [|by apply IH].
  destruct x as [[p|a]|]; [|by destruct (Hx a)|done].
  by destruct (Qeq_bool p 0).
Qed.

Lemma is_numeric_select mask s :
  Pandas.is_numeric s = true -> Pandas.is_numeric (Pandas.select mask s) = true.
Proof.
  revert s. induction mask as [|b mask IH]; intros [|x s];
    try (intros _; reflexivity); [by destruct b|].
  intros (Hx & Hs)%is_numeric_cons. cbn [Pandas.select].
  destruct b; [apply is_numeric_cons; split; [exact Hx|] |]; by apply IH.
Qed.

Lemma numeric_inputs_ok_other (d d' : frame) :
  (forall c, c ∈ NUMERIC_INPUTS -> d' !! c = d !! c) ->
  numeric_inputs_ok d -> numeric_inputs_ok d'.
Proof. intros Hsame Hd c s Hc Hs. apply (Hd c s Hc). by rewrite <- Hsame. Qed.

Lemma getitem_numeric (d : frame) c :
  numeric_inputs_ok d -> bool_decide (c ∈ NUMERIC_INPUTS) = true ->
  has_column d c = true ->
  exists s, getitem d c = Ok s /\ Pandas.is_numeric s = true.
Proof.
  intros Hd Hc%bool_decide_eq_true_1 [s Hs]%bool_decide_eq_true_1.
  exists s. unfold getitem. rewrite Hs. split; [reflexivity|]. by eapply Hd.
Qed.

Lemma block_ok_bind (b1 b2 : frame -> outcome frame) :
  block_ok b1 -> block_ok b2 -> block_ok (fun d => d1 ← b1 d; b2 d1).
Proof.
  intros H1 H2 d Hd. destruct (H1 d Hd) as (d1 & -> & Hd1). by apply H2.
Qed.

Lemma product_feature_ok name l r :
  bool_decide (name ∉ NUMERIC_INPUTS) = true ->
  bool_decide (l ∈ NUMERIC_INPUTS) = true ->
  bool_decide (r ∈ NUMERIC_INPUTS) = true ->
  block_ok (product_feature name l r).
Proof.
  intros Hname%bool_decide_eq_true_1 Hl Hr d Hd. unfold product_feature.
  destruct (has_column d l) eqn:El; [|by exists d].
  destruct (has_column d r) eqn:Er; [|by exists d]. cbn [andb].
  destruct (getitem_numeric d l Hd Hl El) as (s & -> & Hs).
  destruct (getitem_numeric d r Hd Hr Er) as (t & -> & Ht).
  destruct (zip_lift2_total Qmult s t Hs Ht) as (p & Hp & _).
  cbn [mbind outcome_bind]. unfold Pandas.mul. rewrite Hp.
  eexists. split; [reflexivity|].
  apply (numeric_inputs_ok_other d); [|exact Hd].
  intros c Hc. apply lookup_insert_ne. by intros <-.
Qed.

Ltac by_compute := vm_compute; reflexivity.

Ltac run_block H :=
  let d := fresh "d" in
  let Hd := fresh "Hd" in
  destruct H as (d & -> & Hd); cbn [mbind outcome_bind].

Lemma area_interactions_ok : block_ok area_interactions.
Proof.
  intros d Hd. unfold area_interactions.
  destruct (has_column d "Area"); [|by exists d].
  run_block (product_feature_ok "area_x_bathrooms" "Area" "Bathrooms"
               ltac:(by_compute) ltac:(by_compute) ltac:(by_compute) d Hd).
  run_block (product_feature_ok "area_x_bedrooms" "Area" "Bedrooms"
               ltac:(by_compute) ltac:(by_compute) ltac:(by_compute) d0 Hd0).
  by apply product_feature_ok.
Qed.

Lemma room_interactions_ok : block_ok room_interactions.
Proof.
  intros d Hd. unfold room_interactions.
  run_block (product_feature_ok "bedrooms_x_bathrooms" "Bedrooms" "Bathrooms"
               ltac:(by_compute) ltac:(by_compute) ltac:(by_compute) d Hd).
  by apply product_feature_ok.
Qed.

Lemma numeric_inputs_ok_insert (d : frame) name s :
  bool_decide (name ∉ NUMERIC_INPUTS) = true ->
  numeric_inputs_ok d -> numeric_inputs_ok (<[name := s]> d).
Proof.
  intros Hname%bool_decide_eq_true_1. apply numeric_inputs_ok_other.
  intros c Hc. apply lookup_insert_ne. by intros <-.
Qed.

Lemma luxury_score_feature_ok : block_ok luxury_score_feature.
Proof.
  intros d Hd. unfold luxury_score_feature. cbn [forallb].
  destruct (has_column d "Bathrooms") eqn:E1; [|by exists d].
  destruct (has_column d "Bedrooms") eqn:E2; [|by exists d].
  destruct (has_column d "Floors") eqn:E3; [|by exists d].
  destruct (has_column d "Area") eqn:E4; [|by exists d]. cbn [andb].
  destruct (getitem_numeric d "Bathrooms" Hd ltac:(by_compute) E1) as (s1 & -> & N1).
  destruct (getitem_numeric d "Bedrooms" Hd ltac:(by_compute) E2) as (s2 & -> & N2).
  destruct (getitem_numeric d "Floors" Hd ltac:(by_compute) E3) as (s3 & -> & N3).
  destruct (getitem_numeric d "Area" Hd ltac:(by_compute) E4) as (s4 & -> & N4).
  cbn [mbind outcome_bind].
  destruct (compare_int_total (fun q => Qle_bool 4 q) s1 N1) as (c1 & Hc1 & M1).
  destruct (compare_int_total (fun q => Qle_bool 5 q) s2 N2) as (c2 & Hc2 & M2).
  destruct (compare_int_total (fun q => Qle_bool 4 q) s3 N3) as (c3 & Hc3 & M3).
  destruct (compare_int_total (fun q => negb (Qle_bool q 140)) s4 N4)
    as (c4 & Hc4 & M4).
  unfold Pandas.ge_int, Pandas.gt_int. rewrite Hc1, Hc2, Hc3, Hc4.
  cbn [mbind outcome_bind]. unfold Pandas.add.
  destruct (zip_lift2_total Qplus c1 c2 M1 M2) as (s12 & -> & M12).
  cbn [mbind outcome_bind].
  destruct (zip_lift2_total Qplus s12 c3 M12 M3) as (s123 & -> & M123).
  cbn [mbind outcome_bind].
  destruct (zip_lift2_total Qplus s123 c4 M123 M4) as (s & -> & _).
  eexists. split; [reflexivity|]. by apply numeric_inputs_ok_insert.
Qed.

Lemma has_column_insert (d : frame) name s c :
  has_column d c = true -> has_column (<[name := s]> d) c = true.
Proof.
  unfold has_column. intros [t Ht]%bool_decide_eq_true_1.
  apply bool_decide_eq_true_2. destruct (decide (name = c)) as [->|Hne].
  - rewrite lookup_insert_eq. eauto.
  - rewrite lookup_insert_ne by done. eauto.
Qed.

Lemma city_area_loop_ok (cities : list (string * string)) (d : frame) :
  Forall (fun city_col => city_col.2 ∉ NUMERIC_INPUTS) cities ->
  has_column d "new_city" = true -> has_column d "Area" = true ->
  numeric_inputs_ok d ->
  exists d',
    foldl (fun acc city_col => d ← acc; city_area_feature city_col d)
          (Ok d) cities = Ok d' /\
    numeric_inputs_ok d'.
Proof.
  intros Hcities. revert d.
  induction Hcities as [|city_col cities Hname _ IH]; intros d Hcity Harea Hd;
    [by exists d|].
  cbn [foldl mbind outcome_bind]. unfold city_area_feature at 2.
  destruct (getitem_numeric d "Area" Hd ltac:(by_compute) Harea) as (area & -> & Na).
  pose proof Hcity as [new_city Hnc]%bool_decide_eq_true_1.
  unfold getitem at 1. rewrite Hnc. cbn [mbind outcome_bind]. unfold Pandas.mul.
  destruct (zip_lift2_total Qmult area
              (Pandas.eq_int (VStr city_col.1) new_city) Na
              (is_numeric_eq_int _ _)) as (s & -> & _).
  apply IH; try by apply has_column_insert.
  apply numeric_inputs_ok_insert; [|exact Hd]. by apply bool_decide_eq_true_2.
Qed.

Lemma city_area_features_ok : block_ok city_area_features.
Proof.
  intros d Hd. unfold city_area_features.
  destruct (has_column d "new_city") eqn:E1; [|by exists d].
  destruct (has_column d "Area") eqn:E2; [|by exists d]. cbn [andb].
  apply city_area_loop_ok; try done.
  apply (bool_decide_unpack _). by_compute.
Qed.

Lemma room_density_feature_ok : block_ok room_density_feature.
Proof.
  intros d Hd. unfold room_density_feature.
  destruct (has_column d "Area") eqn:E1; [|by exists d].
  destruct (has_column d "new_total_rooms") eqn:E2; [|by exists d]. cbn [andb].
  destruct (getitem_numeric d "new_total_rooms" Hd ltac:(by_compute) E2)
    as (rooms & -> & Nr).
  destruct (getitem_numeric d "Area" Hd ltac:(by_compute) E1) as (area & -> & Na).
  cbn [mbind outcome_bind]. unfold Pandas.div.
  destruct (zip_lift2_total Qdiv rooms (Pandas.replace_0_1 area) Nr
              (is_numeric_replace_0_1 _ Na)) as (s & -> & _).
  eexists. split; [reflexivity|]. by apply numeric_inputs_ok_insert.
Qed.

Lemma access_quality_feature_ok : block_ok access_quality_feature.
Proof.
  intros d Hd. unfold access_quality_feature.
  destruct (has_column d "Access Road") eqn:E1; [|by exists d].
  destruct (has_column d "Frontage") eqn:E2; [|by exists d]. cbn [andb].
  destruct (getitem_numeric d "Access Road" Hd ltac:(by_compute) E1)
    as (road & -> & Nr).
  destruct (getitem_numeric d "Frontage" Hd ltac:(by_compute) E2)
    as (frontage & -> & Nf).
  cbn [mbind outcome_bind].
  destruct (compare_int_total (fun q => negb (Qle_bool q 0)) road Nr)
    as (a & Ha & Ma).
  destruct (compare_int_total (fun q => negb (Qle_bool q 0)) frontage Nf)
    as (f & Hf & Mf).
  unfold Pandas.gt_int. rewrite Ha, Hf. cbn [mbind outcome_bind].
  unfold Pandas.add. destruct (zip_lift2_total Qplus a f Ma Mf) as (s & -> & _).
  eexists. split; [reflexivity|]. by apply numeric_inputs_ok_insert.
Qed.

Lemma create_interaction_features_ok : block_ok create_interaction_features.
Proof.
  intros d Hd. unfold create_interaction_features.
  run_block (area_interactions_ok d Hd).
  run_block (room_interactions_ok d0 Hd0).
  run_block (luxury_score_feature_ok d1 Hd1).
  run_block (city_area_features_ok d2 Hd2).
  run_block (room_density_feature_ok d3 Hd3).
  apply access_quality_feature_ok, Hd4.
Qed.

Lemma interaction_features_run_through (d : frame) :
  numeric_inputs_ok d -> exists d', create_interaction_features d = Ok d'.
Proof.
  intros Hd. destruct (create_interaction_features_ok d Hd) as (d' & Hd' & _).
  by exists d'.
Qed.

Lemma numeric_inputs_ok_by_computation (d : frame) :
  forallb (fun c => match d !! c with
                    | Some s => Pandas.is_numeric s
                    | None => true
                    end) NUMERIC_INPUTS = true ->
  numeric_inputs_ok d.
Proof.
  intros Hall c s Hc Hs. rewrite forallb_forall in Hall.
  specialize (Hall c (proj1 (list_elem_of_In _ _) Hc)). by rewrite Hs in Hall.
Qed.

(** X16.  [create_interaction_features] raises nothing on a frame whose
    numeric inputs (Area, Bathrooms, Bedrooms, Floors, new_total_rooms,
    Access Road, Frontage, as far as present) hold no string, whichever of
    them are missing; every column other than the twelve it writes is in
    the result as it was. *)
Theorem create_interaction_features_total_on_numbers (d : frame) :
  numeric_inputs_ok d ->
  exists d',
    create_interaction_features d = Ok d' /\
    forall c, c ∉ INTERACTION_COLUMNS -> d' !! c = d !! c.
Proof.
  intros Hd. destruct (create_interaction_features_ok d Hd) as (d' & Hd' & _).
  exists d'. split; [exact Hd'|]. intros c. by apply create_interaction_features_other.
Qed.

Lemma create_interaction_features_total_on_numbers_witness :
  exists d',
    create_interaction_features city_frame = Ok d' /\
    d' !! "new_district" = city_frame !! "new_district".
Proof.
  destruct (create_interaction_features_total_on_numbers city_frame)
    as (d' & Hd' & Hother).
  - apply numeric_inputs_ok_by_computation. vm_compute. reflexivity.
  - exists d'. split; [exact Hd'|]. apply Hother. by_computation.
Defined.

Lemma enhanced_preprocessing_inv config (d d' : frame) :
  enhanced_preprocessing config d = Ok d' ->
  exists d1,
    (if has_column d "new_city"
     then remove_rare_categories "new_city" 10 d else Ok d) = Ok d1 /\
    let threshold := default 100 (rare_threshold config) in
    let d2 := if has_column d1 "new_district"
              then group_rare_categories "new_district" threshold "Other" d1
              else d1 in
    let d3 := if has_column d2 "new_street_ward"
              then group_rare_categories "new_street_ward" threshold "Other" d2
              else d2 in
    forall c, c ∉ INTERACTION_COLUMNS -> d' !! c = d3 !! c.
Proof.
  unfold enhanced_preprocessing. cbv zeta. intros Hrun.
  apply outcome_bind_inv in Hrun as (d1 & Hd1 & Hrun).
  exists d1. split; [exact Hd1|]. intros c Hc.
  destruct (default true (interactions_enabled config)).
  - by apply create_interaction_features_other.
  - by injection Hrun as <-.
Qed.

Lemma group_if_present_other column min_count group_name (d : frame) c :
  c <> column ->
  (if has_column d column
   then group_rare_categories column min_count group_name d else d) !! c
  = d !! c.
Proof.
  intros Hc. destruct (has_column d column); [|reflexivity].
  by apply group_rare_categories_other.
Qed.

Lemma group_if_present_frequent column min_count group_name (d : frame) s :
  (if has_column d column
   then group_rare_categories column min_count group_name d else d) !! column
  = Some s ->
  no_rare_category min_count (Some (VStr group_name)) s.
Proof.
  unfold has_column. destruct (d !! column) as [s0|] eqn:Hs0.
  - rewrite bool_decide_eq_true_2 by eauto.
    rewrite (group_rare_categories_lookup _ _ _ _ _ Hs0), lookup_insert_eq.
    intros [= <-]. apply grouped_frequent.
  - rewrite bool_decide_eq_false_2 by (by intros [? ?]). by rewrite Hs0.
Qed.

(** X17.  After [enhanced_preprocessing] no city has fewer than ten
    listings, and no district and no street-or-ward other than Other has
    fewer listings than the rare threshold of the configuration (100 when
    absent); the counts are those of the returned frame. *)
Theorem enhanced_preprocessing_leaves_no_rare_category config (d d' : frame) :
  enhanced_preprocessing config d = Ok d' ->
  (forall s, d' !! "new_city" = Some s -> no_rare_category 10 None s) /\
  (forall c s, c = "new_district" \/ c = "new_street_ward" ->
               d' !! c = Some s ->
               no_rare_category (default 100 (rare_threshold config))
                 (Some (VStr "Other")) s).
Proof.
  intros Hrun.
  destruct (enhanced_preprocessing_inv _ _ _ Hrun) as (d1 & Hd1 & Hsame).
  cbv zeta in Hsame. split.
  - intros s. rewrite Hsame by by_computation.
    rewrite !group_if_present_other by done.
    revert Hd1. unfold has_column.
    destruct (d !! "new_city") as [s0|] eqn:Hs0.
    + rewrite bool_decide_eq_true_2 by eauto. intros Hd1.
      apply remove_rare_categories_inv in Hd1. rewrite Hs0 in Hd1.
      destruct Hd1 as (_ & ->). rewrite lookup_fmap, Hs0.
      intros [= <-]. apply kept_rows_frequent.
    + rewrite bool_decide_eq_false_2 by (by intros [? ?]).
      intros [= <-]. by rewrite Hs0.
  - intros c s [-> | ->]; rewrite Hsame by by_computation.
    + rewrite group_if_present_other by done. apply group_if_present_frequent.
    + apply group_if_present_frequent.
Qed.

Lemma enhanced_preprocessing_leaves_no_rare_category_witness :
  exists s,
    from_outcome ∅ (enhanced_preprocessing small_config city_frame)
      !! "new_district" = Some s /\
    no_rare_category 5 (Some (VStr "Other")) s.
Proof.
  pose proof (outcome_of_is_ok
                (enhanced_preprocessing small_config city_frame) ∅) as Hrun.
  destruct (enhanced_preprocessing_leaves_no_rare_category small_config
              city_frame _ (Hrun ltac:(by_compute))) as (_ & Hdistrict).
  eexists. split; [vm_compute; reflexivity|].
  apply (Hdistrict "new_district"); [by left|]. vm_compute. reflexivity.
Defined.

Lemma numeric_inputs_ok_fmap_select mask (d : frame) :
  numeric_inputs_ok d -> numeric_inputs_ok (Pandas.select mask <$> d).
Proof.
  intros Hd c s Hc. rewrite lookup_fmap. destruct (d !! c) as [t|] eqn:Ht;
    [|discriminate].
  intros [= <-]. apply is_numeric_select. by eapply Hd.
Qed.

Lemma numeric_inputs_ok_remove column min_count (d d1 : frame) :
  numeric_inputs_ok d ->
  remove_rare_categories column min_count d = Ok d1 ->
  numeric_inputs_ok d1.
Proof.
  intros Hd Hrun. apply remove_rare_categories_inv in Hrun.
  destruct (d !! column); [|by subst d1].
  destruct Hrun as (_ & ->). by apply numeric_inputs_ok_fmap_select.
Qed.

Lemma numeric_inputs_ok_group column min_count group_name (d : frame) :
  bool_decide (column ∉ NUMERIC_INPUTS) = true ->
  numeric_inputs_ok d ->
  numeric_inputs_ok (group_rare_categories column min_count group_name d).
Proof.
  intros Hcolumn Hd. unfold group_rare_categories.
  destruct (d !! column); [|exact Hd]. by apply numeric_inputs_ok_insert.
Qed.

Lemma enhanced_preprocessing_after_cities config (d d1 : frame) :
  (if has_column d "new_city"
   then remove_rare_categories "new_city" 10 d else Ok d) = Ok d1 ->
  numeric_inputs_ok d1 ->
  exists d', enhanced_preprocessing config d = Ok d'.
Proof.
  intros Hd1 Hok. unfold enhanced_preprocessing. cbv zeta. rewrite Hd1.
  cbn [mbind outcome_bind].
  destruct (default true (interactions_enabled config)); [|by eexists].
  apply interaction_features_run_through.
  repeat match goal with
         | |- numeric_inputs_ok (if ?b then _ else _) => destruct b
         | |- numeric_inputs_ok (group_rare_categories _ _ _ _) =>
             apply numeric_inputs_ok_group; [by_compute|]
         end; exact Hok.
Qed.

Lemma enhanced_preprocessing_runs config (d : frame) :
  numeric_inputs_ok d ->
  match d !! "new_city" with
  | Some [] => enhanced_preprocessing config d = Raise ZeroDivisionError
  | _ => exists d', enhanced_preprocessing config d = Ok d'
  end.
Proof.
  intros Hd. destruct (d !! "new_city") as [s|] eqn:Hs.
  - assert (Hhas : has_column d "new_city" = true)
      by (unfold has_column; apply bool_decide_eq_true_2; eauto).
    pose proof (remove_rare_categories_lookup "new_city" 10 d s Hs) as Hrun.
    destruct s as [|x s].
    + unfold enhanced_preprocessing. cbv zeta. by rewrite Hhas, Hrun.
    + eapply enhanced_preprocessing_after_cities.
      * rewrite Hhas. exact Hrun.
      * by apply numeric_inputs_ok_fmap_select.
  - eapply enhanced_preprocessing_after_cities; [|exact Hd].
    unfold has_column. rewrite bool_decide_eq_false_2; [reflexivity|].
    rewrite Hs. by intros [? ?].
Qed.

(** X18.  On a frame whose numeric inputs hold no string,
    [enhanced_preprocessing] returns a frame, whatever the configuration and
    whichever columns are missing; unless the frame has the new_city column
    and no row, where it raises [ZeroDivisionError] (in
    [remove_rare_categories]). *)
Theorem enhanced_preprocessing_on_numbers config (d : frame) :
  numeric_inputs_ok d ->
  match d !! "new_city" with
  | Some [] => enhanced_preprocessing config d = Raise ZeroDivisionError
  | _ => exists d', enhanced_preprocessing config d = Ok d'
  end.
Proof. apply enhanced_preprocessing_runs. Qed.

Lemma enhanced_preprocessing_on_numbers_witness :
  (exists d', enhanced_preprocessing small_config city_frame = Ok d') /\
  enhanced_preprocessing small_config {["new_city" := []]}
  = Raise ZeroDivisionError.
Proof.
  split.
  - apply (enhanced_preprocessing_on_numbers small_config city_frame).
    apply numeric_inputs_ok_by_computation. vm_compute. reflexivity.
  - pose proof (enhanced_preprocessing_on_numbers small_config
                  {["new_city" := []]}) as Hrun.
    assert (Hcity : ({["new_city" := []]} : frame) !! "new_city" = Some [])
      by (vm_compute; reflexivity).
    rewrite Hcity in Hrun. apply Hrun.
    apply numeric_inputs_ok_by_computation. vm_compute. reflexivity.
Defined.


(** ** Phase 3 of [split_and_encode]: label encoding *)

Lemma transform_fit y v :
  In v y ->
  exists k, transform (fit y) v = Ok (Z.of_nat k) /\
            classes_ (fit y) !! k = Some v.
Proof.
  intros Hv. unfold transform.
  destruct (index_of v (classes_ (fit y))) as [k|] eqn:Hk.
  - exists k. split; [reflexivity | by apply index_of_Some].
  - apply index_of_None in Hk. by apply in_classes_fit in Hv.
Qed.

Lemma map_outcome_total {A B} (f : A -> outcome B) (l : list A) :
  (forall a, In a l -> exists b, f a = Ok b) ->
  exists r, Pandas.map_outcome f l = Ok r.
Proof.
  induction l as [|a l IH]; intros Hall; [by exists []|].
  destruct (Hall a (or_introl eq_refl)) as (b & Hb).
  destruct IH as (r & Hr); [intros x Hx; apply Hall; by right|].
  exists (b :: r). cbn [Pandas.map_outcome]. by rewrite Hb, Hr.
Qed.

Lemma codes_series_length codes : length (codes_series codes) = length codes.
Proof. apply length_map. Qed.

Lemma lookup_map_astype (astype_str : option value -> string) (s : series) i cell :
  s !! i = Some cell -> map astype_str s !! i = Some (astype_str cell).
Proof.
  intros Hi. change (map astype_str s) with (astype_str <$> s).
  by rewrite list_lookup_fmap, Hi.
Qed.

Lemma label_encode_column_run (astype_str : option value -> string) col
  (X_train X_test : frame) (encoders : gmap string LabelEncoder)
  train_col test_col :
  X_train !! col = Some train_col -> X_test !! col = Some test_col ->
  let le := fit (map astype_str train_col) in
  exists train_codes test_codes,
    label_encode_column astype_str col (X_train, X_test, encoders)
    = Ok (<[col := codes_series train_codes]> X_train,
          <[col := codes_series test_codes]> X_test,
          <[col := le]> encoders) /\
    length train_codes = length train_col /\
    length test_codes = length test_col /\
    (forall i cell, train_col !! i = Some cell ->
       exists k, train_codes !! i = Some (Z.of_nat k) /\
                 classes_ le !! k = Some (astype_str cell)) /\
    (forall i cell, test_col !! i = Some cell ->
       (test_codes !! i = Some (-1) /\
        ~ In (astype_str cell) (map astype_str train_col)) \/
       (exists k, test_codes !! i = Some (Z.of_nat k) /\
                  classes_ le !! k = Some (astype_str cell))).
Proof.
  intros Htrain Htest le. unfold label_encode_column, getitem.
  rewrite Htrain, Htest. cbn [mbind outcome_bind]. fold le.
  destruct (map_outcome_total (transform le) (map astype_str train_col))
    as (train_codes & Hcodes).
  { intros v Hv. destruct (transform_fit _ v Hv) as (k & Hk & _). eauto. }
  destruct (map_outcome_total (encode_test_value le) (map astype_str test_col))
    as (test_codes & Henc).
  { intros v _. unfold encode_test_value, in_classes, transform.
    destruct (index_of v (classes_ le)); eauto. }
  rewrite Hcodes, Henc. exists train_codes, test_codes.
  split; [reflexivity|].
  split; [by rewrite (map_outcome_length _ _ _ Hcodes), length_map|].
  split; [by rewrite (map_outcome_length _ _ _ Henc), length_map|].
  split.
  - intros i cell Hi.
    destruct (map_outcome_lookup _ _ _ Hcodes i _
                (lookup_map_astype astype_str _ _ _ Hi)) as (z & Hz & Hiz).
    destruct (transform_fit (map astype_str train_col) (astype_str cell))
      as (k & Hk & Hclass).
    { apply in_map. by eapply list_elem_of_In, list_elem_of_lookup_2. }
    fold le in Hk, Hclass. exists k. split; [congruence | exact Hclass].
  - intros i cell Hi.
    destruct (map_outcome_lookup _ _ _ Henc i _
                (lookup_map_astype astype_str _ _ _ Hi)) as (z & Hz & Hiz).
    destruct (in_dec string_dec (astype_str cell) (map astype_str train_col))
      as [Hseen|Hunseen].
    + right. destruct (encode_test_value_seen le (astype_str cell))
        as (k & Hk & Hclass); [unfold le; by apply in_classes_fit|].
      exists k. split; [congruence | exact Hclass].
    + left. rewrite encode_test_value_unseen in Hz
        by (unfold le; by rewrite in_classes_fit).
      split; [congruence | exact Hunseen].
Qed.

(** X19.  One turn of the label-encoding loop, for a column of the training
    frame.  Without the column in the test frame it raises [KeyError].
    Otherwise it returns: both columns are replaced by codes, one per
    row; the code of a training row is the position of its label among the
    classes of the stored encoder, so decoding gives the label back; the
    code of a test row is -1 when its label is not a training label and
    the position of the label otherwise. *)
Theorem label_encode_column_round_trip (astype_str : option value -> string)
  col (X_train X_test : frame) (encoders : gmap string LabelEncoder) train_col :
  X_train !! col = Some train_col ->
  match X_test !! col with
  | None =>
      label_encode_column astype_str col (X_train, X_test, encoders)
      = Raise KeyError
  | Some test_col =>
      let le := fit (map astype_str train_col) in
      exists train_codes test_codes,
        label_encode_column astype_str col (X_train, X_test, encoders)
        = Ok (<[col := codes_series train_codes]> X_train,
              <[col := codes_series test_codes]> X_test,
              <[col := le]> encoders) /\
        length train_codes = length train_col /\
        length test_codes = length test_col /\
        (forall i cell, train_col !! i = Some cell ->
           exists k, train_codes !! i = Some (Z.of_nat k) /\
                     classes_ le !! k = Some (astype_str cell)) /\
        (forall i cell, test_col !! i = Some cell ->
           (test_codes !! i = Some (-1) /\
            ~ In (astype_str cell) (map astype_str train_col)) \/
           (exists k, test_codes !! i = Some (Z.of_nat k) /\
                      classes_ le !! k = Some (astype_str cell)))
  end.
Proof.
  intros Htrain. destruct (X_test !! col) as [test_col|] eqn:Htest.
  - by apply label_encode_column_run.
  - unfold label_encode_column, getitem. rewrite Htrain, Htest.
    cbn [mbind outcome_bind].
    destruct (map_outcome_total (transform (fit (map astype_str train_col)))
                (map astype_str train_col)) as (train_codes & ->);
      [|reflexivity].
    intros v Hv. destruct (transform_fit _ v Hv) as (k & Hk & _). eauto.
Qed.

Lemma label_encode_column_round_trip_witness :
  exists train_codes test_codes,
    label_encode_column text_of_cell "new_city" (train_frame, test_frame, ∅)
    = Ok (<["new_city" := codes_series train_codes]> train_frame,
          <["new_city" := codes_series test_codes]> test_frame,
          {["new_city" := fit ["Huế"; "Hà Nội"; "Huế"]]}) /\
    length train_codes = 3%nat /\ length test_codes = 2%nat.
Proof.
  pose proof (label_encode_column_round_trip text_of_cell "new_city"
                train_frame test_frame ∅
                [Some (VStr "Huế"); Some (VStr "Hà Nội"); Some (VStr "Huế")]
                ltac:(vm_compute; reflexivity)) as Hrun.
  change (test_frame !! "new_city")
    with (Some [Some (VStr "Đà Lạt"); Some (VStr "Huế")]) in Hrun.
  destruct Hrun as (train_codes & test_codes & Hrun & Htrain & Htest & _).
  exists train_codes, test_codes. split; [exact Hrun|]. by split.
Defined.

Lemma same_shape_refl d : same_shape d d.
Proof. by intros c. Qed.

Lemma same_shape_trans d1 d2 d3 :
  same_shape d1 d2 -> same_shape d2 d3 -> same_shape d1 d3.
Proof. intros H12 H23 c. by rewrite H23. Qed.

Lemma same_shape_insert (d : frame) c s s' :
  d !! c = Some s -> length s' = length s -> same_shape d (<[c := s']> d).
Proof.
  intros Hs Hlen k. destruct (decide (c = k)) as [<-|Hne].
  - rewrite lookup_insert_eq, Hs. cbn. by rewrite Hlen.
  - by rewrite lookup_insert_ne.
Qed.

Lemma same_shape_has_column d d' c :
  same_shape d d' -> has_column d' c = has_column d c.
Proof.
  intros Hshape. specialize (Hshape c). unfold has_column.
  destruct (d !! c), (d' !! c); try discriminate; reflexivity.
Qed.

Lemma label_encoding_loop (astype_str : option value -> string) cols :
  forall (X_train X_test : frame) (encoders : gmap string LabelEncoder),
  (forall c, c ∈ cols ->
             has_column X_train c = true /\ has_column X_test c = true) ->
  exists X_train' X_test' encoders',
    foldl (fun acc col => st ← acc; label_encode_column astype_str col st)
          (Ok (X_train, X_test, encoders)) cols
    = Ok (X_train', X_test', encoders') /\
    (forall c, is_Some (encoders' !! c) <-> c ∈ cols \/ is_Some (encoders !! c)) /\
    (forall c, c ∉ cols ->
               X_train' !! c = X_train !! c /\ X_test' !! c = X_test !! c) /\
    same_shape X_train X_train' /\ same_shape X_test X_test'.
Proof.
  induction cols as [|col cols IH]; intros X_train X_test encoders Hcols.
  - exists X_train, X_test, encoders. split; [reflexivity|].
    split; [intros c; rewrite elem_of_nil; tauto|].
    split; [done|]. split; apply same_shape_refl.
  - destruct (Hcols col) as ([train_col Htrain]%bool_decide_eq_true_1
                             & [test_col Htest]%bool_decide_eq_true_1);
      [left|].
    destruct (label_encode_column_run astype_str col X_train X_test encoders
                train_col test_col Htrain Htest)
      as (train_codes & test_codes & Hrun & Hlen_train & Hlen_test & _).
    cbn [foldl mbind outcome_bind]. rewrite Hrun.
    assert (Hshape_train :
              same_shape X_train (<[col := codes_series train_codes]> X_train))
      by (apply (same_shape_insert _ _ train_col); [done|];
          by rewrite codes_series_length).
    assert (Hshape_test :
              same_shape X_test (<[col := codes_series test_codes]> X_test))
      by (apply (same_shape_insert _ _ test_col); [done|];
          by rewrite codes_series_length).
    destruct (IH (<[col := codes_series train_codes]> X_train)
                 (<[col := codes_series test_codes]> X_test)
                 (<[col := fit (map astype_str train_col)]> encoders))
      as (X_train' & X_test' & encoders' & Hloop & Henc & Hother & S1 & S2).
    { intros c Hc.
      rewrite (same_shape_has_column _ _ c Hshape_train),
              (same_shape_has_column _ _ c Hshape_test).
      apply Hcols. by right. }
    exists X_train', X_test', encoders'. split; [exact Hloop|].
    split; [|split; [|split]].
    + intros c. rewrite Henc, elem_of_cons.
      destruct (decide (col = c)) as [<-|Hne].
      * rewrite lookup_insert_eq. split; [intros _; by left; left|eauto].
      * rewrite lookup_insert_ne by done. split.
        -- intros [?|?]; [left; by right | by right].
        -- intros [[?|?]|?]; [congruence | by left | by right].
    + intros c Hc. apply not_elem_of_cons in Hc as (Hne & Hc).
      destruct (Hother c Hc) as (-> & ->). by rewrite !lookup_insert_ne.
    + by eapply same_shape_trans.
    + by eapply same_shape_trans.
Qed.

(** X20.  Phase 3 of [split_and_encode] runs through when the test frame
    has every listed categorical column that the training frame has.  It
    stores an encoder for exactly those columns, leaves the columns that
    are not listed as they were, and keeps the columns and the number of
    rows of both frames. *)
Theorem label_encoding_total (astype_str : option value -> string)
  (low_card_cols high_card_cols : list string) (X_train X_test : frame) :
  (forall c, c ∈ (low_card_cols ++ high_card_cols)%list ->
             has_column X_train c = true -> has_column X_test c = true) ->
  exists X_train' X_test' encoders,
    label_encoding astype_str low_card_cols high_card_cols X_train X_test
    = Ok (X_train', X_test', encoders) /\
    (forall c, is_Some (encoders !! c) <->
               c ∈ (low_card_cols ++ high_card_cols)%list /\ has_column X_train c = true) /\
    (forall c, c ∉ (low_card_cols ++ high_card_cols)%list ->
               X_train' !! c = X_train !! c /\ X_test' !! c = X_test !! c) /\
    same_shape X_train X_train' /\ same_shape X_test X_test'.
Proof.
  intros Htest. unfold label_encoding. cbv zeta.
  rewrite <- List.filter_app.
  set (cols := List.filter (has_column X_train) (low_card_cols ++ high_card_cols)%list).
  assert (Hcols : forall c, c ∈ cols <->
                            c ∈ (low_card_cols ++ high_card_cols)%list /\
                            has_column X_train c = true).
  { intros c. unfold cols. by rewrite !list_elem_of_In, filter_In. }
  destruct (label_encoding_loop astype_str cols X_train X_test ∅)
    as (X_train' & X_test' & encoders & Hloop & Henc & Hother & S1 & S2).
  { intros c (Hc & Hhas)%Hcols. split; [exact Hhas | by apply Htest]. }
  exists X_train', X_test', encoders. split; [exact Hloop|].
  split; [|split; [|by split]].
  - intros c. rewrite Henc, Hcols, lookup_empty. split; [|tauto].
    intros [?|[? ?]]; [done | discriminate].
  - intros c Hc. apply Hother. rewrite Hcols. tauto.
Qed.

Lemma label_encoding_total_witness :
  exists X_train' X_test' encoders,
    label_encoding text_of_cell ["new_city"; "Legal status"] ["new_district"]
      train_frame test_frame
    = Ok (X_train', X_test', encoders) /\
    X_train' !! "Area" = train_frame !! "Area".
Proof.
  destruct (label_encoding_total text_of_cell ["new_city"; "Legal status"]
              ["new_district"] train_frame test_frame)
    as (X_train' & X_test' & encoders & Hrun & _ & Hother & _).
  - intros c Hc. repeat (apply elem_of_cons in Hc as [->|Hc]);
      [| | | by apply elem_of_nil in Hc];
      vm_compute; intros Hhas; exact Hhas.
  - exists X_train', X_test', encoders. split; [exact Hrun|].
    apply Hother. by_computation.
Defined.


(** ** The vote of [select_features_ensemble] *)

Lemma counter_keys_spec seen l f :
  f ∈ counter_keys seen l <-> f ∈ l /\ f ∉ seen.
Proof.
  revert seen. induction l as [|x l IH]; intros seen; cbn [counter_keys].
  - rewrite elem_of_nil. tauto.
  - destruct (bool_decide (x ∈ seen)) eqn:Hx.
    + apply bool_decide_eq_true_1 in Hx. rewrite IH, elem_of_cons.
      split; [tauto|]. intros ([->|Hf] & Hseen); [done | tauto].
    + apply bool_decide_eq_false_1 in Hx. rewrite !elem_of_cons, IH, elem_of_cons.
      split.
      * intros [->|(Hf & Hseen)]; [tauto|]. split; [tauto|].
        intros Hs. apply Hseen. by right.
      * intros ([->|Hf] & Hseen); [by left|].
        destruct (decide (f = x)) as [->|Hne]; [by left|].
        right. split; [exact Hf|]. intros [?|?]; tauto.
Qed.

Lemma counter_keys_NoDup seen l : NoDup (counter_keys seen l).
Proof.
  revert seen. induction l as [|x l IH]; intros seen; cbn [counter_keys];
    [constructor|].
  destruct (bool_decide (x ∈ seen)); [apply IH|].
  constructor; [|apply IH]. rewrite counter_keys_spec.
  intros (_ & Hx). apply Hx. by left.
Qed.

Lemma votes_of_app f l k : votes_of f (l ++ k) = (votes_of f l + votes_of f k)%nat.
Proof. unfold votes_of. by rewrite List.filter_app, length_app. Qed.

Lemma votes_of_absent f l : f ∉ l -> votes_of f l = 0%nat.
Proof.
  unfold votes_of. induction l as [|x l IH]; intros Hf; [reflexivity|].
  apply not_elem_of_cons in Hf as (Hne & Hf). cbn [List.filter].
  destruct (String.eqb_spec f x) as [->|_]; [done | by apply IH].
Qed.

Lemma votes_of_NoDup f l :
  NoDup l -> votes_of f l = if bool_decide (f ∈ l) then 1%nat else 0%nat.
Proof.
  induction 1 as [|x l Hx Hl IH].
  - by rewrite bool_decide_eq_false_2 by apply not_elem_of_nil.
  - unfold votes_of in *. cbn [List.filter].
    destruct (String.eqb_spec f x) as [->|Hne].
    + rewrite bool_decide_eq_true_2 by left. cbn [length].
      fold (votes_of x l). by rewrite (votes_of_absent x l Hx).
    + rewrite IH. rewrite (bool_decide_ext (f ∈ l) (f ∈ x :: l)); [reflexivity|].
      rewrite elem_of_cons. tauto.
Qed.

Lemma votes_of_positive f l : f ∈ l -> (0 < votes_of f l)%nat.
Proof.
  unfold votes_of. induction l as [|x l IH]; intros Hf;
    [by apply elem_of_nil in Hf|].
  cbn [List.filter]. destruct (String.eqb_spec f x) as [->|Hne]; [cbn; lia|].
  apply elem_of_cons in Hf as [?|Hf]; [done | by apply IH].
Qed.

Lemma elem_of_select_features_ensemble corr mi rf min_votes f :
  f ∈ select_features_ensemble corr mi rf min_votes <->
  f ∈ (corr ++ mi ++ rf)%list /\
  (min_votes <= Z.of_nat (votes_of f (corr ++ mi ++ rf)))%Z.
Proof.
  unfold select_features_ensemble, Counter. cbv zeta.
  set (all := (corr ++ mi ++ rf)%list).
  rewrite list_elem_of_fmap. split.
  - intros ([g n] & -> & Hin).
    apply list_elem_of_In, filter_In in Hin as (Hin & Hvotes).
    apply list_elem_of_In, list_elem_of_fmap in Hin as (g' & [= -> ->] & Hg).
    apply counter_keys_spec in Hg as (Hg & _). cbn in *.
    split; [exact Hg | by apply Z.leb_le].
  - intros (Hf & Hvotes). exists (f, votes_of f all). split; [reflexivity|].
    apply list_elem_of_In, filter_In. split.
    + apply list_elem_of_In, list_elem_of_fmap. exists f. split; [reflexivity|].
      apply counter_keys_spec. split; [exact Hf | apply not_elem_of_nil].
    + cbn. by apply Z.leb_le.
Qed.

(** X21.  The vote of [select_features_ensemble].  The result lists each
    feature at most once; a feature is in it exactly when it occurs at
    least [min_votes] times in the three lists together.  When no method
    lists a feature twice, that number is the number of methods listing
    it, so with [min_votes] 3 only the features chosen by all three
    methods pass, and with [min_votes] at most 1 every listed feature
    does. *)
Theorem select_features_ensemble_counts_votes
  (corr_features mi_features rf_features : list string) (min_votes : Z) :
  let selected :=
    select_features_ensemble corr_features mi_features rf_features min_votes in
  let all_features := (corr_features ++ mi_features ++ rf_features)%list in
  NoDup selected /\
  (forall f, f ∈ selected <->
             f ∈ all_features /\
             (min_votes <= Z.of_nat (votes_of f all_features))%Z) /\
  (NoDup corr_features -> NoDup mi_features -> NoDup rf_features ->
   forall f,
     f ∈ selected <->
     (1 <= methods_listing f corr_features mi_features rf_features)%nat /\
     (min_votes <=
      Z.of_nat (methods_listing f corr_features mi_features rf_features))%Z).
Proof.
  cbv zeta. split; [|split].
  - unfold select_features_ensemble, Counter. cbv zeta.
    set (all := (corr_features ++ mi_features ++ rf_features)%list).
    assert (Hkeys : NoDup (counter_keys [] all)) by apply counter_keys_NoDup.
    induction Hkeys as [|f keys Hf Hkeys IH]; [constructor|].
    cbn [map List.filter]. destruct (_ <=? _)%Z; [|exact IH].
    cbn [map fst]. constructor; [|exact IH].
    intros Hin. apply Hf.
    apply list_elem_of_fmap in Hin as ([g n] & -> & Hin).
    apply list_elem_of_In, filter_In in Hin as (Hin & _).
    apply list_elem_of_In, list_elem_of_fmap in Hin as (g' & [= -> ->] & Hg).
    exact Hg.
  - intros f. apply elem_of_select_features_ensemble.
  - intros Hcorr Hmi Hrf f. rewrite elem_of_select_features_ensemble.
    rewrite !votes_of_app, (votes_of_NoDup f _ Hcorr), (votes_of_NoDup f _ Hmi),
      (votes_of_NoDup f _ Hrf), !elem_of_app.
    unfold methods_listing. rewrite Nat.add_assoc.
    destruct (bool_decide (f ∈ corr_features)) eqn:E1;
      destruct (bool_decide (f ∈ mi_features)) eqn:E2;
      destruct (bool_decide (f ∈ rf_features)) eqn:E3;
      try apply bool_decide_eq_true_1 in E1; try apply bool_decide_eq_false_1 in E1;
      try apply bool_decide_eq_true_1 in E2; try apply bool_decide_eq_false_1 in E2;
      try apply bool_decide_eq_true_1 in E3; try apply bool_decide_eq_false_1 in E3;
      cbn; intuition lia.
Qed.


(** ** [basic_preprocessing] drops no column *)

Lemma keeps_columns_refl d : keeps_columns d d.
Proof. by intros c. Qed.

Lemma keeps_columns_trans d1 d2 d3 :
  keeps_columns d1 d2 -> keeps_columns d2 d3 -> keeps_columns d1 d3.
Proof. intros H12 H23 c Hc. by apply H23, H12. Qed.

Lemma keeps_columns_insert (d : frame) k s : keeps_columns d (<[k := s]> d).
Proof.
  intros c Hc. destruct (decide (k = c)) as [->|Hne].
  - rewrite lookup_insert_eq. eauto.
  - by rewrite lookup_insert_ne.
Qed.

Lemma only_fills_keeps_columns d d' : only_fills d d' -> keeps_columns d d'.
Proof.
  intros Hfills c Hc. destruct (Hfills c) as [-> | (s & -> & _)]; eauto.
Qed.

Ltac columns_step :=
  first [ apply keeps_columns_refl
        | apply keeps_columns_insert
        | eapply keeps_columns_trans; [|apply keeps_columns_insert] ].

Lemma fill_median_columns column group_by p p' :
  fill_median column group_by p = Ok p' -> keeps_columns (df p) (df p').
Proof.
  unfold fill_median. destruct (df p !! column) as [s|];
    [|intros [= <-]; columns_step].
  cbv zeta. destruct (_ =? 0)%nat; [intros [= <-]; columns_step|].
  destruct (group_by ≫= _); intros Hp;
    apply outcome_bind_inv in Hp as (x & _ & [= <-]); cbn [df _log set_df];
    columns_step.
Qed.

Lemma fill_mode_columns column p p' :
  fill_mode column None p = Ok p' -> keeps_columns (df p) (df p').
Proof.
  unfold fill_mode. destruct (df p !! column) as [s|];
    [|intros [= <-]; columns_step].
  cbv zeta. destruct (_ =? 0)%nat; [intros [= <-]; columns_step|].
  cbn [mbind option_bind]. destruct (Pandas.mode s); intros [= <-];
    cbn [df _log set_df]; columns_step.
Qed.

Lemma fill_value_columns column v p :
  keeps_columns (df p) (df (fill_value column v p)).
Proof.
  unfold fill_value. destruct (df p !! column); [|columns_step].
  cbv zeta. destruct (0 <? _)%nat; cbn [df _log set_df]; columns_step.
Qed.

Lemma extract_from_address_keeps_columns address_column p p' :
  extract_from_address address_column p = Ok p' ->
  keeps_columns (df p) (df p').
Proof.
  intros Hp. pose proof (extract_from_address_run address_column p) as Hrun.
  destruct (df p !! address_column) as [[|a addresses]|].
  - congruence.
  - destruct Hrun as (q & Hq & Hcity & Hdistrict & Hward & Hother).
    assert (q = p') as -> by congruence. intros c Hc.
    destruct (decide (c ∈ LOCATION_COLUMNS)) as [Hloc|Hloc].
    + unfold LOCATION_COLUMNS in Hloc.
      repeat (apply elem_of_cons in Hloc as [->|Hloc]); eauto.
      by apply elem_of_nil in Hloc.
    + by rewrite Hother.
  - assert (p' = p) as -> by congruence. columns_step.
Qed.

Lemma extract_if_needed_columns p p' :
  extract_if_needed p = Ok p' -> keeps_columns (df p) (df p').
Proof.
  unfold extract_if_needed. destruct (_ && _).
  - apply extract_from_address_keeps_columns.
  - intros [= <-]. columns_step.
Qed.

Lemma fill_bathrooms_columns df0 p p' :
  fill_bathrooms df0 p = Ok p' -> keeps_columns (df p) (df p').
Proof.
  unfold fill_bathrooms. intros Hp.
  destruct (has_column df0 "Bathrooms"); cbn [andb] in Hp;
    [|injection Hp as <-; columns_step].
  destruct (has_column df0 "Bedrooms"); [|by eapply fill_median_columns].
  apply outcome_bind_inv in Hp as (bedrooms & _ & Hp).
  apply outcome_bind_inv in Hp as (p1 & Hp1 & Hp).
  eapply keeps_columns_trans; [|by eapply fill_median_columns].
  destruct (0 <? _)%nat; [by eapply fill_median_columns|].
  injection Hp1 as <-. columns_step.
Qed.

Lemma fill_legal_status_columns df0 p p' :
  fill_legal_status df0 p = Ok p' -> keeps_columns (df p) (df p').
Proof.
  unfold fill_legal_status. intros Hp.
  destruct (has_column df0 "Legal status"); [|injection Hp as <-; columns_step].
  apply outcome_bind_inv in Hp as (p1 & Hp1 & Hp).
  eapply keeps_columns_trans; [by eapply extract_if_needed_columns|].
  destruct (has_column (df p1) "new_city").
  - cbv zeta in Hp.
    apply outcome_bind_inv in Hp as (new_city & _ & Hp).
    apply outcome_bind_inv in Hp as (legal & _ & [= <-]).
    cbn [df set_df]. columns_step.
  - injection Hp as <-. apply fill_value_columns.
Qed.

Lemma fill_numeric_columns_columns cols p p' :
  foldl (fun acc col => prep ← acc; fill_numeric_column col prep)
        (Ok p) cols = Ok p' ->
  keeps_columns (df p) (df p').
Proof.
  revert p. induction cols as [|col cols IH]; intros p Hp; cbn [foldl] in Hp.
  - injection Hp as <-. columns_step.
  - cbn [mbind outcome_bind] in Hp.
    destruct (fill_numeric_column col p) as [p1|e] eqn:Hcol;
      [|by rewrite fill_numeric_columns_raise in Hp].
    eapply keeps_columns_trans; [|by apply IH].
    unfold fill_numeric_column in Hcol. destruct (df p !! col); [|discriminate].
    destruct (0 <? _)%nat; [by eapply fill_median_columns|].
    injection Hcol as <-. columns_step.
Qed.

Lemma phase_3_low_missing_columns df0 p p' :
  phase_3_low_missing df0 p = Ok p' -> keeps_columns (df p) (df p').
Proof.
  unfold phase_3_low_missing, fill_remaining_numeric. intros Hp.
  apply outcome_bind_inv in Hp as (p1 & Hp1 & Hp).
  apply outcome_bind_inv in Hp as (p2 & Hp2 & Hp).
  apply outcome_bind_inv in Hp as (p3 & Hp3 & Hp4).
  eapply keeps_columns_trans; [by eapply fill_bathrooms_columns|].
  eapply keeps_columns_trans; [by eapply fill_legal_status_columns|].
  eapply keeps_columns_trans; [|by eapply fill_numeric_columns_columns].
  destruct (has_column df0 "Floors"); [by eapply fill_mode_columns|].
  injection Hp3 as <-. columns_step.
Qed.

Lemma create_feature_columns feature_name formula description p :
  keeps_columns (df p) (df (create_feature feature_name formula description p)).
Proof.
  unfold create_feature. destruct (formula (df p)); cbn [df _log add_feature set_df];
    columns_step.
Qed.

Lemma room_features_columns p : keeps_columns (df p) (df (room_features p)).
Proof.
  unfold room_features. destruct (_ && _); [|columns_step]. cbv zeta.
  eapply keeps_columns_trans; apply create_feature_columns.
Qed.

Lemma area_features_columns p : keeps_columns (df p) (df (area_features p)).
Proof.
  unfold area_features. destruct (has_column (df p) "Area"); [|columns_step].
  cbv zeta. destruct (has_column _ "new_total_rooms").
  - eapply keeps_columns_trans; apply create_feature_columns.
  - apply create_feature_columns.
Qed.

Lemma indicator_features_columns p :
  keeps_columns (df p) (df (indicator_features p)).
Proof.
  unfold indicator_features. cbv zeta.
  eapply (keeps_columns_trans _
            (df (if has_column (df p) "Bathrooms" then _ else p))).
  - destruct (has_column (df p) "Bathrooms");
      [apply create_feature_columns | columns_step].
  - destruct (has_column _ "Floors");
      [apply create_feature_columns | columns_step].
Qed.

Lemma create_bins_columns pd_cut column n_bins labels p :
  keeps_columns (df p) (df (create_bins pd_cut column n_bins labels p)).
Proof.
  unfold create_bins. destruct (df p !! column); [|columns_step].
  cbv zeta. destruct (pd_cut _ _ _); cbn [df _log add_feature set_df];
    columns_step.
Qed.

Lemma phase_4_feature_engineering_columns pd_cut p p' :
  phase_4_feature_engineering pd_cut p = Ok p' -> keeps_columns (df p) (df p').
Proof.
  unfold phase_4_feature_engineering. cbv zeta. intros Hp.
  apply outcome_bind_inv in Hp as (p1 & Hp1 & [= <-]).
  eapply keeps_columns_trans; [apply room_features_columns|].
  eapply keeps_columns_trans; [apply area_features_columns|].
  eapply keeps_columns_trans; [apply indicator_features_columns|].
  eapply (keeps_columns_trans _ (df p1)).
  - destruct (_ && _); [by eapply extract_from_address_keeps_columns|].
    injection Hp1 as <-. columns_step.
  - destruct (has_column (df p1) "Area"); [apply create_bins_columns | columns_step].
Qed.

(** X22.  [basic_preprocessing] drops no column: every column of the input
    is a column of the result; and whenever it returns, the result has the
    columns new_city and Furniture state. *)
Theorem basic_preprocessing_drops_no_column
  (pd_cut : series -> nat -> list string -> outcome series) (df0 out : frame) :
  basic_preprocessing pd_cut df0 = Ok out ->
  keeps_columns df0 out /\
  is_Some (out !! "new_city") /\
  is_Some (out !! "Furniture state").
Proof.
  unfold basic_preprocessing. cbv zeta. intros Hrun.
  apply outcome_bind_inv in Hrun as (p2 & Hp2 & Hrun).
  apply outcome_bind_inv in Hrun as (p3 & Hp3 & Hrun).
  apply outcome_bind_inv in Hrun as (p4 & Hp4 & [= <-]).
  set (p1 := phase_1_high_missing df0 (DataPreprocessor_init df0)) in *.
  assert (H01 : keeps_columns df0 (df p1)).
  { apply only_fills_keeps_columns.
    apply (phase_1_high_missing_fills df0 (DataPreprocessor_init df0)).
    apply only_fills_refl. }
  assert (H24 : keeps_columns (df p2) (df p4)).
  { eapply keeps_columns_trans; [by eapply phase_3_low_missing_columns|].
    by eapply phase_4_feature_engineering_columns. }
  unfold phase_2_moderate_missing in Hp2. cbv zeta in Hp2.
  apply outcome_bind_inv in Hp2 as (p2a & Hp2a & Hp2).
  apply outcome_bind_inv in Hp2 as (p2b & Hp2b & [= <-]).
  set (p2c := flag_and_fill df0 "Access Road" "new_has_access_road"
                (VNum 0) p2b) in *.
  set (p2d := flag_and_fill df0 "Frontage" "has_frontage" (VNum 0) p2c) in *.
  assert (Hb2 : keeps_columns (df p2b) (df p2d)).
  { intros c Hc.
    assert (Hstep : forall column flag_name v p,
               keeps_columns (df p) (df (flag_and_fill df0 column flag_name v p))).
    { intros column flag_name v p. unfold flag_and_fill.
      destruct (has_column df0 column); [|columns_step].
      eapply keeps_columns_trans; [|apply fill_value_columns].
      unfold add_binary_flag. destruct (df p !! column);
        cbn [df _log add_feature set_df]; columns_step. }
    by apply Hstep, Hstep. }
  pose proof Hp2b as Hfurniture. unfold fill_furniture_by_city in Hfurniture.
  cbv zeta in Hfurniture.
  apply outcome_bind_inv in Hfurniture as (new_city & Hcity & Hfurniture).
  apply outcome_bind_inv in Hfurniture as (furniture & Hfurn & [= Hdf]).
  apply getitem_inv in Hcity. apply getitem_inv in Hfurn.
  assert (Hab : keeps_columns (df p2a) (df p2b)).
  { rewrite <- Hdf. cbn [df set_df]. columns_step. }
  split; [|split].
  - eapply keeps_columns_trans; [exact H01|].
    eapply keeps_columns_trans; [by eapply extract_if_needed_columns|].
    eapply keeps_columns_trans; [exact Hab|].
    eapply keeps_columns_trans; [exact Hb2 | exact H24].
  - apply H24, Hb2, Hab. eauto.
  - apply H24, Hb2, Hab. eauto.
Qed.

Lemma basic_preprocessing_drops_no_column_witness :
  is_Some (from_outcome ∅ (basic_preprocessing equal_width_cut furnished_frame)
             !! "new_city").
Proof.
  pose proof (outcome_of_is_ok
                (basic_preprocessing equal_width_cut furnished_frame) ∅) as Hrun.
  destruct (basic_preprocessing_drops_no_column equal_width_cut furnished_frame
              _ (Hrun ltac:(vm_compute; reflexivity))) as (_ & Hcity & _).
  exact Hcity.
Defined.


(** ** The column check of [TreeModelService.predict] *)

Lemma frame_get_is_Some (df : row_frame) c :
  is_Some (frame_get df c) <-> c ∈ frame_columns df.
Proof.
  unfold frame_get, frame_columns. induction df as [|[k v] df IH]; cbn.
  - rewrite elem_of_nil. split; [by intros [? ?] | done].
  - rewrite elem_of_cons. destruct (String.eqb_spec k c) as [->|Hne]; cbn.
    + split; [by left | eauto].
    + rewrite IH. split; [by right | intros [?|?]; congruence].
Qed.

Lemma reorder_columns_cases columns (df : row_frame) :
  match reorder_columns columns df with
  | Ok r =>
      Forall (fun c => c ∈ frame_columns df) columns /\
      frame_columns r = columns /\
      Forall2 (fun c v => frame_get df c = Some v) columns (map snd r)
  | Raise e =>
      e = KeyError /\ Exists (fun c => c ∉ frame_columns df) columns
  end.
Proof.
  induction columns as [|c cs IH]; cbn [reorder_columns].
  - split; [constructor|]. split; [reflexivity | constructor].
  - destruct (frame_get df c) as [v|] eqn:Hc.
    + destruct (reorder_columns cs df) as [r|e].
      * destruct IH as (Hall & Hcols & Hvals). split; [|split].
        -- constructor; [|exact Hall]. apply frame_get_is_Some. eauto.
        -- unfold frame_columns in *. cbn [map fst]. by rewrite Hcols.
        -- cbn. by constructor.
      * destruct IH as (-> & Hex). split; [reflexivity | by right].
    + split; [reflexivity|]. left. rewrite <- frame_get_is_Some, Hc.
      by intros [? ?].
Qed.

Lemma rename_columns_snd rename_map (df : row_frame) :
  map snd (rename_columns rename_map df) = map snd df.
Proof. unfold rename_columns. rewrite map_map. by apply map_ext. Qed.

Lemma rename_columns_fst rename_map (df : row_frame) :
  frame_columns (rename_columns rename_map df)
  = map (fun c => dict_get rename_map c c) (frame_columns df).
Proof. unfold rename_columns, frame_columns. by rewrite !map_map. Qed.

Lemma missing_empty (want have : list string) :
  (list_to_set want ∖ list_to_set have : gset string) = ∅ <->
  Forall (fun c => c ∈ have) want.
Proof.
  rewrite Forall_forall. split.
  - intros Hempty c Hc. destruct (decide (c ∈ have)) as [|Hno]; [done|].
    assert (c ∈ (list_to_set want ∖ list_to_set have : gset string)) as Hin
      by (apply elem_of_difference; by rewrite !elem_of_list_to_set).
    rewrite Hempty in Hin. by apply elem_of_empty in Hin.
  - intros Hall. apply set_eq. intros c.
    rewrite elem_of_difference, !elem_of_list_to_set, elem_of_empty.
    split; [|done]. intros (Hc & Hno). by apply Hno, Hall.
Qed.

(** X23.  What [predict] hands to the model, for a request frame whose
    column names are distinct.  When the request frame lacks
    an expected feature the call fails with [ValueError] and the missing
    features have been logged.  Otherwise the model gets exactly the 41
    expected columns, in the expected order and under the names of the
    model, each with the value it has in the request frame; columns that
    are not expected are dropped, and the only warning possible is the one
    about them. *)
Theorem prepare_features_columns_or_error model_name (features_df : row_frame) :
  NoDup (frame_columns features_df) ->
  let missing : gset string :=
    list_to_set MODEL_EXPECTED_FEATURES ∖ list_to_set (frame_columns features_df) in
  match prepare_features model_name features_df with
  | (Ok df, warnings) =>
      missing = ∅ /\
      frame_columns df = map (model_column model_name) MODEL_EXPECTED_FEATURES /\
      Forall2 (fun c v => frame_get features_df c = Some v)
        MODEL_EXPECTED_FEATURES (map snd df) /\
      (forall w, w ∈ warnings -> exists names, w = ExtraFeatures names)
  | (Raise e, warnings) =>
      e = ValueError /\ missing <> ∅ /\ MissingFeatures missing ∈ warnings
  end.
Proof.
  intros _. cbv zeta. unfold prepare_features. cbv zeta.
  pose proof (reorder_columns_cases MODEL_EXPECTED_FEATURES features_df) as Hcases.
  destruct (reorder_columns MODEL_EXPECTED_FEATURES features_df) as [r|e].
  - destruct Hcases as (Hall & Hcols & Hvals).
    apply missing_empty in Hall. split; [exact Hall|]. split; [|split].
    + unfold model_column. destruct (String.eqb model_name "lightgbm").
      * by rewrite rename_columns_fst, Hcols.
      * by rewrite map_id.
    + destruct (String.eqb model_name "lightgbm");
        [by rewrite rename_columns_snd | exact Hvals].
    + unfold check_columns. cbv zeta. intros w.
      destruct (bool_decide (_ = _)); [by intros ?%elem_of_nil|].
      rewrite Hall, bool_decide_eq_true_2 by done. cbn [app].
      destruct (bool_decide (_ = ∅)); [by intros ?%elem_of_nil|].
      intros ->%list_elem_of_singleton. eauto.
  - destruct Hcases as (_ & Hex). split; [reflexivity|].
    assert (Hmissing :
              (list_to_set MODEL_EXPECTED_FEATURES
               ∖ list_to_set (frame_columns features_df) : gset string) <> ∅).
    { intros Hall%missing_empty. apply Exists_exists in Hex as (c & Hc & Hno).
      rewrite Forall_forall in Hall. by apply Hno, Hall. }
    split; [exact Hmissing|]. unfold check_columns. cbv zeta.
    rewrite bool_decide_eq_false_2.
    + rewrite (bool_decide_eq_false_2 _ Hmissing). left.
    + intros Heq. apply Hmissing. rewrite Heq. apply difference_diag_L.
Qed.

Lemma prepare_features_columns_or_error_witness :
  (prepare_features "xgboost" misfit_frame).1 = Raise ValueError.
Proof.
  pose proof (prepare_features_columns_or_error "xgboost" misfit_frame) as Hrun.
  cbv zeta in Hrun.
  destruct (prepare_features "xgboost" misfit_frame) as [[df|e] warnings].
  - destruct Hrun as (Hmissing & _); [by_computation|].
    exfalso. revert Hmissing. by_computation.
  - destruct Hrun as (-> & _); [by_computation | reflexivity].
Defined.


(** ** The parsed city and district *)

Lemma rstrip_char_no_end c s :
  ends_with_char c (PyStr.rstrip_char c s) = false.
Proof.
  induction s as [|a s IH]; [reflexivity|]. cbn [PyStr.rstrip_char].
  destruct (PyStr.rstrip_char c s) as [|b t] eqn:Hr.
  - destruct (Ascii.eqb a c) eqn:Hac; [reflexivity|]. cbn. exact Hac.
  - exact IH.
Qed.

Lemma contains_char_In d s :
  PyStr.contains_char d s = true <-> In d (list_ascii_of_string s).
Proof.
  induction s as [|a s IH]; cbn; [split; [discriminate | tauto]|].
  rewrite orb_true_iff, IH, Ascii.eqb_eq. tauto.
Qed.

Lemma contains_char_sub d s t :
  (forall a, In a (list_ascii_of_string t) -> In a (list_ascii_of_string s)) ->
  PyStr.contains_char d s = false -> PyStr.contains_char d t = false.
Proof.
  intros Hsub Hs. destruct (PyStr.contains_char d t) eqn:Ht; [|reflexivity].
  apply contains_char_In, Hsub, contains_char_In in Ht. congruence.
Qed.

Lemma rstrip_char_sub c s a :
  In a (list_ascii_of_string (PyStr.rstrip_char c s)) ->
  In a (list_ascii_of_string s).
Proof.
  induction s as [|b s IH]; [done|]. cbn [PyStr.rstrip_char].
  destruct (PyStr.rstrip_char c s) as [|b' t].
  - destruct (Ascii.eqb b c); cbn; tauto.
  - cbn in *. tauto.
Qed.

Lemma drop_while_space_sub at_head fuel l a :
  In a (PyStr.drop_while_space at_head fuel l) -> In a l.
Proof.
  destruct (drop_while_space_skipn at_head fuel l) as [k ->].
  intros Ha. rewrite <- (firstn_skipn k l). apply in_or_app. by right.
Qed.

Lemma strip_sub s a :
  In a (list_ascii_of_string (PyStr.strip s)) -> In a (list_ascii_of_string s).
Proof.
  unfold PyStr.strip, PyStr.rstrip_bytes, PyStr.lstrip_bytes.
  rewrite list_ascii_of_string_of_list_ascii. intros Ha.
  apply in_rev, drop_while_space_sub, in_rev in Ha.
  by apply drop_while_space_sub in Ha.
Qed.

(** A comma-free, stripped text: what a segment of the address is after
    [strip]. *)
Lemma parts_clean s :
  Forall (fun p => PyStr.contains_char "," p = false /\ PyStr.stripped p)
    (map PyStr.strip (PyStr.split "," s)).
Proof.
  pose proof (split_segments_free "," s) as Hfree.
  induction Hfree as [|seg segs Hseg _ IH]; cbn [map]; constructor; [|exact IH].
  split; [|apply strip_stripped].
  apply (contains_char_sub _ seg); [apply strip_sub | exact Hseg].
Qed.

Lemma item_clean (P : string -> Prop) parts i :
  P "" -> Forall P parts -> P (item parts i).
Proof.
  intros Hempty Hall. unfold item. cbv zeta.
  destruct (_ <? 0)%Z; [exact Hempty|].
  destruct (nth_in_or_default
              (Z.to_nat (if (i <? 0)%Z then Z.of_nat (length parts) + i else i))
              parts "") as [Hin | ->]; [|exact Hempty].
  rewrite Forall_forall in Hall. by apply Hall, list_elem_of_In.
Qed.

Lemma stripped_empty : PyStr.stripped "".
Proof. split; reflexivity. Qed.

(** X24.  Whatever the address cell holds, the city that [_parse_location]
    returns does not end with a period, neither the city nor the district
    contains a comma, and the district has no whitespace at either end. *)
Theorem parse_location_city_and_district_are_clean (addr : option value) :
  let city := (_parse_location addr).1.1 in
  let district := (_parse_location addr).1.2 in
  ends_with_char "." city = false /\
  PyStr.contains_char "," city = false /\
  PyStr.contains_char "," district = false /\
  PyStr.stripped district.
Proof.
  cbv zeta.
  assert (Hunknown :
            ends_with_char "." "Unknown" = false /\
            PyStr.contains_char "," "Unknown" = false /\
            PyStr.contains_char "," "Unknown" = false /\
            PyStr.stripped "Unknown")
    by (repeat split; reflexivity).
  destruct addr as [[q|s]|]; try exact Hunknown.
  unfold _parse_location. destruct (String.eqb s ""); [exact Hunknown|].
  cbv zeta. pose proof (parts_clean s) as Hparts.
  set (parts := map PyStr.strip (PyStr.split "," s)) in *.
  assert (Hcity : forall i,
             ends_with_char "." (PyStr.rstrip_char "." (item parts i)) = false /\
             PyStr.contains_char "," (PyStr.rstrip_char "." (item parts i)) = false).
  { intros i. split; [apply rstrip_char_no_end|].
    apply (contains_char_sub _ (item parts i)); [apply rstrip_char_sub|].
    apply (item_clean (fun p => PyStr.contains_char "," p = false)); [reflexivity|].
    eapply Forall_impl; [exact Hparts|]. by intros p (Hp & _). }
  assert (Hdistrict : forall i,
             PyStr.contains_char "," (item parts i) = false /\
             PyStr.stripped (item parts i)).
  { intros i.
    apply (item_clean (fun p => PyStr.contains_char "," p = false /\ PyStr.stripped p));
      [split; [reflexivity | apply stripped_empty] | exact Hparts]. }
  destruct (3 <=? length parts)%nat; [|destruct (length parts =? 2)%nat;
                                         [|destruct (length parts =? 1)%nat]];
    cbn [fst snd].
  - destruct (Hcity (-1)) as (? & ?), (Hdistrict (-2)) as (? & ?).
    repeat (split; [assumption|]); assumption.
  - destruct (Hcity (-1)) as (? & ?), (Hdistrict (-2)) as (? & ?).
    repeat (split; [assumption|]); assumption.
  - destruct (Hcity 0) as (? & ?), Hunknown as (_ & _ & ? & ?).
    repeat (split; [assumption|]); assumption.
  - exact Hunknown.
Qed.


(** ** The first two stages compose *)

Lemma is_numeric_forall s :
  Pandas.is_numeric s = true <-> forall x t, x ∈ s -> x <> Some (VStr t).
Proof.
  unfold Pandas.is_numeric. rewrite forallb_forall. split.
  - intros Hall x t Hx%list_elem_of_In ->. by specialize (Hall _ Hx).
  - intros Hall x Hx%list_elem_of_In. destruct x as [[q|t]|]; try reflexivity.
    by destruct (Hall _ t Hx).
Qed.

Lemma is_numeric_fillna v s :
  (forall t, v <> VStr t) ->
  Pandas.is_numeric s = true -> Pandas.is_numeric (Pandas.fillna v s) = true.
Proof.
  intros Hv. induction s as [|x s IH]; [done|].
  intros (Hx & Hs)%is_numeric_cons. cbn [Pandas.fillna map].
  apply is_numeric_cons. split; [|by apply IH].
  destruct x as [w|]; [exact Hx|]. intros t [= ->]. by apply (Hv t).
Qed.

Lemma median_is_number s m t :
  Pandas.median s = Ok m -> m <> Some (VStr t).
Proof.
  unfold Pandas.median. destruct (Pandas.numbers s) as [l|]; [|discriminate].
  intros [= <-]. by destruct (Pandas.median_of l).
Qed.

Lemma fold_left_choice {A} (f : option A -> A -> option A) l init v :
  (forall b x, f b x = b \/ f b x = Some x) ->
  fold_left f l init = Some v -> init = Some v \/ In v l.
Proof.
  intros Hf. revert init. induction l as [|x l IH]; intros init; cbn [fold_left];
    [by left|].
  intros Hfold. destruct (IH _ Hfold) as [Hinit|Hin]; [|right; by right].
  destruct (Hf init x) as [E|E]; rewrite E in Hinit; [by left|].
  injection Hinit as ->. right. by left.
Qed.

Lemma mode_member s v : Pandas.mode s = Some v -> In v (Pandas.dropna s).
Proof.
  unfold Pandas.mode. intros Hmode.
  apply fold_left_choice in Hmode as [?|?]; [done | done |].
  intros [b|] x; [|by right].
  destruct (_ <? _)%nat; [by right|]. destruct (_ && _); [by right | by left].
Qed.

Lemma mode_is_number s v :
  Pandas.is_numeric s = true -> Pandas.mode s = Some v -> forall t, v <> VStr t.
Proof.
  intros Hs Hv%mode_member t ->.
  apply list_elem_of_In, elem_of_dropna in Hv.
  rewrite is_numeric_forall in Hs. by apply (Hs _ t Hv).
Qed.

Lemma zip_with_outcome_cells {A B C} (f : A -> B -> outcome C)
  (P : C -> Prop) l k r :
  Pandas.zip_with_outcome f l k = Ok r ->
  (forall a b c, In b k -> f a b = Ok c -> P c) ->
  Forall P r.
Proof.
  revert k r. induction l as [|a l IH]; intros [|b k] r Hr Hf;
    try (injection Hr as <-; constructor).
  cbn [Pandas.zip_with_outcome] in Hr.
  destruct (f a b) as [c|] eqn:Hc; [|discriminate].
  destruct (Pandas.zip_with_outcome f l k) as [r'|] eqn:Hr'; [|discriminate].
  injection Hr as <-. constructor.
  - apply (Hf a b c); [by left | exact Hc].
  - apply (IH k r' Hr'). intros a' b' c' Hb'. apply Hf. by right.
Qed.

Lemma is_numeric_Forall s :
  Forall (fun x => forall t, x <> Some (VStr t)) s -> Pandas.is_numeric s = true.
Proof.
  intros Hall. apply is_numeric_forall. intros x t Hx.
  rewrite Forall_forall in Hall. by apply Hall.
Qed.

Lemma zip_lift2_numeric f s t r :
  Pandas.zip_with_outcome (Pandas.lift2 f) s t = Ok r ->
  Pandas.is_numeric r = true.
Proof.
  intros Hr. apply is_numeric_Forall.
  apply (zip_with_outcome_Forall _ _ _ _ _ Hr). apply Forall_forall.
  intros [[p|a]|] _ [[q|b]|] c; cbn; intros [= <-]; done.
Qed.

Lemma groupby_median_numeric keys s s' :
  groupby_transform_fillna Pandas.median keys s = Ok s' ->
  Pandas.is_numeric s = true -> Pandas.is_numeric s' = true.
Proof.
  unfold groupby_transform_fillna. intros Hs' Hs. apply is_numeric_Forall.
  apply (zip_with_outcome_cells _ _ _ _ _ Hs').
  intros key c x Hc%list_elem_of_In. rewrite is_numeric_forall in Hs.
  destruct key as [k|]; [|by intros [= <-]].
  intros (fill & Hfill & [= <-])%outcome_bind_inv t.
  destruct c as [w|]; [by apply Hs|].
  unfold group_fill_value in Hfill.
  destruct (Pandas.dropna _); by eapply median_is_number.
Qed.

Lemma numeric_inputs_ok_replace (d : frame) column s s' :
  d !! column = Some s ->
  (Pandas.is_numeric s = true -> Pandas.is_numeric s' = true) ->
  numeric_inputs_ok d -> numeric_inputs_ok (<[column := s']> d).
Proof.
  intros Hs Hnum Hd c t Hc. destruct (decide (column = c)) as [<-|Hne].
  - rewrite lookup_insert_eq. intros [= <-]. by eapply Hnum, Hd.
  - rewrite lookup_insert_ne by done. by apply Hd.
Qed.

Lemma fill_median_numeric column group_by p p' :
  fill_median column group_by p = Ok p' ->
  numeric_inputs_ok (df p) -> numeric_inputs_ok (df p').
Proof.
  unfold fill_median. destruct (df p !! column) as [s|] eqn:Hs;
    [|by intros [= <-]].
  cbv zeta. destruct (_ =? 0)%nat; [by intros [= <-]|].
  destruct (group_by ≫= _) as [keys|]; intros Hp;
    apply outcome_bind_inv in Hp as (x & Hx & [= <-]); cbn [df _log set_df];
    apply (numeric_inputs_ok_replace _ _ s _ Hs).
  - by apply (groupby_median_numeric keys).
  - destruct x as [v|]; [|done]. apply is_numeric_fillna.
    intros t ->. by eapply median_is_number.
Qed.

Lemma fill_mode_numeric column p p' :
  fill_mode column None p = Ok p' ->
  numeric_inputs_ok (df p) -> numeric_inputs_ok (df p').
Proof.
  unfold fill_mode. destruct (df p !! column) as [s|] eqn:Hs;
    [|by intros [= <-]].
  cbv zeta. destruct (_ =? 0)%nat; [by intros [= <-]|].
  cbn [mbind option_bind]. destruct (Pandas.mode s) as [v|] eqn:Hv;
    intros [= <-]; [|done].
  cbn [df _log set_df]. apply (numeric_inputs_ok_replace _ _ s _ Hs).
  intros Hnum. apply is_numeric_fillna; [|exact Hnum]. by eapply mode_is_number.
Qed.

Lemma fill_value_numeric column v p :
  (forall t, v = VStr t -> column ∉ NUMERIC_INPUTS) ->
  numeric_inputs_ok (df p) -> numeric_inputs_ok (df (fill_value column v p)).
Proof.
  intros Hv Hd. unfold fill_value. destruct (df p !! column) as [s|] eqn:Hs;
    [|exact Hd].
  cbv zeta. destruct (0 <? _)%nat; [|exact Hd]. cbn [df _log set_df].
  destruct v as [q|t].
  - apply (numeric_inputs_ok_replace _ _ s _ Hs); [|exact Hd].
    by apply is_numeric_fillna.
  - apply (numeric_inputs_ok_other (df p)); [|exact Hd].
    intros c Hc. apply lookup_insert_ne. intros <-. by apply (Hv t).
Qed.

Lemma flag_and_fill_numeric df0 column flag_name v p :
  bool_decide (flag_name ∉ NUMERIC_INPUTS) = true ->
  (forall t, v = VStr t -> column ∉ NUMERIC_INPUTS) ->
  numeric_inputs_ok (df p) ->
  numeric_inputs_ok (df (flag_and_fill df0 column flag_name v p)).
Proof.
  intros Hflag Hv Hd. unfold flag_and_fill.
  destruct (has_column df0 column); [|exact Hd].
  apply fill_value_numeric; [exact Hv|].
  unfold add_binary_flag. destruct (df p !! column); [|exact Hd].
  cbn [df _log add_feature set_df]. by apply numeric_inputs_ok_insert.
Qed.

Lemma extract_from_address_numeric address_column p p' :
  extract_from_address address_column p = Ok p' ->
  numeric_inputs_ok (df p) -> numeric_inputs_ok (df p').
Proof.
  intros Hp. apply numeric_inputs_ok_other. intros c Hc.
  apply (extract_from_address_other _ _ _ _ Hp).
  intros Hloc. unfold LOCATION_COLUMNS, NUMERIC_INPUTS in *.
  repeat (apply elem_of_cons in Hloc as [->|Hloc]);
    try (by apply elem_of_nil in Hloc);
    revert Hc; by_computation.
Qed.

Lemma extract_if_needed_numeric p p' :
  extract_if_needed p = Ok p' ->
  numeric_inputs_ok (df p) -> numeric_inputs_ok (df p').
Proof.
  unfold extract_if_needed. destruct (_ && _).
  - apply extract_from_address_numeric.
  - by intros [= <-].
Qed.

Lemma fill_numeric_columns_numeric cols p p' :
  foldl (fun acc col => prep ← acc; fill_numeric_column col prep)
        (Ok p) cols = Ok p' ->
  numeric_inputs_ok (df p) -> numeric_inputs_ok (df p').
Proof.
  revert p. induction cols as [|col cols IH]; intros q Hq Hd; cbn [foldl] in Hq.
  - by injection Hq as <-.
  - cbn [mbind outcome_bind] in Hq.
    destruct (fill_numeric_column col q) as [q1|e] eqn:Hcol;
      [|by rewrite fill_numeric_columns_raise in Hq].
    apply (IH q1 Hq). unfold fill_numeric_column in Hcol.
    destruct (df q !! col); [|discriminate].
    destruct (0 <? _)%nat; [by eapply fill_median_numeric|].
    by injection Hcol as <-.
Qed.

Lemma phase_3_low_missing_numeric df0 p p' :
  phase_3_low_missing df0 p = Ok p' ->
  numeric_inputs_ok (df p) -> numeric_inputs_ok (df p').
Proof.
  unfold phase_3_low_missing, fill_remaining_numeric. intros Hp Hd.
  apply outcome_bind_inv in Hp as (p1 & Hp1 & Hp).
  apply outcome_bind_inv in Hp as (p2 & Hp2 & Hp).
  apply outcome_bind_inv in Hp as (p3 & Hp3 & Hp4).
  assert (Hd1 : numeric_inputs_ok (df p1)).
  { unfold fill_bathrooms in Hp1.
    destruct (has_column df0 "Bathrooms"); cbn [andb] in Hp1;
      [|by injection Hp1 as <-].
    destruct (has_column df0 "Bedrooms"); [|by eapply fill_median_numeric].
    apply outcome_bind_inv in Hp1 as (bedrooms & _ & Hp1).
    apply outcome_bind_inv in Hp1 as (q & Hq & Hp1).
    eapply fill_median_numeric; [exact Hp1|].
    destruct (0 <? _)%nat; [by eapply fill_median_numeric|].
    by injection Hq as <-. }
  assert (Hd2 : numeric_inputs_ok (df p2)).
  { unfold fill_legal_status in Hp2.
    destruct (has_column df0 "Legal status"); [|by injection Hp2 as <-].
    apply outcome_bind_inv in Hp2 as (q & Hq & Hp2).
    apply (extract_if_needed_numeric _ _ Hq) in Hd1.
    destruct (has_column (df q) "new_city").
    - cbv zeta in Hp2.
      apply outcome_bind_inv in Hp2 as (new_city & _ & Hp2).
      apply outcome_bind_inv in Hp2 as (legal & _ & [= <-]).
      cbn [df set_df]. apply numeric_inputs_ok_insert; [by_compute | exact Hd1].
    - injection Hp2 as <-. apply fill_value_numeric; [|exact Hd1].
      intros _ _. by_computation. }
  assert (Hd3 : numeric_inputs_ok (df p3)).
  { destruct (has_column df0 "Floors"); [by eapply fill_mode_numeric|].
    by injection Hp3 as <-. }
  by eapply fill_numeric_columns_numeric.
Qed.

Lemma create_feature_numeric feature_name formula description p :
  (feature_name ∈ NUMERIC_INPUTS ->
   forall d s, formula d = Ok s -> Pandas.is_numeric s = true) ->
  numeric_inputs_ok (df p) ->
  numeric_inputs_ok (df (create_feature feature_name formula description p)).
Proof.
  intros Hformula Hd. unfold create_feature.
  destruct (formula (df p)) as [s|] eqn:Hs; [|exact Hd].
  cbn [df _log add_feature set_df]. intros c t Hc.
  destruct (decide (feature_name = c)) as [<-|Hne].
  - rewrite lookup_insert_eq. intros [= <-]. by eapply Hformula.
  - rewrite lookup_insert_ne by done. by apply Hd.
Qed.

Ltac not_an_input :=
  let H := fresh in intros H; exfalso; revert H; by_computation.

Lemma phase_4_feature_engineering_numeric pd_cut p p' :
  phase_4_feature_engineering pd_cut p = Ok p' ->
  numeric_inputs_ok (df p) -> numeric_inputs_ok (df p').
Proof.
  unfold phase_4_feature_engineering. cbv zeta. intros Hp Hd.
  apply outcome_bind_inv in Hp as (p1 & Hp1 & [= <-]).
  assert (Hrooms : numeric_inputs_ok (df (room_features p))).
  { unfold room_features.
    destruct (has_column (df p) "Bathrooms" && has_column (df p) "Bedrooms");
      [|exact Hd].
    cbv zeta.
    apply create_feature_numeric.
    - intros _ d s Hs.
      apply outcome_bind_inv in Hs as (bedrooms & _ & Hs).
      apply outcome_bind_inv in Hs as (bathrooms & _ & Hs).
      by eapply zip_lift2_numeric.
    - apply create_feature_numeric; [not_an_input | exact Hd]. }
  assert (Harea : numeric_inputs_ok (df (area_features (room_features p)))).
  { unfold area_features. destruct (has_column _ "Area"); [|exact Hrooms].
    cbv zeta. destruct (has_column _ "new_total_rooms");
      repeat (apply create_feature_numeric; [not_an_input|]); exact Hrooms. }
  assert (Hind : numeric_inputs_ok
                   (df (indicator_features (area_features (room_features p))))).
  { unfold indicator_features. cbv zeta.
    destruct (has_column _ "Bathrooms"); destruct (has_column _ "Floors");
      repeat (apply create_feature_numeric; [not_an_input|]); exact Harea. }
  assert (Hd1 : numeric_inputs_ok (df p1)).
  { destruct (_ && _); [by eapply extract_from_address_numeric|].
    by injection Hp1 as <-. }
  destruct (has_column (df p1) "Area"); [|exact Hd1].
  unfold create_bins. destruct (df p1 !! "Area"); [|exact Hd1].
  cbv zeta. destruct (pd_cut _ _ _); [|exact Hd1].
  cbn [df _log add_feature set_df].
  apply numeric_inputs_ok_insert; [by_compute | exact Hd1].
Qed.

(** X25.  The first two stages compose, except on a frame without rows.
    On a raw frame whose numeric inputs hold no string, whenever
    [basic_preprocessing] returns, the numeric inputs of its result hold no
    string either, new_total_rooms included; [enhanced_preprocessing] then
    returns a frame on that result whatever the configuration, unless the
    result has the new_city column and no row, where it raises
    [ZeroDivisionError]. *)
Theorem basic_then_enhanced_preprocessing
  (pd_cut : series -> nat -> list string -> outcome series)
  (config : enhanced_config) (df0 out : frame) :
  numeric_inputs_ok df0 ->
  basic_preprocessing pd_cut df0 = Ok out ->
  numeric_inputs_ok out /\
  match out !! "new_city" with
  | Some [] => enhanced_preprocessing config out = Raise ZeroDivisionError
  | _ => exists d', enhanced_preprocessing config out = Ok d'
  end.
Proof.
  unfold basic_preprocessing. cbv zeta. intros Hd0 Hrun.
  apply outcome_bind_inv in Hrun as (p2 & Hp2 & Hrun).
  apply outcome_bind_inv in Hrun as (p3 & Hp3 & Hrun).
  apply outcome_bind_inv in Hrun as (p4 & Hp4 & [= <-]).
  assert (Hd1 : numeric_inputs_ok
                  (df (phase_1_high_missing df0 (DataPreprocessor_init df0)))).
  { unfold phase_1_high_missing. cbv zeta.
    repeat (apply flag_and_fill_numeric; [by_compute | intros _ _; by_computation |]).
    exact Hd0. }
  assert (Hd2 : numeric_inputs_ok (df p2)).
  { unfold phase_2_moderate_missing in Hp2. cbv zeta in Hp2.
    apply outcome_bind_inv in Hp2 as (p2a & Hp2a & Hp2).
    apply outcome_bind_inv in Hp2 as (p2b & Hp2b & [= <-]).
    repeat (apply flag_and_fill_numeric; [by_compute | intros t [=] |]).
    unfold fill_furniture_by_city in Hp2b. cbv zeta in Hp2b.
    apply outcome_bind_inv in Hp2b as (new_city & _ & Hp2b).
    apply outcome_bind_inv in Hp2b as (furniture & _ & [= <-]).
    cbn [df set_df]. apply numeric_inputs_ok_insert; [by_compute|].
    by eapply extract_if_needed_numeric. }
  assert (Hout : numeric_inputs_ok (df p4)).
  { eapply phase_4_feature_engineering_numeric; [exact Hp4|].
    by eapply phase_3_low_missing_numeric. }
  split; [exact Hout|]. by apply enhanced_preprocessing_runs.
Qed.

Lemma basic_then_enhanced_preprocessing_witness :
  (exists d',
      enhanced_preprocessing small_config
        (from_outcome ∅ (basic_preprocessing equal_width_cut furnished_frame))
      = Ok d') /\
  is_ok (basic_preprocessing equal_width_cut rowless_frame) = true /\
  enhanced_preprocessing small_config
    (from_outcome ∅ (basic_preprocessing equal_width_cut rowless_frame))
  = Raise ZeroDivisionError.
Proof.
  split; [|split; [vm_compute; reflexivity|]].
  - pose proof (outcome_of_is_ok
                  (basic_preprocessing equal_width_cut furnished_frame) ∅) as Hrun.
    destruct (basic_then_enhanced_preprocessing equal_width_cut small_config
                furnished_frame
                (from_outcome ∅ (basic_preprocessing equal_width_cut furnished_frame)))
      as (_ & Hruns).
    + apply numeric_inputs_ok_by_computation. vm_compute. reflexivity.
    + apply Hrun. vm_compute. reflexivity.
    + set (out := from_outcome ∅ _) in *.
      assert (Hcity : match out !! "new_city" with
                      | Some (_ :: _) => true
                      | _ => false
                      end = true) by (vm_compute; reflexivity).
      destruct (out !! "new_city") as [[|x s]|];
        [discriminate Hcity | exact Hruns | discriminate Hcity].
  - pose proof (outcome_of_is_ok
                  (basic_preprocessing equal_width_cut rowless_frame) ∅) as Hrun.
    destruct (basic_then_enhanced_preprocessing equal_width_cut small_config
                rowless_frame
                (from_outcome ∅ (basic_preprocessing equal_width_cut rowless_frame)))
      as (_ & Hruns).
    + apply numeric_inputs_ok_by_computation. vm_compute. reflexivity.
    + apply Hrun. vm_compute. reflexivity.
    + set (out := from_outcome ∅ _) in *.
      assert (Hcity : match out !! "new_city" with
                      | Some [] => true
                      | _ => false
                      end = true) by (vm_compute; reflexivity).
      destruct (out !! "new_city") as [[|x s]|];
        [exact Hruns | discriminate Hcity | discriminate Hcity].
Defined.


(** ** The derived flags of [preprocess] agree with each other *)

Lemma sf_order (c1 c2 x : spec_float) :
  positive_float_le c1 c2 = true ->
  (SFltb c2 x = true -> SFltb x c1 = false /\ SFltb c1 x = true) /\
  (SFleb c2 x = true -> SFleb c1 x = true).
Proof.
  destruct c1 as [| | |[|] m1 e1]; try discriminate.
  destruct c2 as [| | |[|] m2 e2]; try discriminate.
  cbn [positive_float_le]. intros Hle.
  assert (Horder : (e1 < e2)%Z \/ e1 = e2 /\ (m1 <= m2)%positive).
  { apply orb_true_iff in Hle as [H1|H2]; [left; by apply Z.ltb_lt|].
    apply andb_true_iff in H2 as (He & Hm). right.
    split; [by apply Z.eqb_eq | by apply Pos.leb_le]. }
  clear Hle. unfold SFltb, SFleb, SFcompare.
  destruct x as [s|s| |s m e].
  - split; intros Hx; discriminate Hx.
  - destruct s; split; intros Hx; try discriminate Hx; by repeat split.
  - split; intros Hx; discriminate Hx.
  - destruct s; [split; intros Hx; discriminate Hx|].
    change (PosDef.Pos.compare_cont Eq m2 m) with (Pos.compare m2 m).
    change (PosDef.Pos.compare_cont Eq m m1) with (Pos.compare m m1).
    change (PosDef.Pos.compare_cont Eq m1 m) with (Pos.compare m1 m).
    destruct (Z.compare_spec e2 e) as [E2|E2|E2];
      destruct (Z.compare_spec e e1) as [E1|E1|E1];
      destruct (Z.compare_spec e1 e) as [E3|E3|E3];
      destruct (Pos.compare_spec m2 m) as [M2|M2|M2];
      destruct (Pos.compare_spec m m1) as [M1|M1|M1];
      destruct (Pos.compare_spec m1 m) as [M3|M3|M3];
      split; intros Hx; try discriminate Hx; repeat split; try reflexivity;
      exfalso; lia.
Qed.

Lemma ltb_above (c1 c2 x : float) :
  positive_float_le (Prim2SF c1) (Prim2SF c2) = true ->
  PrimFloat.ltb c2 x = true ->
  PrimFloat.ltb x c1 = false /\ PrimFloat.ltb c1 x = true.
Proof.
  rewrite !FloatAxioms.ltb_spec. intros Hle. by apply sf_order.
Qed.

Lemma leb_above (c1 c2 x : float) :
  positive_float_le (Prim2SF c1) (Prim2SF c2) = true ->
  PrimFloat.leb c2 x = true -> PrimFloat.leb c1 x = true.
Proof.
  rewrite !FloatAxioms.leb_spec. intros Hle. by apply sf_order.
Qed.

Lemma nan_compares_false (x c : float) :
  PrimFloat.eqb x x = false ->
  PrimFloat.ltb x c = false /\ PrimFloat.ltb c x = false.
Proof.
  rewrite FloatAxioms.eqb_spec, !FloatAxioms.ltb_spec.
  unfold SFeqb, SFltb, SFcompare.
  destruct (Prim2SF x) as [s|s| |s m e]; try discriminate.
  - by destruct s.
  - intros _. by destruct (Prim2SF c).
  - rewrite Z.compare_refl, Pos.compare_cont_refl. by destruct s.
Qed.

(** The entries of the dictionary that the flags and scores of lines
    210-245 write. *)
Lemma compute_features_flags `{PyBuiltins} data w processed w' :
  compute_features data w = (Ok processed, w') ->
  exists area bathrooms furniture_state,
    _to_float (dict_get data "Area" (PInt 70)) 0 = Ok area /\
    _to_float (dict_get data "Bathrooms" (PInt 2)) 0 = Ok bathrooms /\
    _encode_furniture
      (dict_get data "Furniture" (dict_get data "Furniture state" (PStr "")))
      = Ok furniture_state /\
    processed !! "Area" = Some (PFloat area) /\
    processed !! "Bathrooms" = Some (PFloat bathrooms) /\
    processed !! "new_is_large_house" =
      Some (PInt (if PrimFloat.ltb 140 area then 1 else 0)) /\
    processed !! "new_is_luxury" =
      Some (PInt (if PrimFloat.leb 4 bathrooms then 1 else 0)) /\
    processed !! "Area_binned" =
      Some (PInt (if PrimFloat.ltb area 30 then 0
                  else if PrimFloat.ltb area 60 then 1
                  else if PrimFloat.ltb area 100 then 2
                  else if PrimFloat.ltb area 150 then 3
                  else 4)) /\
    processed !! "luxury_score" =
      Some (PInt (luxury_score_online bathrooms area furniture_state)).
Proof.
  intros Hc. unfold compute_features in Hc. cbv zeta in Hc.
  repeat step_inv Hc.
  match type of Hc with
  | match ?found with _ => _ end _ = _ => destruct found as [stats|] eqn:Hfound
  end; apply ret_inv in Hc as [-> ->].
  all: do 3 eexists; repeat (split; [eassumption|]).
  all: rewrite luxury_chain; repeat split; reflexivity.
Qed.

(** X26.  In every frame that [preprocess] returns the derived flags agree
    with each other: the area bin lies between 0 and 4 and the luxury
    score between 0 and 3; a listing flagged as a large house (area above
    140) is in area bin 3 or 4 and has a luxury score of at least 1; a
    listing flagged as luxury (4 bathrooms or more) has a luxury score of
    at least 1.  The one exception to the order of the bins is an area
    that is not a number: it lands in bin 4 without being flagged
    large. *)
Theorem derived_flags_are_coherent `{PyBuiltins} data w df w' :
  preprocess data w = (Ok df, w') ->
  exists area bathrooms large luxury bin score,
    frame_get df "Area" = Some (PFloat area) /\
    frame_get df "Bathrooms" = Some (PFloat bathrooms) /\
    frame_get df "new_is_large_house" = Some (PInt large) /\
    frame_get df "new_is_luxury" = Some (PInt luxury) /\
    frame_get df "Area_binned" = Some (PInt bin) /\
    frame_get df "luxury_score" = Some (PInt score) /\
    0 <= bin <= 4 /\ 0 <= score <= 3 /\
    (large = 1 -> 3 <= bin /\ 1 <= score) /\
    (luxury = 1 -> 1 <= score) /\
    (PrimFloat.eqb area area = false -> bin = 4 /\ large = 0).
Proof.
  intros Hp. apply preprocess_derived in Hp as (processed & Hc & Hget).
  apply compute_features_flags in Hc
    as (area & bathrooms & furniture_state & _ & _ & _ & Parea & Pbath
        & Plarge & Plux & Pbin & Pscore).
  apply Hget in Parea, Pbath, Plarge, Plux, Pbin, Pscore; try expected_feature.
  do 6 eexists. repeat (split; [eassumption|]).
  unfold luxury_score_online.
  split; [repeat destruct (PrimFloat.ltb area _); lia|].
  split; [destruct (PrimFloat.leb 3 bathrooms), (PrimFloat.ltb 100 area),
            (Z.eqb furniture_state 0 || Z.eqb furniture_state 1); lia|].
  split; [|split].
  - destruct (PrimFloat.ltb 140 area) eqn:Hlarge; [intros _ | discriminate].
    destruct (ltb_above 30 140 area ltac:(by_compute) Hlarge) as (-> & _).
    destruct (ltb_above 60 140 area ltac:(by_compute) Hlarge) as (-> & _).
    destruct (ltb_above 100 140 area ltac:(by_compute) Hlarge) as (-> & ->).
    split; [destruct (PrimFloat.ltb area 150); lia|].
    destruct (PrimFloat.leb 3 bathrooms),
      (Z.eqb furniture_state 0 || Z.eqb furniture_state 1); lia.
  - destruct (PrimFloat.leb 4 bathrooms) eqn:Hlux; [intros _ | discriminate].
    rewrite (leb_above 3 4 bathrooms ltac:(by_compute) Hlux).
    destruct (PrimFloat.ltb 100 area),
      (Z.eqb furniture_state 0 || Z.eqb furniture_state 1); lia.
  - intros Hnan.
    destruct (nan_compares_false area 30 Hnan) as (-> & _).
    destruct (nan_compares_false area 60 Hnan) as (-> & _).
    destruct (nan_compares_false area 100 Hnan) as (-> & _).
    destruct (nan_compares_false area 150 Hnan) as (-> & _).
    destruct (nan_compares_false area 140 Hnan) as (_ & ->).
    by split.
Qed.

Lemma derived_flags_are_coherent_witness :
  exists df w' bin score,
    @preprocess reference_builtins scenario_request (fresh_world demo_service)
      = (Ok df, w') /\
    frame_get df "Area_binned" = Some (PInt bin) /\
    frame_get df "luxury_score" = Some (PInt score) /\
    0 <= bin <= 4 /\ 0 <= score <= 3.
Proof.
  destruct (preprocess_total (H := reference_builtins) scenario_request
              (fresh_world demo_service)) as (processed & _ & Hp).
  { apply well_formed_by_computation. vm_compute. reflexivity. }
  destruct (derived_flags_are_coherent (H := reference_builtins) _ _ _ _ Hp)
    as (area & bathrooms & large & luxury & bin & score & _ & _ & _ & _
        & Hbin & Hscore & Hb & Hs & _).
  eexists _, _, bin, score. split; [exact Hp|].
  split; [exact Hbin|]. split; [exact Hscore|]. split; [exact Hb | exact Hs].
Defined.
